(** * Inventory optimizer: EOQ, reorder point and the per-item cost table

    A shallow embedding of [src/ml_models/inventory_optimization.py]
    ([InventoryOptimizer]) and the properties its specification states.

    The Python code computes on IEEE-754 binary64 numbers, held either as
    Python built-in [float]s or as [numpy.float64] scalars and arrays.  The
    embedding is written once over an interface [Float64] of the operations
    the code uses and read at two carriers:

    - [binary64]: Rocq's primitive floats, bit for bit what the code
      computes, special values included (division by zero, NaN);
    - [exact]: the real numbers, the rounding-free reading in which the
      specification states its algebraic laws.  It is meaningful where every
      divisor is non-zero, and the theorems over it say so. *)

From Stdlib Require Import List String Bool Arith Lia.
From Stdlib Require Import Reals Lra.
From Stdlib Require Import ZArith Floats.
Import ListNotations.

Set Implicit Arguments.
#[local] Open Scope string_scope.
#[local] Open Scope list_scope.
#[local] Set Warnings "-inexact-float".

(** ** Exceptions and results *)

Inductive exn : Type :=
| KeyError (key : string)
| TypeError
| ZeroDivisionError
| AttributeError.

Inductive result (T : Type) : Type :=
| Ok (v : T)
| Raise (e : exn).

Arguments Ok {T} v.
Arguments Raise {T} e.

(** ** The arithmetic the code uses *)

Class Float64 (F : Type) : Type := {
  fadd : F -> F -> F;
  fsub : F -> F -> F;
  fmul : F -> F -> F;
  fdiv : F -> F -> F;
  fsqrt : F -> F;
  (** the value of the integer literal [2] *)
  ftwo : F;
  (** [x == 0], the test behind Python's [ZeroDivisionError] *)
  is_zero : F -> bool
}.

#[export] Instance binary64 : Float64 float := {
  fadd := PrimFloat.add;
  fsub := PrimFloat.sub;
  fmul := PrimFloat.mul;
  fdiv := PrimFloat.div;
  fsqrt := PrimFloat.sqrt;
  ftwo := 2%float;
  is_zero := fun x => PrimFloat.eqb x 0%float
}.

#[export] Instance exact : Float64 R := {
  fadd := Rplus;
  fsub := Rminus;
  fmul := Rmult;
  fdiv := Rdiv;
  fsqrt := R_sqrt.sqrt;
  ftwo := 2%R;
  is_zero := fun x => if Req_dec_T x 0%R then true else false
}.

Section Optimizer.

Context {F : Type} {FO : Float64 F}.

(** [scipy.stats.norm.ppf], the standard-normal quantile: an external
    function the optimizer depends on. *)
Variable norm_ppf : F -> F.

(** ** Scalars

    A number reaches the scalar methods as a Python [float] or as a
    [numpy.float64].  The two differ in one place: [/] on two Python floats
    raises [ZeroDivisionError] on a zero divisor, while numpy's division
    follows IEEE-754.  A binary operation with a numpy operand yields a
    numpy scalar; [np.sqrt] and [norm.ppf] always do. *)

Inductive num : Type :=
| Py (x : F)
| Np (x : F).

Definition val (a : num) : F :=
  match a with Py x => x | Np x => x end.

Definition coerce (a b : num) (x : F) : num :=
  match a, b with
  | Py _, Py _ => Py x
  | _, _ => Np x
  end.

Definition num_add (a b : num) : num := coerce a b (fadd (val a) (val b)).
Definition num_mul (a b : num) : num := coerce a b (fmul (val a) (val b)).

Definition truediv (a b : num) : result num :=
  match a, b with
  | Py x, Py y => if is_zero y then Raise ZeroDivisionError else Ok (Py (fdiv x y))
  | _, _ => Ok (Np (fdiv (val a) (val b)))
  end.

Definition np_sqrt (a : num) : num := Np (fsqrt (val a)).

(** The literal [2] is a Python [int]; in a product with a float it takes
    the other operand's type, as a [Py] operand does. *)
Definition two : num := Py ftwo.

(** ** Tables

    A [pandas.DataFrame]: the row labels and the named columns in column
    order.  A column is a [float64] array or an [object] array of strings
    (the [sku_id]s). *)

Inductive column : Type :=
| ObjectCol (l : list string)
| Float64Col (l : list F).

Record DataFrame : Type := mkDataFrame {
  index : list nat;
  columns : list (string * column)
}.

(** ** Objects and the store *)

Record InventoryOptimizer : Type := mkInventoryOptimizer {
  holding_cost_rate : num;
  stockout_cost_rate : num;
  service_level : num
}.

Inductive object : Type :=
| OOptimizer (o : InventoryOptimizer)
| OFrame (df : DataFrame).

Definition loc := nat.
Definition store := list object.

(** A method is a function of the store that returns a value or raises,
    together with the store it leaves. *)
Definition M (T : Type) : Type := store -> result T * store.

Definition ret {T} (v : T) : M T := fun s => (Ok v, s).
Definition raise {T} (e : exn) : M T := fun s => (Raise e, s).
Definition bind {T U} (m : M T) (k : T -> M U) : M U :=
  fun s => match m s with
           | (Ok v, s') => k v s'
           | (Raise e, s') => (Raise e, s')
           end.
Definition lift {T} (r : result T) : M T := fun s => (r, s).

Notation "x <- m ;; k" := (bind m (fun x => k))
  (at level 61, m at next level, right associativity).
Notation "m ;;; k" := (bind m (fun _ => k))
  (at level 61, right associativity).

Fixpoint mapM {T U} (f : T -> M U) (l : list T) : M (list U) :=
  match l with
  | [] => ret []
  | x :: l' => y <- f x ;; ys <- mapM f l' ;; ret (y :: ys)
  end.

Definition alloc (o : object) : M loc :=
  fun s => (Ok (List.length s), s ++ [o]).

Definition get_optimizer (self : loc) : M InventoryOptimizer :=
  fun s => match nth_error s self with
           | Some (OOptimizer o) => (Ok o, s)
           | _ => (Raise AttributeError, s)
           end.

Definition get_frame (l : loc) : M DataFrame :=
  fun s => match nth_error s l with
           | Some (OFrame df) => (Ok df, s)
           | _ => (Raise AttributeError, s)
           end.

Fixpoint update (s : store) (l : loc) (o : object) : store :=
  match s, l with
  | [], _ => []
  | _ :: s', O => o :: s'
  | x :: s', S l' => x :: update s' l' o
  end.

Definition put_frame (l : loc) (df : DataFrame) : M unit :=
  fun s => (Ok tt, update s l (OFrame df)).

(** ** [InventoryOptimizer.__init__] *)

Definition InventoryOptimizer_init
    (holding_cost_rate stockout_cost_rate service_level : num) : M loc :=
  alloc (OOptimizer (mkInventoryOptimizer holding_cost_rate
                                          stockout_cost_rate service_level)).

(** ** [calculate_economic_order_quantity]

    [np.sqrt((2 * demand * ordering_cost) / (self.holding_cost_rate * unit_cost))] *)

Definition calculate_economic_order_quantity
    (self : loc) (demand ordering_cost unit_cost : num) : M num :=
  o <- get_optimizer self ;;
  q <- lift (truediv (num_mul (num_mul two demand) ordering_cost)
                     (num_mul (holding_cost_rate o) unit_cost)) ;;
  ret (np_sqrt q).

(** ** [calculate_reorder_point] *)

Definition calculate_reorder_point
    (self : loc) (lead_time_demand lead_time_std : num)
    (service_level_arg : option num) : M num :=
  sl <- match service_level_arg with
        | None => o <- get_optimizer self ;; ret (service_level o)
        | Some sl => ret sl
        end ;;
  let z := Np (norm_ppf (val sl)) in
  let safety_stock := num_mul z lead_time_std in
  let reorder_point := num_add lead_time_demand safety_stock in
  ret reorder_point.

(** ** Column arithmetic

    The element-wise operators of [pandas.Series] on two columns of one
    table (same row labels, so no alignment takes place).  Arithmetic on an
    [object] column of strings raises [TypeError], except [+], which
    concatenates two strings. *)

Definition zip_with {T U V} (f : T -> U -> V) (a : list T) (b : list U) : list V :=
  map (fun p => f (fst p) (snd p)) (combine a b).

Definition series_binop (f : F -> F -> F) (a b : column) : result column :=
  match a, b with
  | Float64Col x, Float64Col y => Ok (Float64Col (zip_with f x y))
  | _, _ => Raise TypeError
  end.

Definition series_mul := series_binop fmul.
Definition series_sub := series_binop fsub.
Definition series_div := series_binop fdiv.

Definition series_add (a b : column) : result column :=
  match a, b with
  | Float64Col x, Float64Col y => Ok (Float64Col (zip_with fadd x y))
  | ObjectCol x, ObjectCol y => Ok (ObjectCol (zip_with String.append x y))
  | _, _ => Raise TypeError
  end.

(** [c ** 2]: numpy squares by multiplying. *)
Definition series_pow2 (a : column) : result column :=
  match a with
  | Float64Col x => Ok (Float64Col (map (fun v => fmul v v) x))
  | ObjectCol _ => Raise TypeError
  end.

Definition series_sqrt (a : column) : result column :=
  match a with
  | Float64Col x => Ok (Float64Col (map fsqrt x))
  | ObjectCol _ => Raise TypeError
  end.

(** [c * k] for a scalar [k] *)
Definition series_scale (a : column) (k : num) : result column :=
  match a with
  | Float64Col x => Ok (Float64Col (map (fun v => fmul v (val k)) x))
  | ObjectCol _ => Raise TypeError
  end.

(** ** Table access *)

Fixpoint lookup (key : string) (cols : list (string * column)) : option column :=
  match cols with
  | [] => None
  | (k, c) :: cols' => if String.eqb k key then Some c else lookup key cols'
  end.

(** [df[key]] *)
Definition getitem (df : DataFrame) (key : string) : result column :=
  match lookup key (columns df) with
  | Some c => Ok c
  | None => Raise (KeyError key)
  end.

(** [df[key] = c]: an existing column is replaced where it stands, a new one
    is appended. *)
Fixpoint set_col (key : string) (c : column) (cols : list (string * column))
    : list (string * column) :=
  match cols with
  | [] => [(key, c)]
  | (k, c') :: cols' =>
      if String.eqb k key then (k, c) :: cols' else (k, c') :: set_col key c cols'
  end.

Definition setitem (df : DataFrame) (key : string) (c : column) : DataFrame :=
  mkDataFrame (index df) (set_col key c (columns df)).

Definition frame_getitem (l : loc) (key : string) : M column :=
  df <- get_frame l ;; lift (getitem df key).

Definition frame_setitem (l : loc) (key : string) (c : column) : M unit :=
  df <- get_frame l ;; put_frame l (setitem df key c).

(** [data.copy()]: a new table object with the same contents. *)
Definition DataFrame_copy (data : loc) : M loc :=
  df <- get_frame data ;; alloc (OFrame df).

(** ** Rows, for [DataFrame.apply(..., axis=1)]

    [apply] hands the function one row at a time.  The rows of a table with
    an [object] column are [object] arrays whose numbers are Python floats;
    the rows of an all-[float64] table hold [numpy.float64] values. *)

Inductive cell : Type :=
| CStr (s : string)
| CNum (x : num).

Definition row := list (string * cell).

Definition is_object (c : column) : bool :=
  match c with ObjectCol _ => true | Float64Col _ => false end.

Definition has_object (df : DataFrame) : bool :=
  existsb (fun kc => is_object (snd kc)) (columns df).

Definition box (obj : bool) (x : F) : num :=
  if obj then Py x else Np x.

Definition cell_at (obj : bool) (c : column) (i : nat) : option cell :=
  match c with
  | ObjectCol l => option_map CStr (nth_error l i)
  | Float64Col l => option_map (fun x => CNum (box obj x)) (nth_error l i)
  end.

Definition row_of (obj : bool) (cols : list (string * column)) (i : nat) : row :=
  flat_map (fun kc => match cell_at obj (snd kc) i with
                      | Some v => [(fst kc, v)]
                      | None => []
                      end) cols.

(** The row at position [i] *)
Definition iloc (df : DataFrame) (i : nat) : row :=
  row_of (has_object df) (columns df) i.

(** [row[key]] *)
Fixpoint row_getitem (r : row) (key : string) : result cell :=
  match r with
  | [] => Raise (KeyError key)
  | (k, v) :: r' => if String.eqb k key then Ok v else row_getitem r' key
  end.

(** A string where the scalar methods compute with a number. *)
Definition as_num (v : cell) : result num :=
  match v with
  | CNum x => Ok x
  | CStr _ => Raise TypeError
  end.

Definition apply_rows (l : loc) (f : row -> M num) : M column :=
  df <- get_frame l ;;
  outs <- mapM (fun i => f (iloc df i)) (seq 0 (List.length (index df))) ;;
  ret (Float64Col (map val outs)).

(** ** [optimize_inventory_levels]

    The two functions handed to [apply]:
    [lambda row: self.calculate_economic_order_quantity(row['demand_mean'],
    row['ordering_cost'], row['unit_cost'])] and
    [lambda row: self.calculate_reorder_point(row['lead_time_demand'],
    row['lead_time_demand_std'])]. *)

Definition eoq_row (self : loc) (row : row) : M num :=
  d <- lift (row_getitem row "demand_mean") ;;
  oc <- lift (row_getitem row "ordering_cost") ;;
  uc <- lift (row_getitem row "unit_cost") ;;
  d <- lift (as_num d) ;;
  oc <- lift (as_num oc) ;;
  uc <- lift (as_num uc) ;;
  calculate_economic_order_quantity self d oc uc.

Definition rop_row (self : loc) (row : row) : M num :=
  ltd <- lift (row_getitem row "lead_time_demand") ;;
  sd <- lift (row_getitem row "lead_time_demand_std") ;;
  ltd <- lift (as_num ltd) ;;
  sd <- lift (as_num sd) ;;
  calculate_reorder_point self ltd sd None.

Definition optimize_inventory_levels (self data : loc) : M loc :=
  result <- DataFrame_copy data ;;
  (* lead time demand and its standard deviation *)
  dm <- frame_getitem result "demand_mean" ;;
  ltm <- frame_getitem result "lead_time_mean" ;;
  v <- lift (series_mul dm ltm) ;;
  frame_setitem result "lead_time_demand" v ;;;
  dm <- frame_getitem result "demand_mean" ;;
  dm2 <- lift (series_pow2 dm) ;;
  lts <- frame_getitem result "lead_time_std" ;;
  lts2 <- lift (series_pow2 lts) ;;
  p1 <- lift (series_mul dm2 lts2) ;;
  ltm <- frame_getitem result "lead_time_mean" ;;
  ltm2 <- lift (series_pow2 ltm) ;;
  ds <- frame_getitem result "demand_std" ;;
  ds2 <- lift (series_pow2 ds) ;;
  p2 <- lift (series_mul ltm2 ds2) ;;
  var <- lift (series_add p1 p2) ;;
  v <- lift (series_sqrt var) ;;
  frame_setitem result "lead_time_demand_std" v ;;;
  (* EOQ for each SKU *)
  v <- apply_rows result (eoq_row self) ;;
  frame_setitem result "eoq" v ;;;
  (* reorder point for each SKU *)
  v <- apply_rows result (rop_row self) ;;
  frame_setitem result "reorder_point" v ;;;
  (* safety stock *)
  rop <- frame_getitem result "reorder_point" ;;
  ltd <- frame_getitem result "lead_time_demand" ;;
  v <- lift (series_sub rop ltd) ;;
  frame_setitem result "safety_stock" v ;;;
  (* optimal inventory level (EOQ + safety stock) *)
  q <- frame_getitem result "eoq" ;;
  ss <- frame_getitem result "safety_stock" ;;
  v <- lift (series_add q ss) ;;
  frame_setitem result "optimal_inventory" v ;;;
  (* annual holding cost *)
  oi <- frame_getitem result "optimal_inventory" ;;
  uc <- frame_getitem result "unit_cost" ;;
  v <- lift (series_mul oi uc) ;;
  o <- get_optimizer self ;;
  v <- lift (series_scale v (holding_cost_rate o)) ;;
  frame_setitem result "annual_holding_cost" v ;;;
  (* annual ordering cost *)
  dm <- frame_getitem result "demand_mean" ;;
  q <- frame_getitem result "eoq" ;;
  v <- lift (series_div dm q) ;;
  oc <- frame_getitem result "ordering_cost" ;;
  v <- lift (series_mul v oc) ;;
  frame_setitem result "annual_ordering_cost" v ;;;
  (* total annual cost *)
  hc <- frame_getitem result "annual_holding_cost" ;;
  oc <- frame_getitem result "annual_ordering_cost" ;;
  v <- lift (series_add hc oc) ;;
  frame_setitem result "total_annual_cost" v ;;;
  ret result.

(** ** [save_model]

    The parameters handed to [joblib.dump]. *)

Definition save_model (self : loc) : M (list (string * num)) :=
  o <- get_optimizer self ;;
  ret [("holding_cost_rate", holding_cost_rate o);
       ("stockout_cost_rate", stockout_cost_rate o);
       ("service_level", service_level o)].

(** ** What the scalar methods return

    The value of each method as a function of the optimizer's fields; the
    lemmas [calculate_economic_order_quantity_run] and
    [calculate_reorder_point_run] relate them to the methods. *)

Definition eoq_result (o : InventoryOptimizer) (demand ordering_cost unit_cost : num)
    : result num :=
  match truediv (num_mul (num_mul two demand) ordering_cost)
                (num_mul (holding_cost_rate o) unit_cost) with
  | Ok q => Ok (np_sqrt q)
  | Raise e => Raise e
  end.

Definition rop_value (sl lead_time_demand lead_time_std : num) : num :=
  num_add lead_time_demand (num_mul (Np (norm_ppf (val sl))) lead_time_std).

(** ** Well-formed tables *)

Definition col_length (c : column) : nat :=
  match c with
  | ObjectCol l => List.length l
  | Float64Col l => List.length l
  end.

(** Every column has one entry per row label. *)
Definition wf_frame (df : DataFrame) : Prop :=
  Forall (fun kc => col_length (snd kc) = List.length (index df)) (columns df).

(** The entry of a [float64] column at a row position *)
Definition numeric_at (df : DataFrame) (key : string) (i : nat) : option F :=
  match lookup key (columns df) with
  | Some (Float64Col l) => nth_error l i
  | _ => None
  end.

Definition input_fields : list string :=
  ["demand_mean"; "demand_std"; "lead_time_mean"; "lead_time_std";
   "unit_cost"; "ordering_cost"].

Definition derived_fields : list string :=
  ["lead_time_demand"; "lead_time_demand_std"; "eoq"; "reorder_point";
   "safety_stock"; "optimal_inventory"; "annual_holding_cost";
   "annual_ordering_cost"; "total_annual_cost"].

(** ** One item at a time

    The nine derived fields of one row, with the formulas of
    [optimize_inventory_levels] applied to that row's six numbers.  The
    theorem [optimize_inventory_levels_run] shows that the column program
    computes exactly these, row by row. *)

Definition eoq_formula (h demand ordering_cost unit_cost : F) : F :=
  fsqrt (fdiv (fmul (fmul ftwo demand) ordering_cost) (fmul h unit_cost)).

Definition rop_formula (sl lead_time_demand lead_time_std : F) : F :=
  fadd lead_time_demand (fmul (norm_ppf sl) lead_time_std).

Record item : Type := mkItem {
  demand_mean : F;
  demand_std : F;
  lead_time_mean : F;
  lead_time_std : F;
  unit_cost : F;
  ordering_cost : F
}.

Record derived : Type := mkDerived {
  lead_time_demand : F;
  lead_time_demand_std : F;
  eoq : F;
  reorder_point : F;
  safety_stock : F;
  optimal_inventory : F;
  annual_holding_cost : F;
  annual_ordering_cost : F;
  total_annual_cost : F
}.

Definition item_fields (o : InventoryOptimizer) (it : item) : derived :=
  let ltd := fmul (demand_mean it) (lead_time_mean it) in
  let sd :=
    fsqrt (fadd (fmul (fmul (demand_mean it) (demand_mean it))
                      (fmul (lead_time_std it) (lead_time_std it)))
                (fmul (fmul (lead_time_mean it) (lead_time_mean it))
                      (fmul (demand_std it) (demand_std it)))) in
  let q := eoq_formula (val (holding_cost_rate o))
                       (demand_mean it) (ordering_cost it) (unit_cost it) in
  let rop := rop_formula (val (service_level o)) ltd sd in
  let ss := fsub rop ltd in
  let oi := fadd q ss in
  let hc := fmul (fmul oi (unit_cost it)) (val (holding_cost_rate o)) in
  let oc := fmul (fdiv (demand_mean it) q) (ordering_cost it) in
  mkDerived ltd sd q rop ss oi hc oc (fadd hc oc).

(** The six input numbers of the row at position [i] *)
Definition item_at (df : DataFrame) (i : nat) : option item :=
  match numeric_at df "demand_mean" i, numeric_at df "demand_std" i,
        numeric_at df "lead_time_mean" i, numeric_at df "lead_time_std" i,
        numeric_at df "unit_cost" i, numeric_at df "ordering_cost" i with
  | Some a, Some b, Some c, Some d, Some e, Some f => Some (mkItem a b c d e f)
  | _, _, _, _, _, _ => None
  end.

(** The nine derived numbers of the row at position [i] *)
Definition derived_at (df : DataFrame) (i : nat) : option derived :=
  match numeric_at df "lead_time_demand" i, numeric_at df "lead_time_demand_std" i,
        numeric_at df "eoq" i, numeric_at df "reorder_point" i,
        numeric_at df "safety_stock" i, numeric_at df "optimal_inventory" i,
        numeric_at df "annual_holding_cost" i, numeric_at df "annual_ordering_cost" i,
        numeric_at df "total_annual_cost" i with
  | Some a, Some b, Some c, Some d, Some e, Some f, Some g, Some h, Some k =>
      Some (mkDerived a b c d e f g h k)
  | _, _, _, _, _, _, _, _, _ => None
  end.

(** ** The table the method builds

    The columns assigned by [optimize_inventory_levels], in the order of the
    assignments, given the two columns [EOQ] and [ROP] that [apply] returns.
    [optimize_inventory_levels_columns] proves that this is the table the
    method leaves in the store. *)

Definition col_ltd (dm ltm : list F) : list F := zip_with fmul dm ltm.
Definition col_std (dm ds ltm lts : list F) : list F :=
  map fsqrt (zip_with fadd
               (zip_with fmul (map (fun v => fmul v v) dm) (map (fun v => fmul v v) lts))
               (zip_with fmul (map (fun v => fmul v v) ltm) (map (fun v => fmul v v) ds))).

Definition result_frame (o : InventoryOptimizer) (df : DataFrame)
    (dm ds ltm lts uc oc EOQ ROP : list F) : DataFrame :=
  let LTD := col_ltd dm ltm in
  let STD := col_std dm ds ltm lts in
  let SS := zip_with fsub ROP LTD in
  let OI := zip_with fadd EOQ SS in
  let HC := map (fun v => fmul v (val (holding_cost_rate o))) (zip_with fmul OI uc) in
  let OC := zip_with fmul (zip_with fdiv dm EOQ) oc in
  let TAC := zip_with fadd HC OC in
  setitem (setitem (setitem (setitem (setitem (setitem (setitem (setitem (setitem df
    "lead_time_demand" (Float64Col LTD))
    "lead_time_demand_std" (Float64Col STD))
    "eoq" (Float64Col EOQ))
    "reorder_point" (Float64Col ROP))
    "safety_stock" (Float64Col SS))
    "optimal_inventory" (Float64Col OI))
    "annual_holding_cost" (Float64Col HC))
    "annual_ordering_cost" (Float64Col OC))
    "total_annual_cost" (Float64Col TAC).


(** What the method asks of its input: a well-formed table with the six
    numeric input columns, and no row whose EOQ divisor
    [holding_cost_rate * unit_cost] is zero. *)
Definition valid_input (o : InventoryOptimizer) (df : DataFrame) : Prop :=
  wf_frame df /\
  (forall key, In key input_fields ->
     exists l, lookup key (columns df) = Some (Float64Col l)) /\
  (forall i u, numeric_at df "unit_cost" i = Some u ->
     is_zero (fmul (val (holding_cost_rate o)) u) = false).

(** ** Small helpers for stating results *)

Definition is_py (a : num) : bool :=
  match a with Py _ => true | Np _ => false end.

(** The service level a call of [calculate_reorder_point] uses *)
Definition effective_service_level (o : InventoryOptimizer) (arg : option num) : num :=
  match arg with Some sl => sl | None => service_level o end.

(** [m] run from [s] returns [v] and leaves the store [s]. *)
Definition returns {T} (m : M T) (s : store) (v : T) : Prop :=
  m s = (Ok v, s).

(** A table of one row with the seven input columns, as
    [pd.DataFrame({'sku_id': [sku], 'demand_mean': [..], ...})] builds it. *)
Definition one_item_frame (sku : string)
    (demand_mean demand_std lead_time_mean lead_time_std unit_cost ordering_cost : F)
    : DataFrame :=
  mkDataFrame [0]
    [("sku_id", ObjectCol [sku]);
     ("demand_mean", Float64Col [demand_mean]);
     ("demand_std", Float64Col [demand_std]);
     ("lead_time_mean", Float64Col [lead_time_mean]);
     ("lead_time_std", Float64Col [lead_time_std]);
     ("unit_cost", Float64Col [unit_cost]);
     ("ordering_cost", Float64Col [ordering_cost])].

(** ** The frame condition *)

(** [kept n m Q]: run from a store with at least [n] objects, [m] leaves
    the first [n] objects as they are, removes none, and returns only values
    satisfying [Q]. *)
Definition kept (n : nat) {T} (m : M T) (Q : T -> Prop) : Prop :=
  forall S, n <= List.length S ->
    firstn n (snd (m S)) = firstn n S /\
    n <= List.length (snd (m S)) /\
    forall v, fst (m S) = Ok v -> Q v.

End Optimizer.

(** ** The two carriers: defaults and the quantile at the boundary *)

(** The defaults of [__init__]: [holding_cost_rate=0.25],
    [stockout_cost_rate=0.5], [service_level=0.95], Python floats. *)
Definition default_optimizer_b64 : InventoryOptimizer (F:=float) :=
  mkInventoryOptimizer (Py 0.25%float) (Py 0.5%float) (Py 0.95%float).

Definition default_optimizer_R : InventoryOptimizer (F:=R) :=
  mkInventoryOptimizer (Py 0.25%R) (Py 0.5%R) (Py 0.95%R).

(** Modelled from the spec: the standard-normal quantile is undefined at the
    boundary of (0,1), where its value is minus or plus infinity; this is
    what [scipy.stats.norm.ppf] returns at 0 and at 1, and NaN outside
    [0,1].  Inside (0,1) it is the quantile proper, [ndtri], left open. *)
Definition norm_ppf_b64 (ndtri : float -> float) (q : float) : float :=
  if PrimFloat.eqb q 0 then neg_infinity
  else if PrimFloat.eqb q 1 then infinity
  else if PrimFloat.ltb 0 q && PrimFloat.ltb q 1 then ndtri q
  else nan.

(** Modelled from the spec: the two quantile values the spec quotes, z = 1.645
    at service level 0.95 and z = 2.326 at 0.99, to the precision of
    binary64; used to run the scenarios. *)
Definition norm_ppf_table (q : float) : float :=
  if PrimFloat.eqb q 0.95 then 1.6448536269514722%float
  else if PrimFloat.eqb q 0.99 then 2.3263478740408408%float
  else nan.

(** The store of scenario E3: the default optimizer and the one-item table. *)
Definition scenario_store : store (F:=float) :=
  [OOptimizer default_optimizer_b64;
   OFrame (one_item_frame "SKU-0001" 1000%float 200%float 2%float 0.5%float
             20%float 50%float)].

(** The same store with a zero-demand item. *)
Definition zero_demand_store : store (F:=float) :=
  [OOptimizer default_optimizer_b64;
   OFrame (one_item_frame "SKU-0001" 0%float 200%float 2%float 0.5%float
             20%float 50%float)].

(** * The rest of the module and its caller

    [load_model] and [optimize_multi_echelon] of [InventoryOptimizer], and
    [optimize_inventory] of [src/app.py], which prepares a table and hands
    it to [optimize_inventory_levels]. *)

Unset Implicit Arguments.

(** The float literals of [optimize_inventory] ([365], an [int] that
    multiplies a [float64] column, and [0.2]) and the defaults of
    [InventoryOptimizer.__init__]. *)
Class Literals (F : Type) : Type := {
  f365 : F;
  f0_2 : F;
  f0_25 : F;
  f0_5 : F;
  f0_95 : F
}.

#[export] Instance binary64_literals : Literals float := {
  f365 := 365%float;
  f0_2 := 0.2%float;
  f0_25 := 0.25%float;
  f0_5 := 0.5%float;
  f0_95 := 0.95%float
}.

#[export] Instance exact_literals : Literals R := {
  f365 := 365%R;
  f0_2 := 0.2%R;
  f0_25 := 0.25%R;
  f0_5 := 0.5%R;
  f0_95 := 0.95%R
}.

(** Names of a table's columns after [df[k] = ...] *)
Definition add_name (names : list string) (k : string) : list string :=
  if existsb (String.eqb k) names then names else names ++ [k].

(** [s * n] on a Python string *)
Fixpoint str_repeat (n : nat) (s : string) : string :=
  match n with
  | O => EmptyString
  | S n' => String.append s (str_repeat n' s)
  end.

(** Distinct labels in ascending order, as [groupby] sorts its keys *)
Fixpoint insert_key (k : string) (ks : list string) : list string :=
  match ks with
  | [] => [k]
  | k' :: ks' =>
      match String.compare k k' with
      | Lt => k :: ks
      | Eq => ks
      | Gt => k' :: insert_key k ks'
      end
  end.

Definition group_keys (labels : list string) : list string :=
  fold_right insert_key [] labels.

(** The order of the keys *)
Definition key_lt (a b : string) : Prop := String.compare a b = Lt.

(** The entries of [l] at the positions where [mask] holds *)
Fixpoint select {T} (mask : list bool) (l : list T) : list T :=
  match mask, l with
  | b :: mask', x :: l' => if b then x :: select mask' l' else select mask' l'
  | _, _ => []
  end.

(** The position, among the selected entries, of entry [i] *)
Definition rank (mask : list bool) (i : nat) : nat :=
  List.length (filter (fun b => b) (firstn i mask)).

Section Rest.

Context {F : Type} {FO : Float64 F} {FL : Literals F}.

Variable norm_ppf : F -> F.

#[local] Notation "x <- m ;; k" := (bind m (fun x => k))
  (at level 61, m at next level, right associativity).
#[local] Notation "m ;;; k" := (bind m (fun _ => k))
  (at level 61, right associativity).

(** The order in which [optimize_inventory_levels] first reads the six
    input columns *)
Definition access_order : list string :=
  ["demand_mean"; "lead_time_mean"; "lead_time_std"; "demand_std";
   "ordering_cost"; "unit_cost"].

(** The copy after the first two assignments, which is the table [apply]
    takes its rows from *)
Definition with_lead_time_columns (df : DataFrame (F:=F)) (dm ds ltm lts : list F)
    : DataFrame :=
  setitem (setitem df "lead_time_demand" (Float64Col (col_ltd dm ltm)))
          "lead_time_demand_std" (Float64Col (col_std dm ds ltm lts)).

(** ** [load_model]

    [joblib.load(path)] returns the [dict] that [joblib.dump] wrote; the
    file is not modelled, the [dict] is handed over. *)

Fixpoint dict_get {T} (key : string) (d : list (string * T)) : result T :=
  match d with
  | [] => Raise (KeyError key)
  | (k, v) :: d' => if String.eqb k key then Ok v else dict_get key d'
  end.

Definition load_model (params : list (string * num (F:=F))) : M loc :=
  h <- lift (dict_get "holding_cost_rate" params) ;;
  so <- lift (dict_get "stockout_cost_rate" params) ;;
  sl <- lift (dict_get "service_level" params) ;;
  InventoryOptimizer_init h so sl.

(** The keys [load_model] reads, in the order it reads them *)
Definition param_keys : list string :=
  ["holding_cost_rate"; "stockout_cost_rate"; "service_level"].

(** ** [optimize_inventory] of [src/app.py] *)

(** [c * 365]: a [float64] column is multiplied element by element, a
    string is repeated. *)
Definition series_times_365 (a : column (F:=F)) : column :=
  match a with
  | Float64Col x => Float64Col (map (fun v => fmul v f365) x)
  | ObjectCol x => ObjectCol (map (str_repeat 365) x)
  end.

Definition optimize_inventory (data : loc) : M loc :=
  optimization_data <- DataFrame_copy data ;;
  sv <- frame_getitem optimization_data "sales_velocity" ;;
  frame_setitem optimization_data "demand_mean" (series_times_365 sv) ;;;
  dm <- frame_getitem optimization_data "demand_mean" ;;
  v <- lift (series_scale dm (Py f0_2)) ;;
  frame_setitem optimization_data "demand_std" v ;;;
  lt <- frame_getitem optimization_data "lead_time" ;;
  frame_setitem optimization_data "lead_time_mean" lt ;;;
  optimizer <- InventoryOptimizer_init (Py f0_25) (Py f0_5) (Py f0_95) ;;
  result <- optimize_inventory_levels norm_ppf optimizer optimization_data ;;
  ret result.

(** The optimizer that [InventoryOptimizer()] builds *)
Definition default_optimizer : InventoryOptimizer (F:=F) :=
  mkInventoryOptimizer (Py f0_25) (Py f0_5) (Py f0_95).

(** The table [optimize_inventory] hands to the optimizer, for a [float64]
    column [sales_velocity] *)
Definition prepared (df : DataFrame (F:=F)) (sv : list F) (lt : column)
    : DataFrame :=
  let dm := map (fun v => fmul v f365) sv in
  let ds := map (fun v => fmul v f0_2) dm in
  setitem (setitem (setitem df "demand_mean" (Float64Col dm))
                   "demand_std" (Float64Col ds))
          "lead_time_mean" lt.

(** The six numbers the optimizer sees for a row with these inputs *)
Definition prepared_item (sales_velocity lead_time lts uc oc : F) : item :=
  let dm := fmul sales_velocity f365 in
  mkItem dm (fmul dm f0_2) lead_time lts uc oc.

(** ** [optimize_multi_echelon] *)

Definition select_col (mask : list bool) (c : column (F:=F)) : column :=
  match c with
  | ObjectCol l => ObjectCol (select mask l)
  | Float64Col l => Float64Col (select mask l)
  end.

(** The rows of [df] at the positions where [mask] holds, with their labels *)
Definition take_rows (df : DataFrame (F:=F)) (mask : list bool) : DataFrame :=
  mkDataFrame (select mask (index df))
              (map (fun kc => (fst kc, select_col mask (snd kc))) (columns df)).

(** The key of a group: a string of an [object] column or a number of a
    [float64] column *)
Inductive group_key : Type :=
| KStr (k : string)
| KNum (x : F).

(** [pandas]' grouping of a [float64] column (which keys it finds equal,
    their order, what becomes of NaN) is left to the library: the keys with
    the rows of each. *)
Variable float_groups : list F -> list (F * list bool).

(** [data.groupby(key)], iterated: the groups in ascending order of their
    keys, each with the rows of that key in the order of the table. *)
Definition groupby (df : DataFrame (F:=F)) (key : string)
    : result (list (group_key * DataFrame)) :=
  match lookup key (columns df) with
  | None => Raise (KeyError key)
  | Some (ObjectCol l) =>
      Ok (map (fun k => (KStr k, take_rows df (map (String.eqb k) l)))
              (group_keys l))
  | Some (Float64Col l) =>
      Ok (map (fun g => (KNum (fst g), take_rows df (snd g))) (float_groups l))
  end.

(** The body of the loop: [results[echelon] =
    self.optimize_inventory_levels(echelon_data)].  The keys of the groups
    are distinct, so every assignment adds an entry. *)
Definition optimize_echelon (self : loc) (g : group_key * DataFrame (F:=F))
    : M (group_key * loc) :=
  echelon_data <- alloc (OFrame (snd g)) ;;
  r <- optimize_inventory_levels norm_ppf self echelon_data ;;
  ret (fst g, r).

Definition optimize_multi_echelon {NS : Type} (self data : loc)
    (network_structure : NS) : M (list (group_key * loc)) :=
  df <- get_frame data ;;
  groups <- lift (groupby df "echelon") ;;
  results <- mapM (optimize_echelon self) groups ;;
  ret results.

(** A group table as [groupby] on [echelon] hands it over *)
Definition echelon_group (g : group_key * DataFrame (F:=F)) : Prop :=
  wf_frame (snd g) /\
  (forall k, In k input_fields ->
     exists l, lookup k (columns (snd g)) = Some (Float64Col l)) /\
  exists ids, lookup "echelon" (columns (snd g)) = Some (ObjectCol ids).

Definition zero_divisor_in (o : InventoryOptimizer (F:=F))
    (g : group_key * DataFrame (F:=F)) : Prop :=
  exists j u, numeric_at (snd g) "unit_cost" j = Some u /\
              is_zero (fmul (val (holding_cost_rate o)) u) = true.

End Rest.
(** ** Tables for the examples *)

(** A table without the column [lead_time_std] *)
Definition table_without_lead_time_std : DataFrame (F:=float) :=
  mkDataFrame [0]
    [("sku_id", ObjectCol ["SKU-0001"]);
     ("demand_mean", Float64Col [1000%float]);
     ("lead_time_mean", Float64Col [2%float])].

(** A table whose [demand_std] was read as text *)
Definition table_with_text_column : DataFrame (F:=float) :=
  mkDataFrame [0]
    [("demand_mean", Float64Col [1000%float]);
     ("demand_std", ObjectCol ["200"]);
     ("lead_time_mean", Float64Col [2%float]);
     ("lead_time_std", Float64Col [0.5%float]);
     ("unit_cost", Float64Col [20%float]);
     ("ordering_cost", Float64Col [50%float])].

(** Two items, the second with [unit_cost = 0] *)
Definition table_with_free_item : DataFrame (F:=float) :=
  mkDataFrame [0; 1]
    [("sku_id", ObjectCol ["SKU-0001"; "SKU-0002"]);
     ("demand_mean", Float64Col [1000%float; 1000%float]);
     ("demand_std", Float64Col [200%float; 200%float]);
     ("lead_time_mean", Float64Col [2%float; 2%float]);
     ("lead_time_std", Float64Col [0.5%float; 0.5%float]);
     ("unit_cost", Float64Col [20%float; 0%float]);
     ("ordering_cost", Float64Col [50%float; 50%float])].

(** The same two items in a table of numbers only *)
Definition numeric_table_with_free_item : DataFrame (F:=float) :=
  mkDataFrame [0; 1]
    [("demand_mean", Float64Col [1000%float; 1000%float]);
     ("demand_std", Float64Col [200%float; 200%float]);
     ("lead_time_mean", Float64Col [2%float; 2%float]);
     ("lead_time_std", Float64Col [0.5%float; 0.5%float]);
     ("unit_cost", Float64Col [20%float; 0%float]);
     ("ordering_cost", Float64Col [50%float; 50%float])].

(** One item with the columns [optimize_inventory] reads, and with a
    [reorder_point] column of its own, as the inventory table of
    [src/app.py] has one. *)
Definition app_table : DataFrame (F:=float) :=
  mkDataFrame [0]
    [("sku_id", ObjectCol ["SKU-0001"]);
     ("category", ObjectCol ["Food"]);
     ("unit_cost", Float64Col [20%float]);
     ("lead_time", Float64Col [2%float]);
     ("lead_time_std", Float64Col [0.5%float]);
     ("ordering_cost", Float64Col [50%float]);
     ("sales_velocity", Float64Col [120%float]);
     ("reorder_point", Float64Col [30%float])].

(** An item that comes with a reorder point *)
Definition table_with_reorder_point : DataFrame (F:=float) :=
  mkDataFrame [0]
    [("sku_id", ObjectCol ["SKU-0001"]);
     ("reorder_point", Float64Col [30%float]);
     ("demand_mean", Float64Col [1000%float]);
     ("demand_std", Float64Col [200%float]);
     ("lead_time_mean", Float64Col [2%float]);
     ("lead_time_std", Float64Col [0.5%float]);
     ("unit_cost", Float64Col [20%float]);
     ("ordering_cost", Float64Col [50%float])].

(** Three items at two echelons *)
Definition echelon_table : DataFrame (F:=float) :=
  mkDataFrame [0; 1; 2]
    [("echelon", ObjectCol ["store"; "dc"; "store"]);
     ("demand_mean", Float64Col [1000%float; 5000%float; 800%float]);
     ("demand_std", Float64Col [200%float; 500%float; 100%float]);
     ("lead_time_mean", Float64Col [2%float; 4%float; 1%float]);
     ("lead_time_std", Float64Col [0.5%float; 1%float; 0.25%float]);
     ("unit_cost", Float64Col [20%float; 20%float; 10%float]);
     ("ordering_cost", Float64Col [50%float; 100%float; 50%float])].

(** The three items at two echelons, one of them with [unit_cost = 0] *)
Definition echelon_table_with_free_item : DataFrame (F:=float) :=
  mkDataFrame [0; 1; 2]
    [("echelon", ObjectCol ["store"; "dc"; "store"]);
     ("demand_mean", Float64Col [1000%float; 5000%float; 800%float]);
     ("demand_std", Float64Col [200%float; 500%float; 100%float]);
     ("lead_time_mean", Float64Col [2%float; 4%float; 1%float]);
     ("lead_time_std", Float64Col [0.5%float; 1%float; 0.25%float]);
     ("unit_cost", Float64Col [20%float; 20%float; 0%float]);
     ("ordering_cost", Float64Col [50%float; 100%float; 50%float])].

(** * Properties *)

Unset Implicit Arguments.

Section Facts.

Context {F : Type} {FO : Float64 F}.
Variable norm_ppf : F -> F.

(** ** The monad and the store *)

Lemma bind_ok T U (m : M T) (k : T -> M U) (s s' : store (F:=F)) v :
  m s = (Ok v, s') -> bind m k s = k v s'.
Proof. intros H. unfold bind. rewrite H. reflexivity. Qed.

Lemma nth_error_last (s : store (F:=F)) o :
  nth_error (s ++ [o]) (List.length s) = Some o.
Proof. induction s as [|x s IH]; simpl; auto. Qed.

Lemma nth_error_old (s : store (F:=F)) o l x :
  nth_error s l = Some x -> nth_error (s ++ [o]) l = Some x.
Proof.
  revert l. induction s as [|y s IH]; intros [|l] H; simpl in *; try discriminate; auto.
Qed.

Lemma update_last (s : store (F:=F)) o o' :
  update (s ++ [o]) (List.length s) o' = s ++ [o'].
Proof. induction s as [|x s IH]; simpl; [reflexivity | now rewrite IH]. Qed.

Lemma get_frame_last (s : store (F:=F)) df :
  get_frame (List.length s) (s ++ [OFrame df]) = (Ok df, s ++ [OFrame df]).
Proof. unfold get_frame. now rewrite nth_error_last. Qed.

Lemma get_optimizer_old (s : store (F:=F)) x self o :
  nth_error s self = Some (OOptimizer o) ->
  get_optimizer self (s ++ [x]) = (Ok o, s ++ [x]).
Proof. intros H. unfold get_optimizer. now rewrite (nth_error_old _ x _ _ H). Qed.

Lemma frame_getitem_last (s : store (F:=F)) df key :
  frame_getitem (List.length s) key (s ++ [OFrame df])
  = (getitem df key, s ++ [OFrame df]).
Proof.
  unfold frame_getitem. erewrite bind_ok by apply get_frame_last. reflexivity.
Qed.

Lemma frame_setitem_last (s : store (F:=F)) df key c :
  frame_setitem (List.length s) key c (s ++ [OFrame df])
  = (Ok tt, s ++ [OFrame (setitem df key c)]).
Proof.
  unfold frame_setitem. erewrite bind_ok by apply get_frame_last.
  unfold put_frame. now rewrite update_last.
Qed.

(** ** The scalar methods leave the store as it is *)

Lemma calculate_economic_order_quantity_run (s : store (F:=F)) self o d oc uc :
  nth_error s self = Some (OOptimizer o) ->
  calculate_economic_order_quantity self d oc uc s = (eoq_result o d oc uc, s).
Proof.
  intros H. unfold calculate_economic_order_quantity, eoq_result, bind, get_optimizer, lift.
  rewrite H. destruct (truediv _ _); reflexivity.
Qed.

Lemma calculate_reorder_point_run (s : store (F:=F)) self o l sd arg :
  nth_error s self = Some (OOptimizer o) ->
  calculate_reorder_point norm_ppf self l sd arg s
  = (Ok (rop_value norm_ppf
           (match arg with Some sl => sl | None => service_level o end) l sd), s).
Proof.
  intros H. unfold calculate_reorder_point, rop_value, bind, get_optimizer, ret.
  destruct arg; [reflexivity | now rewrite H].
Qed.

(** ** Tables: lookup, assignment, rows *)

Lemma lookup_set_col key k c (cols : list (string * column (F:=F))) :
  lookup key (set_col k c cols) = if String.eqb k key then Some c else lookup key cols.
Proof.
  induction cols as [|[k0 c0] cols IH]; simpl.
  - reflexivity.
  - destruct (String.eqb k0 k) eqn:E; simpl.
    + apply String.eqb_eq in E. subst k0. destruct (String.eqb k key); reflexivity.
    + rewrite IH. destruct (String.eqb k0 key) eqn:E'; [|reflexivity].
      apply String.eqb_eq in E'. subst k0. now rewrite String.eqb_sym, E.
Qed.

Lemma getitem_setitem (df : DataFrame (F:=F)) k c key :
  getitem (setitem df k c) key = if String.eqb k key then Ok c else getitem df key.
Proof.
  unfold getitem, setitem. simpl. rewrite lookup_set_col.
  destruct (String.eqb k key); reflexivity.
Qed.

Lemma numeric_at_setitem (df : DataFrame (F:=F)) k c key i :
  numeric_at (setitem df k c) key i
  = if String.eqb k key
    then match c with Float64Col l => nth_error l i | ObjectCol _ => None end
    else numeric_at df key i.
Proof.
  unfold numeric_at, setitem. simpl. rewrite lookup_set_col.
  destruct (String.eqb k key); reflexivity.
Qed.

Lemma wf_set_col n k c (cols : list (string * column (F:=F))) :
  Forall (fun kc => col_length (snd kc) = n) cols ->
  col_length c = n ->
  Forall (fun kc => col_length (snd kc) = n) (set_col k c cols).
Proof.
  intros Hwf Hc. induction Hwf as [|[k0 c0] cols H0 Hwf IH]; simpl.
  - constructor; auto.
  - destruct (String.eqb k0 k); constructor; auto.
Qed.

Lemma wf_setitem (df : DataFrame (F:=F)) k c :
  wf_frame df -> col_length c = List.length (index df) -> wf_frame (setitem df k c).
Proof. unfold wf_frame, setitem. simpl. apply wf_set_col. Qed.

Lemma lookup_wf (df : DataFrame (F:=F)) key c :
  wf_frame df -> lookup key (columns df) = Some c ->
  col_length c = List.length (index df).
Proof.
  unfold wf_frame. induction 1 as [|[k0 c0] cols H0 Hwf IH]; simpl; [discriminate|].
  destruct (String.eqb k0 key); [intros [= <-]; exact H0 | exact IH].
Qed.

Lemma nth_error_zip_with {T U V} (f : T -> U -> V) a b i x y :
  nth_error a i = Some x -> nth_error b i = Some y ->
  nth_error (zip_with f a b) i = Some (f x y).
Proof.
  unfold zip_with. revert b i.
  induction a as [|a0 a IH]; intros [|b0 b] [|i]; simpl; try discriminate.
  - now intros [= ->] [= ->].
  - apply IH.
Qed.

Lemma length_zip_with {T U V} (f : T -> U -> V) a b n :
  List.length a = n -> List.length b = n -> List.length (zip_with f a b) = n.
Proof.
  intros Ha Hb. unfold zip_with. rewrite length_map, length_combine. lia.
Qed.

Lemma nth_error_Some_lt {T} (l : list T) i :
  i < List.length l -> exists x, nth_error l i = Some x.
Proof.
  intros H. destruct (nth_error l i) eqn:E; [eauto|].
  apply nth_error_None in E. lia.
Qed.

Lemma row_getitem_row_of obj (cols : list (string * column (F:=F))) key l i x :
  lookup key cols = Some (Float64Col l) -> nth_error l i = Some x ->
  row_getitem (row_of obj cols i) key = Ok (CNum (box obj x)).
Proof.
  intros Hl Hx. induction cols as [|[k0 c0] cols IH]; simpl in *; [discriminate|].
  destruct (String.eqb k0 key) eqn:E.
  - injection Hl as ->. simpl. rewrite Hx. simpl. now rewrite E.
  - destruct (cell_at obj c0 i); simpl; [rewrite E|]; auto.
Qed.

Lemma mapM_seq {U} (f : nat -> M U) (S : store (F:=F)) n a :
  (forall i, a <= i < a + n -> exists v, f i S = (Ok v, S)) ->
  exists outs, mapM f (seq a n) S = (Ok outs, S) /\ List.length outs = n /\
    forall i v, i < n -> f (a + i) S = (Ok v, S) -> nth_error outs i = Some v.
Proof.
  revert a. induction n as [|n IH]; intros a Hf; simpl.
  - exists []. repeat split. intros i v Hi. lia.
  - destruct (Hf a ltac:(lia)) as [v0 Hv0].
    destruct (IH (Datatypes.S a)) as (outs & Hm & Hlen & Hnth).
    { intros i Hi. apply Hf. lia. }
    exists (v0 :: outs). repeat split.
    + erewrite bind_ok by exact Hv0. erewrite bind_ok by exact Hm. reflexivity.
    + simpl. now rewrite Hlen.
    + intros [|i] v Hi Hv; simpl.
      * rewrite Nat.add_0_r in Hv. congruence.
      * apply Hnth; [lia|]. now rewrite Nat.add_succ_comm.
Qed.

Lemma apply_rows_last (s : store (F:=F)) df (f : row -> M num) :
  (forall i, i < List.length (index df) ->
     exists v, f (iloc df i) (s ++ [OFrame df]) = (Ok v, s ++ [OFrame df])) ->
  exists outs,
    apply_rows (List.length s) f (s ++ [OFrame df])
    = (Ok (Float64Col outs), s ++ [OFrame df]) /\
    List.length outs = List.length (index df) /\
    forall i v, i < List.length (index df) ->
      f (iloc df i) (s ++ [OFrame df]) = (Ok v, s ++ [OFrame df]) ->
      nth_error outs i = Some (val v).
Proof.
  intros Hf.
  destruct (mapM_seq (fun i => f (iloc df i)) (s ++ [OFrame df])
              (List.length (index df)) 0) as (outs & Hm & Hlen & Hnth).
  { intros i Hi. apply Hf. lia. }
  exists (map val outs). repeat split.
  - unfold apply_rows. erewrite bind_ok by apply get_frame_last.
    erewrite bind_ok by exact Hm. reflexivity.
  - now rewrite length_map.
  - intros i v Hi Hv. rewrite nth_error_map, (Hnth i v Hi Hv). reflexivity.
Qed.

(** ** Values of the scalar methods *)

Lemma val_coerce (a b : num) (x : F) : val (coerce a b x) = x.
Proof. destruct a, b; reflexivity. Qed.

Lemma truediv_nonzero (a b : num (F:=F)) :
  is_zero (val b) = false ->
  truediv a b = Ok (coerce a b (fdiv (val a) (val b))).
Proof. intros H. destruct a, b; simpl in *; try reflexivity. now rewrite H. Qed.

Lemma eoq_result_nonzero (o : InventoryOptimizer (F:=F)) d oc uc :
  is_zero (fmul (val (holding_cost_rate o)) (val uc)) = false ->
  eoq_result o d oc uc
  = Ok (Np (eoq_formula (val (holding_cost_rate o)) (val d) (val oc) (val uc))).
Proof.
  intros H. unfold eoq_result. rewrite truediv_nonzero.
  - unfold np_sqrt, eoq_formula, num_mul, two. now rewrite !val_coerce.
  - unfold num_mul. now rewrite val_coerce.
Qed.

Lemma rop_value_formula sl (l sd : num (F:=F)) :
  rop_value norm_ppf sl l sd = Np (rop_formula norm_ppf (val sl) (val l) (val sd)).
Proof.
  unfold rop_value, rop_formula, num_add, num_mul. destruct l, sd; reflexivity.
Qed.

(** ** The two row functions *)

Lemma numeric_at_inv (df : DataFrame (F:=F)) key i x :
  numeric_at df key i = Some x ->
  exists l, lookup key (columns df) = Some (Float64Col l) /\ nth_error l i = Some x.
Proof.
  unfold numeric_at. destruct (lookup key (columns df)) as [[l|l]|]; try discriminate.
  eauto.
Qed.

Lemma row_getitem_iloc (df : DataFrame (F:=F)) key i x :
  numeric_at df key i = Some x ->
  row_getitem (iloc df i) key = Ok (CNum (box (has_object df) x)).
Proof.
  intros H. destruct (numeric_at_inv _ _ _ _ H) as (l & Hl & Hx).
  unfold iloc. eapply row_getitem_row_of; eauto.
Qed.

Lemma val_box b (x : F) : val (box b x) = x.
Proof. destruct b; reflexivity. Qed.

Lemma eoq_row_run (s : store (F:=F)) self o df i a c u :
  nth_error s self = Some (OOptimizer o) ->
  numeric_at df "demand_mean" i = Some a ->
  numeric_at df "ordering_cost" i = Some c ->
  numeric_at df "unit_cost" i = Some u ->
  eoq_row self (iloc df i) s
  = (eoq_result o (box (has_object df) a) (box (has_object df) c)
                (box (has_object df) u), s).
Proof.
  intros Hs Ha Hc Hu. unfold eoq_row.
  rewrite (row_getitem_iloc _ _ _ _ Ha), (row_getitem_iloc _ _ _ _ Hc),
    (row_getitem_iloc _ _ _ _ Hu).
  unfold bind, lift. simpl. now apply calculate_economic_order_quantity_run.
Qed.

Lemma rop_row_run (s : store (F:=F)) self o df i l sd :
  nth_error s self = Some (OOptimizer o) ->
  numeric_at df "lead_time_demand" i = Some l ->
  numeric_at df "lead_time_demand_std" i = Some sd ->
  rop_row norm_ppf self (iloc df i) s
  = (Ok (Np (rop_formula norm_ppf (val (service_level o)) l sd)), s).
Proof.
  intros Hs Hl Hsd. unfold rop_row.
  rewrite (row_getitem_iloc _ _ _ _ Hl), (row_getitem_iloc _ _ _ _ Hsd).
  unfold bind, lift. simpl.
  rewrite (calculate_reorder_point_run _ _ _ _ _ None Hs), rop_value_formula.
  now rewrite !val_box.
Qed.

(** ** Running [optimize_inventory_levels] *)

Lemma copy_run (s : store (F:=F)) data df :
  nth_error s data = Some (OFrame df) ->
  DataFrame_copy data s = (Ok (List.length s), s ++ [OFrame df]).
Proof.
  intros H. unfold DataFrame_copy, bind, get_frame, alloc. now rewrite H.
Qed.

Lemma getitem_lookup (df : DataFrame (F:=F)) key c :
  lookup key (columns df) = Some c -> getitem df key = Ok c.
Proof. intros H. unfold getitem. now rewrite H. Qed.


Lemma numeric_at_lookup (df : DataFrame (F:=F)) key l i :
  lookup key (columns df) = Some (Float64Col l) -> numeric_at df key i = nth_error l i.
Proof. intros H. unfold numeric_at. now rewrite H. Qed.

End Facts.

(** Proof steps for straight-line table code: evaluate a comparison of
    column names, run one statement, read a column or an entry. *)

Ltac eval_eqb :=
  repeat match goal with
         | |- context [String.eqb ?a ?b] =>
             let v := eval vm_compute in (String.eqb a b) in
             change (String.eqb a b) with v
         end; cbv iota.

Ltac step H tac := erewrite bind_ok in H; [ cbv beta in H | tac ].

Ltac get_tac :=
  rewrite frame_getitem_last; rewrite ?getitem_setitem; eval_eqb;
  first [ reflexivity | erewrite getitem_lookup by eassumption; reflexivity ].

Ltac num_tac := rewrite ?numeric_at_setitem; eval_eqb.

Section Running.

Context {F : Type} {FO : Float64 F}.
Variable norm_ppf : F -> F.

Lemma optimize_inventory_levels_columns (s : store (F:=F)) self data o df dm ds ltm lts uc oc :
  nth_error s self = Some (OOptimizer o) ->
  nth_error s data = Some (OFrame df) ->
  wf_frame df ->
  lookup "demand_mean" (columns df) = Some (Float64Col dm) ->
  lookup "demand_std" (columns df) = Some (Float64Col ds) ->
  lookup "lead_time_mean" (columns df) = Some (Float64Col ltm) ->
  lookup "lead_time_std" (columns df) = Some (Float64Col lts) ->
  lookup "unit_cost" (columns df) = Some (Float64Col uc) ->
  lookup "ordering_cost" (columns df) = Some (Float64Col oc) ->
  (forall u, In u uc -> is_zero (fmul (val (holding_cost_rate o)) u) = false) ->
  exists EOQ ROP,
    List.length EOQ = List.length (index df) /\
    List.length ROP = List.length (index df) /\
    (forall i a c u, nth_error dm i = Some a -> nth_error oc i = Some c ->
       nth_error uc i = Some u ->
       nth_error EOQ i = Some (eoq_formula (val (holding_cost_rate o)) a c u)) /\
    (forall i l sd, nth_error (col_ltd dm ltm) i = Some l ->
       nth_error (col_std dm ds ltm lts) i = Some sd ->
       nth_error ROP i = Some (rop_formula norm_ppf (val (service_level o)) l sd)) /\
    optimize_inventory_levels norm_ppf self data s
    = (Ok (List.length s),
       s ++ [OFrame (result_frame o df dm ds ltm lts uc oc EOQ ROP)]).
Proof.
  intros Hself Hdata Hwf Hdm Hds Hltm Hlts Huc Hoc Hnz.
  pose proof (lookup_wf _ _ _ Hwf Hdm) as Ldm.
  pose proof (lookup_wf _ _ _ Hwf Hds) as Lds.
  pose proof (lookup_wf _ _ _ Hwf Hltm) as Lltm.
  pose proof (lookup_wf _ _ _ Hwf Hlts) as Llts.
  pose proof (lookup_wf _ _ _ Hwf Huc) as Luc.
  pose proof (lookup_wf _ _ _ Hwf Hoc) as Loc.
  simpl in Ldm, Lds, Lltm, Llts, Luc, Loc.
  remember (optimize_inventory_levels norm_ppf self data s) as R eqn:HR.
  unfold optimize_inventory_levels in HR.
  step HR ltac:(apply copy_run; eassumption).
  step HR get_tac. step HR get_tac. step HR ltac:(reflexivity).
  step HR ltac:(apply frame_setitem_last).
  step HR get_tac. step HR ltac:(reflexivity).
  step HR get_tac. step HR ltac:(reflexivity).
  step HR ltac:(reflexivity).
  step HR get_tac. step HR ltac:(reflexivity).
  step HR get_tac. step HR ltac:(reflexivity).
  step HR ltac:(reflexivity). step HR ltac:(reflexivity). step HR ltac:(reflexivity).
  step HR ltac:(apply frame_setitem_last).
  fold (col_ltd dm ltm) in HR. fold (col_std dm ds ltm lts) in HR.
  (* the EOQ column *)
  match type of HR with context [OFrame ?d] =>
    destruct (apply_rows_last s d (eoq_row self)) as (EOQ & Happ & LEOQ & HEOQ)
  end.
  { intros i Hi. simpl in Hi.
    destruct (nth_error_Some_lt dm i ltac:(lia)) as [a Ha].
    destruct (nth_error_Some_lt oc i ltac:(lia)) as [c Hc].
    destruct (nth_error_Some_lt uc i ltac:(lia)) as [u Hu].
    erewrite eoq_row_run; [ | apply nth_error_old; eassumption
                            | num_tac; erewrite numeric_at_lookup by eassumption; eassumption .. ].
    rewrite eoq_result_nonzero; [eauto|].
    rewrite val_box. apply Hnz. eapply nth_error_In; eassumption. }
  step HR ltac:(exact Happ).
  step HR ltac:(apply frame_setitem_last).
  (* the reorder-point column *)
  match type of HR with context [OFrame ?d] =>
    destruct (apply_rows_last s d (rop_row norm_ppf self)) as (ROP & Happ' & LROP & HROP)
  end.
  { intros i Hi. simpl in Hi.
    destruct (nth_error_Some_lt (col_ltd dm ltm) i) as [l Hl].
    { unfold col_ltd. erewrite length_zip_with; eauto. }
    destruct (nth_error_Some_lt (col_std dm ds ltm lts) i) as [sd Hsd].
    { unfold col_std. rewrite length_map.
      erewrite length_zip_with; [eassumption | | ];
        (erewrite length_zip_with; [reflexivity | | ]; rewrite length_map; assumption). }
    erewrite rop_row_run; [ eauto | apply nth_error_old; eassumption
                            | num_tac; eassumption .. ]. }
  step HR ltac:(exact Happ').
  step HR ltac:(apply frame_setitem_last).
  step HR get_tac. step HR get_tac. step HR ltac:(reflexivity).
  step HR ltac:(apply frame_setitem_last).
  step HR get_tac. step HR get_tac. step HR ltac:(reflexivity).
  step HR ltac:(apply frame_setitem_last).
  step HR get_tac. step HR get_tac. step HR ltac:(reflexivity).
  step HR ltac:(apply get_optimizer_old; eassumption).
  step HR ltac:(reflexivity).
  step HR ltac:(apply frame_setitem_last).
  step HR get_tac. step HR get_tac. step HR ltac:(reflexivity).
  step HR get_tac. step HR ltac:(reflexivity).
  step HR ltac:(apply frame_setitem_last).
  step HR get_tac. step HR get_tac. step HR ltac:(reflexivity).
  step HR ltac:(apply frame_setitem_last).
  exists EOQ, ROP. repeat split; try assumption.
  - intros i a c u Ha Hc Hu. simpl in HEOQ.
    assert (Hi : i < List.length (index df)).
    { rewrite <- Ldm. apply nth_error_Some. congruence. }
    pose proof (HEOQ i (Np (eoq_formula (val (holding_cost_rate o)) a c u)) Hi) as H.
    simpl in H. apply H.
    erewrite eoq_row_run; [ | apply nth_error_old; eassumption
                            | num_tac; erewrite numeric_at_lookup by eassumption; eassumption .. ].
    rewrite eoq_result_nonzero.
    + now rewrite !val_box.
    + rewrite val_box. apply Hnz. eapply nth_error_In; eassumption.
  - intros i l sd Hl Hsd. simpl in HROP.
    assert (Hi : i < List.length (index df)).
    { assert (i < List.length (col_ltd dm ltm)) by (apply nth_error_Some; congruence).
      unfold col_ltd in H. erewrite length_zip_with in H; eauto. }
    pose proof (HROP i (Np (rop_formula norm_ppf (val (service_level o)) l sd)) Hi) as H.
    simpl in H. apply H.
    erewrite rop_row_run; [ reflexivity | apply nth_error_old; eassumption
                            | num_tac; eassumption .. ].
Qed.

Lemma set_col_fresh k c (cols : list (string * column (F:=F))) :
  lookup k cols = None -> set_col k c cols = cols ++ [(k, c)].
Proof.
  induction cols as [|[k0 c0] cols IH]; simpl; [reflexivity|].
  destruct (String.eqb k0 k); [discriminate|]. intros H. now rewrite IH.
Qed.

Lemma index_setitem (df : DataFrame (F:=F)) k c : index (setitem df k c) = index df.
Proof. reflexivity. Qed.

Lemma columns_setitem (df : DataFrame (F:=F)) k c :
  columns (setitem df k c) = set_col k c (columns df).
Proof. reflexivity. Qed.

Lemma In_nth_error_numeric (df : DataFrame (F:=F)) key l u :
  lookup key (columns df) = Some (Float64Col l) -> In u l ->
  exists i, numeric_at df key i = Some u.
Proof.
  intros Hl Hu. apply In_nth_error in Hu as [i Hi]. exists i.
  now rewrite (numeric_at_lookup _ _ _ _ Hl).
Qed.

Lemma optimize_inventory_levels_run (s : store (F:=F)) self data o df :
  nth_error s self = Some (OOptimizer o) ->
  nth_error s data = Some (OFrame df) ->
  valid_input o df ->
  exists df',
    optimize_inventory_levels norm_ppf self data s
    = (Ok (List.length s), s ++ [OFrame df']) /\
    index df' = index df /\
    wf_frame df' /\
    (forall key, ~ In key derived_fields ->
       lookup key (columns df') = lookup key (columns df)) /\
    (forall key, In key derived_fields ->
       exists l, lookup key (columns df') = Some (Float64Col l)) /\
    ((forall key, In key derived_fields -> lookup key (columns df) = None) ->
       map fst (columns df') = map fst (columns df) ++ derived_fields) /\
    (forall i, i < List.length (index df) ->
       exists it, item_at df i = Some it /\
                  derived_at df' i = Some (item_fields norm_ppf o it)).
Proof.
  intros Hself Hdata (Hwf & Hcols & Hnz).
  destruct (Hcols "demand_mean") as [dm Hdm]; [simpl; tauto|].
  destruct (Hcols "demand_std") as [ds Hds]; [simpl; tauto|].
  destruct (Hcols "lead_time_mean") as [ltm Hltm]; [simpl; tauto|].
  destruct (Hcols "lead_time_std") as [lts Hlts]; [simpl; tauto|].
  destruct (Hcols "unit_cost") as [uc Huc]; [simpl; tauto|].
  destruct (Hcols "ordering_cost") as [oc Hoc]; [simpl; tauto|].
  pose proof (lookup_wf _ _ _ Hwf Hdm) as Ldm.
  pose proof (lookup_wf _ _ _ Hwf Hds) as Lds.
  pose proof (lookup_wf _ _ _ Hwf Hltm) as Lltm.
  pose proof (lookup_wf _ _ _ Hwf Hlts) as Llts.
  pose proof (lookup_wf _ _ _ Hwf Huc) as Luc.
  pose proof (lookup_wf _ _ _ Hwf Hoc) as Loc.
  simpl in Ldm, Lds, Lltm, Llts, Luc, Loc.
  destruct (optimize_inventory_levels_columns s self data o df
              dm ds ltm lts uc oc Hself Hdata Hwf Hdm Hds Hltm Hlts Huc Hoc)
    as (EOQ & ROP & LEOQ & LROP & HEOQ & HROP & Hrun).
  { intros u Hu. destruct (In_nth_error_numeric _ _ _ _ Huc Hu) as [i Hi]. eauto. }
  assert (LLTD : List.length (col_ltd dm ltm) = List.length (index df)).
  { unfold col_ltd. now apply length_zip_with. }
  assert (LSTD : List.length (col_std dm ds ltm lts) = List.length (index df)).
  { unfold col_std. rewrite length_map.
    apply length_zip_with; apply length_zip_with; now rewrite length_map. }
  eexists. split; [exact Hrun|]. split; [reflexivity|].
  split; [|split; [|split; [|split]]].
  - unfold result_frame.
    repeat (apply wf_setitem; [ | rewrite ?index_setitem; simpl;
      rewrite ?length_map; repeat (apply length_zip_with; rewrite ?length_map); assumption ]).
    assumption.
  - intros key Hkey. unfold result_frame. rewrite !columns_setitem, !lookup_set_col.
    assert (Hne : forall k, In k derived_fields -> String.eqb k key = false).
    { intros k Hk. apply String.eqb_neq. intros ->. contradiction. }
    rewrite !Hne by (simpl; tauto). reflexivity.
  - intros key Hkey. unfold result_frame. rewrite !columns_setitem, !lookup_set_col.
    simpl in Hkey.
    repeat (destruct Hkey as [<- | Hkey]; [eval_eqb; eexists; reflexivity|]).
    contradiction.
  - intros Hfresh. unfold result_frame. rewrite !columns_setitem.
    repeat (rewrite set_col_fresh;
            [ | rewrite ?lookup_set_col; eval_eqb; apply Hfresh; simpl; tauto ]).
    rewrite !map_app, <- !app_assoc. reflexivity.
  - intros i Hi.
    destruct (nth_error_Some_lt dm i ltac:(lia)) as [a Ha].
    destruct (nth_error_Some_lt ds i ltac:(lia)) as [b Hb].
    destruct (nth_error_Some_lt ltm i ltac:(lia)) as [c Hc].
    destruct (nth_error_Some_lt lts i ltac:(lia)) as [d Hd].
    destruct (nth_error_Some_lt uc i ltac:(lia)) as [e He].
    destruct (nth_error_Some_lt oc i ltac:(lia)) as [f Hf].
    exists (mkItem a b c d e f). split.
    + unfold item_at.
      rewrite (numeric_at_lookup _ _ _ i Hdm), (numeric_at_lookup _ _ _ i Hds),
        (numeric_at_lookup _ _ _ i Hltm), (numeric_at_lookup _ _ _ i Hlts),
        (numeric_at_lookup _ _ _ i Huc), (numeric_at_lookup _ _ _ i Hoc).
      now rewrite Ha, Hb, Hc, Hd, He, Hf.
    + assert (HLTD : nth_error (col_ltd dm ltm) i = Some (fmul a c)).
      { unfold col_ltd. now apply nth_error_zip_with. }
      assert (HSTD : nth_error (col_std dm ds ltm lts) i
                     = Some (fsqrt (fadd (fmul (fmul a a) (fmul d d))
                                         (fmul (fmul c c) (fmul b b))))).
      { unfold col_std. rewrite nth_error_map.
        erewrite nth_error_zip_with; [reflexivity | | ];
          (erewrite nth_error_zip_with; [reflexivity | | ];
           rewrite nth_error_map; (rewrite Ha || rewrite Hb || rewrite Hc || rewrite Hd);
           reflexivity). }
      pose proof (HEOQ i a f e Ha Hf He) as HQ.
      pose proof (HROP i _ _ HLTD HSTD) as HR.
      pose proof (nth_error_zip_with fsub _ _ _ _ _ HR HLTD) as HSS.
      pose proof (nth_error_zip_with fadd _ _ _ _ _ HQ HSS) as HOI.
      pose proof (nth_error_zip_with fmul _ _ _ _ _ HOI He) as HOIU.
      pose proof (nth_error_zip_with fdiv _ _ _ _ _ Ha HQ) as HDQ.
      pose proof (nth_error_zip_with fmul _ _ _ _ _ HDQ Hf) as HOC.
      assert (HHC : nth_error
                (map (fun v => fmul v (val (holding_cost_rate o)))
                   (zip_with fmul (zip_with fadd EOQ (zip_with fsub ROP (col_ltd dm ltm))) uc)) i
              = Some (fmul (fmul (fadd (eoq_formula (val (holding_cost_rate o)) a f e)
                   (fsub (rop_formula norm_ppf (val (service_level o)) (fmul a c)
                      (fsqrt (fadd (fmul (fmul a a) (fmul d d)) (fmul (fmul c c) (fmul b b)))))
                      (fmul a c))) e) (val (holding_cost_rate o)))).
      { now rewrite nth_error_map, HOIU. }
      pose proof (nth_error_zip_with fadd _ _ _ _ _ HHC HOC) as HTAC.
      unfold derived_at, result_frame. num_tac.
      rewrite HLTD, HSTD, HQ, HR, HSS, HOI, HOC, HHC, HTAC. reflexivity.
Qed.

End Running.

(** ** What a call leaves untouched *)

Section Frame.

Context {F : Type} {FO : Float64 F}.
Variable norm_ppf : F -> F.

Lemma kept_ret n {T} (v : T) (Q : T -> Prop) : Q v -> kept (F:=F) n (ret v) Q.
Proof. intros H S HS. simpl. repeat split; auto. now intros ? [= <-]. Qed.

Lemma kept_lift n {T} (r : result T) : kept (F:=F) n (lift r) (fun _ => True).
Proof. intros S HS. simpl. auto. Qed.

Lemma kept_bind n {T U} (m : M T) (k : T -> M U) (Q : T -> Prop) (Q' : U -> Prop) :
  kept (F:=F) n m Q -> (forall v, Q v -> kept (F:=F) n (k v) Q') -> kept (F:=F) n (bind m k) Q'.
Proof.
  intros Hm Hk S HS. destruct (Hm S HS) as (H1 & H2 & H3).
  unfold bind. destruct (m S) as [[v|e] S'] eqn:E; simpl in *.
  - destruct (Hk v (H3 v eq_refl) S' H2) as (K1 & K2 & K3).
    repeat split; auto. congruence.
  - repeat split; auto. discriminate.
Qed.

Lemma kept_get_frame n l : kept (F:=F) n (get_frame l) (fun _ => True).
Proof.
  intros S HS. unfold get_frame.
  destruct (nth_error S l) as [[?|?]|]; simpl; auto.
Qed.

Lemma kept_get_optimizer n l : kept (F:=F) n (get_optimizer l) (fun _ => True).
Proof.
  intros S HS. unfold get_optimizer.
  destruct (nth_error S l) as [[?|?]|]; simpl; auto.
Qed.

Lemma length_update (S : store (F:=F)) l o : List.length (update S l o) = List.length S.
Proof. revert l. induction S as [|x S IH]; intros [|l]; simpl; auto. Qed.

Lemma firstn_update (S : store (F:=F)) n l o : n <= l -> firstn n (update S l o) = firstn n S.
Proof.
  revert n l. induction S as [|x S IH]; intros [|n] [|l] H; simpl; auto; try lia.
  f_equal. apply IH. lia.
Qed.

Lemma kept_put_frame n l df : n <= l -> kept (F:=F) n (put_frame l df) (fun _ => True).
Proof.
  intros H S HS. unfold put_frame. simpl.
  rewrite length_update, firstn_update; auto.
Qed.

Lemma kept_alloc n o : kept (F:=F) n (alloc o) (fun l => n <= l).
Proof.
  intros S HS. unfold alloc. simpl. rewrite length_app. simpl. repeat split.
  - rewrite firstn_app. replace (n - List.length S) with 0 by lia. simpl.
    now rewrite app_nil_r.
  - lia.
  - now intros ? [= <-].
Qed.

Lemma kept_mapM n {T U} (f : T -> M U) (l : list T) :
  (forall x, kept (F:=F) n (f x) (fun _ => True)) -> kept (F:=F) n (mapM f l) (fun _ => True).
Proof.
  intros Hf. induction l as [|x l IH]; simpl.
  - now apply kept_ret.
  - eapply kept_bind; [apply Hf|]. intros y _.
    eapply kept_bind; [apply IH|]. intros ys _. now apply kept_ret.
Qed.

Lemma kept_calculate_economic_order_quantity n self d oc uc :
  kept (F:=F) n (calculate_economic_order_quantity self d oc uc) (fun _ => True).
Proof.
  unfold calculate_economic_order_quantity.
  eapply kept_bind; [apply kept_get_optimizer|]. intros o _.
  eapply kept_bind; [apply kept_lift|]. intros q _. now apply kept_ret.
Qed.

Lemma kept_calculate_reorder_point n self l sd arg :
  kept (F:=F) n (calculate_reorder_point norm_ppf self l sd arg) (fun _ => True).
Proof.
  unfold calculate_reorder_point.
  eapply kept_bind with (Q := fun _ => True).
  - destruct arg; [now apply kept_ret|].
    eapply kept_bind; [apply kept_get_optimizer|]. intros o _. now apply kept_ret.
  - intros sl _. now apply kept_ret.
Qed.

Lemma kept_frame_getitem n l key : kept (F:=F) n (frame_getitem l key) (fun _ => True).
Proof.
  unfold frame_getitem.
  eapply kept_bind; [apply kept_get_frame|]. intros df _. apply kept_lift.
Qed.

Lemma kept_frame_setitem n l key c : n <= l -> kept (F:=F) n (frame_setitem l key c) (fun _ => True).
Proof.
  intros H. unfold frame_setitem.
  eapply kept_bind; [apply kept_get_frame|]. intros df _. now apply kept_put_frame.
Qed.

Lemma kept_apply_rows n l (f : row -> M num) :
  (forall r, kept (F:=F) n (f r) (fun _ => True)) -> kept (F:=F) n (apply_rows l f) (fun _ => True).
Proof.
  intros Hf. unfold apply_rows.
  eapply kept_bind; [apply kept_get_frame|]. intros df _.
  eapply kept_bind; [apply kept_mapM; intros i; apply Hf|]. intros outs _.
  now apply kept_ret.
Qed.

Lemma kept_eoq_row n self r : kept (F:=F) n (eoq_row self r) (fun _ => True).
Proof.
  unfold eoq_row.
  repeat (eapply kept_bind; [apply kept_lift|]; intros ? _).
  apply kept_calculate_economic_order_quantity.
Qed.

Lemma kept_rop_row n self r : kept (F:=F) n (rop_row norm_ppf self r) (fun _ => True).
Proof.
  unfold rop_row.
  repeat (eapply kept_bind; [apply kept_lift|]; intros ? _).
  apply kept_calculate_reorder_point.
Qed.

Lemma kept_DataFrame_copy n data : kept (F:=F) n (DataFrame_copy data) (fun l => n <= l).
Proof.
  unfold DataFrame_copy.
  eapply kept_bind; [apply kept_get_frame|]. intros df _. apply kept_alloc.
Qed.

Lemma kept_optimize_inventory_levels n self data :
  kept (F:=F) n (optimize_inventory_levels norm_ppf self data) (fun l => n <= l).
Proof.
  unfold optimize_inventory_levels.
  eapply kept_bind; [apply kept_DataFrame_copy|]. intros result Hres.
  repeat (eapply kept_bind;
          [ first [ apply kept_frame_getitem
                  | apply kept_lift
                  | apply kept_frame_setitem; exact Hres
                  | apply kept_get_optimizer
                  | apply kept_apply_rows; intros r;
                    first [apply kept_eoq_row | apply kept_rop_row] ]
          | intros ? _ ]).
  now apply kept_ret.
Qed.

End Frame.

(** ** Exact arithmetic, and the scenario tables *)

Lemma is_zero_R_false (x : R) : x <> 0%R -> is_zero x = false.
Proof. intros H. simpl. destruct (Req_dec_T x 0); [contradiction|reflexivity]. Qed.

Lemma eoq_returns_R (s : store (F:=R)) self o d oc uc :
  nth_error s self = Some (OOptimizer o) ->
  (val (holding_cost_rate o) * val uc <> 0)%R ->
  returns (calculate_economic_order_quantity self d oc uc) s
    (Np (R_sqrt.sqrt ((2 * val d * val oc) / (val (holding_cost_rate o) * val uc))%R)).
Proof.
  intros Hs Hnz. unfold returns.
  rewrite (calculate_economic_order_quantity_run s self o d oc uc Hs).
  rewrite eoq_result_nonzero; [reflexivity|]. now apply is_zero_R_false.
Qed.

Lemma sqrt_20000_bounds : (141.42 < R_sqrt.sqrt 20000 < 141.43)%R.
Proof.
  split.
  - rewrite <- (sqrt_square 141.42) by lra. apply sqrt_lt_1_alt. lra.
  - rewrite <- (sqrt_square 141.43) by lra. apply sqrt_lt_1_alt. lra.
Qed.




Lemma derived_at_inv {F} {FO : Float64 F} (df : DataFrame (F:=F)) i r :
  derived_at df i = Some r ->
  numeric_at df "lead_time_demand" i = Some (lead_time_demand r) /\
  numeric_at df "lead_time_demand_std" i = Some (lead_time_demand_std r) /\
  numeric_at df "eoq" i = Some (eoq r) /\
  numeric_at df "reorder_point" i = Some (reorder_point r) /\
  numeric_at df "safety_stock" i = Some (safety_stock r) /\
  numeric_at df "optimal_inventory" i = Some (optimal_inventory r) /\
  numeric_at df "annual_holding_cost" i = Some (annual_holding_cost r) /\
  numeric_at df "annual_ordering_cost" i = Some (annual_ordering_cost r) /\
  numeric_at df "total_annual_cost" i = Some (total_annual_cost r).
Proof.
  unfold derived_at.
  destruct (numeric_at df "lead_time_demand" i); [|discriminate].
  destruct (numeric_at df "lead_time_demand_std" i); [|discriminate].
  destruct (numeric_at df "eoq" i); [|discriminate].
  destruct (numeric_at df "reorder_point" i); [|discriminate].
  destruct (numeric_at df "safety_stock" i); [|discriminate].
  destruct (numeric_at df "optimal_inventory" i); [|discriminate].
  destruct (numeric_at df "annual_holding_cost" i); [|discriminate].
  destruct (numeric_at df "annual_ordering_cost" i); [|discriminate].
  destruct (numeric_at df "total_annual_cost" i); [|discriminate].
  intros [= <-]. simpl. repeat split.
Qed.

(** The one-row tables of the scenarios are valid inputs. *)
Lemma valid_one_item {F} {FO : Float64 F} (o : InventoryOptimizer (F:=F)) sku a b c d e f :
  is_zero (fmul (val (holding_cost_rate o)) e) = false ->
  valid_input o (one_item_frame sku a b c d e f).
Proof.
  intros Hnz. split; [|split].
  - unfold wf_frame, one_item_frame. simpl. repeat constructor.
  - intros key Hkey. simpl in Hkey.
    repeat (destruct Hkey as [<- | Hkey]; [eexists; reflexivity|]). contradiction.
  - intros [|[|i]] u; unfold numeric_at; simpl; try discriminate.
    now intros [= <-].
Qed.

Lemma item_at_one_item {F} {FO : Float64 F} sku (a b c d e f : F) :
  item_at (one_item_frame sku a b c d e f) 0 = Some (mkItem a b c d e f).
Proof. reflexivity. Qed.

Lemma sqrt_410000_bounds : (640.31 < R_sqrt.sqrt 410000 < 640.32)%R.
Proof.
  split.
  - rewrite <- (sqrt_square 640.31) by lra. apply sqrt_lt_1_alt. lra.
  - rewrite <- (sqrt_square 640.32) by lra. apply sqrt_lt_1_alt. lra.
Qed.

Lemma rop_returns {F} {FO : Float64 F} (norm_ppf : F -> F) (s : store) self o l sd arg :
  nth_error s self = Some (OOptimizer o) ->
  returns (calculate_reorder_point norm_ppf self l sd arg) s
    (Np (rop_formula norm_ppf (val (effective_service_level o arg)) (val l) (val sd))).
Proof.
  intros Hs. unfold returns.
  rewrite (calculate_reorder_point_run norm_ppf s self o l sd arg Hs).
  now rewrite rop_value_formula.
Qed.

Lemma eoq_result_raises {F} {FO : Float64 F} (o : InventoryOptimizer (F:=F)) d oc uc :
  is_py d && is_py oc && is_py (holding_cost_rate o) && is_py uc = true ->
  is_zero (fmul (val (holding_cost_rate o)) (val uc)) = true ->
  eoq_result o d oc uc = Raise ZeroDivisionError.
Proof.
  intros Hpy Hz. unfold eoq_result.
  destruct d, oc, (holding_cost_rate o), uc; try discriminate.
  simpl in *. now rewrite Hz.
Qed.

Lemma eoq_result_numpy {F} {FO : Float64 F} (o : InventoryOptimizer (F:=F)) d oc uc :
  is_py d && is_py oc && is_py (holding_cost_rate o) && is_py uc = false ->
  eoq_result o d oc uc
  = Ok (Np (eoq_formula (val (holding_cost_rate o)) (val d) (val oc) (val uc))).
Proof.
  intros Hpy. unfold eoq_result, eoq_formula.
  destruct d, oc, (holding_cost_rate o), uc; try discriminate; reflexivity.
Qed.

Lemma scenario_valid :
  valid_input default_optimizer_b64
    (one_item_frame "SKU-0001" 1000%float 200%float 2%float 0.5%float 20%float 50%float).
Proof. apply valid_one_item. reflexivity. Defined.

Lemma item_at_lt {F} {FO : Float64 F} (df : DataFrame (F:=F)) i it :
  wf_frame df -> item_at df i = Some it -> i < List.length (index df).
Proof.
  intros Hwf H. unfold item_at in H.
  destruct (numeric_at df "demand_mean" i) as [a|] eqn:E; [|discriminate].
  destruct (numeric_at_inv _ _ _ _ E) as (l & Hl & Hi).
  rewrite <- (lookup_wf _ _ _ Hwf Hl). simpl. apply nth_error_Some. congruence.
Qed.

Lemma firstn_nth_error {T} (s s' : list T) l x :
  firstn (List.length s) s' = s -> nth_error s l = Some x -> nth_error s' l = Some x.
Proof.
  intros H Hx. rewrite <- (firstn_skipn (List.length s) s'), H.
  rewrite nth_error_app1; [exact Hx|]. apply nth_error_Some. congruence.
Qed.

(** ** Binary64: a finite number minus itself is zero *)

Lemma sub_diag_finite (x : float) :
  PrimFloat.is_finite x = true -> (x - x)%float = 0%float.
Proof.
  intros Hfin. apply Prim2SF_inj. rewrite sub_spec.
  unfold PrimFloat.is_finite, PrimFloat.is_nan, PrimFloat.is_infinity in Hfin.
  rewrite !FloatAxioms.eqb_spec, abs_spec in Hfin.
  change (Prim2SF infinity) with (S754_infinity false) in Hfin.
  change (Prim2SF 0) with (S754_zero false).
  destruct (Prim2SF x) as [s|s| |s m e].
  - destruct s; reflexivity.
  - destruct s; cbv in Hfin; discriminate.
  - cbv in Hfin. discriminate.
  - unfold SF64sub, SFsub. cbv zeta. rewrite Z.sub_diag. reflexivity.
Qed.

Lemma tolerance_of_equal (v : float) :
  PrimFloat.is_finite v = true ->
  PrimFloat.ltb (PrimFloat.abs (v - v)) 1e-9 = true.
Proof. intros H. rewrite (sub_diag_finite v H). reflexivity. Qed.

(** ** Binary64: the ordering cost of a zero-demand item *)

Lemma zero_demand_quotient_nan (d oc p : float) :
  PrimFloat.eqb d 0 = true ->
  PrimFloat.is_finite oc = true ->
  PrimFloat.eqb p 0 = false ->
  PrimFloat.is_nan p = false ->
  (d / PrimFloat.sqrt (2 * d * oc / p) * oc)%float = nan.
Proof.
  intros Hd Hoc Hp Hn. apply Prim2SF_inj.
  unfold PrimFloat.is_finite, PrimFloat.is_nan, PrimFloat.is_infinity in Hoc, Hn.
  rewrite FloatAxioms.eqb_spec in Hd. rewrite !FloatAxioms.eqb_spec in Hoc.
  rewrite FloatAxioms.eqb_spec in Hp. rewrite FloatAxioms.eqb_spec in Hn.
  rewrite abs_spec in Hoc.
  rewrite mul_spec, div_spec, sqrt_spec, div_spec, !mul_spec.
  change (Prim2SF infinity) with (S754_infinity false) in Hoc.
  change (Prim2SF 0) with (S754_zero false) in Hd, Hp.
  change (Prim2SF nan) with S754_nan.
  replace (Prim2SF 2) with (S754_finite false 4503599627370496 (-51)) by reflexivity.
  destruct (Prim2SF d) as [sd|sd| |sd md ed]; try (cbv in Hd; discriminate);
    [|destruct sd; cbv in Hd; discriminate | destruct sd; cbv in Hd; discriminate].
  destruct (Prim2SF oc) as [so|so| |so mo eo];
    [ | destruct so; cbv in Hoc; discriminate | cbv in Hoc; discriminate | ];
    (destruct (Prim2SF p) as [sp|sp| |sp mp ep];
     [ destruct sp; cbv in Hp; discriminate | | cbv in Hn; discriminate | ]);
    destruct sd, so, sp; reflexivity.
Qed.

Lemma zero_demand_valid :
  valid_input default_optimizer_b64
    (one_item_frame "SKU-0001" 0%float 200%float 2%float 0.5%float 20%float 50%float).
Proof. apply valid_one_item. reflexivity. Defined.


(** ** Binary64: the range of the square root *)

Lemma binary_round_aux_not_negative mx ex lx :
  SFltb (binary_round_aux prec emax false mx ex lx) (S754_zero false) = false /\
  (binary_round_aux prec emax false mx ex lx = S754_nan \/
   SFleb (S754_zero false) (binary_round_aux prec emax false mx ex lx) = true).
Proof.
  unfold binary_round_aux.
  destruct (shr_fexp prec emax mx ex lx) as [mrs' e'].
  destruct (shr_fexp prec emax _ e' loc_Exact) as [mrs'' e''].
  destruct (shr_m mrs'') as [|m|m]; [| destruct (Z.leb e'' (emax - prec)) |];
    (split; [reflexivity | first [left; reflexivity | right; reflexivity]]).
Qed.

Lemma sqrt_nan_or_nonneg (x : float) :
  PrimFloat.is_nan (PrimFloat.sqrt x) = true \/
  PrimFloat.leb 0 (PrimFloat.sqrt x) = true.
Proof.
  unfold PrimFloat.is_nan.
  rewrite FloatAxioms.eqb_spec, FloatAxioms.leb_spec, sqrt_spec.
  change (Prim2SF 0) with (S754_zero false).
  destruct (Prim2SF x) as [s|s| |s m e]; try destruct s;
    try (left; reflexivity); try (right; reflexivity).
  unfold SF64sqrt, SFsqrt.
  destruct (SFsqrt_core_binary prec emax (Z.pos m) e) as [[mz ez] lz].
  destruct (binary_round_aux_not_negative mz ez lz) as [_ [H|H]].
  - left. rewrite H. reflexivity.
  - right. exact H.
Qed.

Lemma sqrt_not_negative (x : float) :
  PrimFloat.ltb (PrimFloat.sqrt x) 0 = false.
Proof.
  rewrite FloatAxioms.ltb_spec, sqrt_spec.
  change (Prim2SF 0) with (S754_zero false).
  destruct (Prim2SF x) as [s|s| |s m e]; try destruct s; try reflexivity.
  unfold SF64sqrt, SFsqrt.
  destruct (SFsqrt_core_binary prec emax (Z.pos m) e) as [[mz ez] lz].
  apply binary_round_aux_not_negative.
Qed.

(** ** Binary64: the EOQ of a zero demand *)

Lemma zero_demand_eoq_zero (d oc p : float) :
  PrimFloat.eqb d 0 = true ->
  PrimFloat.is_finite oc = true ->
  PrimFloat.eqb p 0 = false ->
  PrimFloat.is_nan p = false ->
  PrimFloat.eqb (PrimFloat.sqrt (2 * d * oc / p)) 0 = true.
Proof.
  intros Hd Hoc Hp Hn.
  unfold PrimFloat.is_finite, PrimFloat.is_nan, PrimFloat.is_infinity in Hoc, Hn.
  rewrite FloatAxioms.eqb_spec in Hd. rewrite !FloatAxioms.eqb_spec in Hoc.
  rewrite FloatAxioms.eqb_spec in Hp. rewrite FloatAxioms.eqb_spec in Hn.
  rewrite abs_spec in Hoc.
  rewrite FloatAxioms.eqb_spec, sqrt_spec, div_spec, !mul_spec.
  change (Prim2SF infinity) with (S754_infinity false) in Hoc.
  change (Prim2SF 0) with (S754_zero false) in *.
  replace (Prim2SF 2) with (S754_finite false 4503599627370496 (-51)) by reflexivity.
  destruct (Prim2SF d) as [sd|sd| |sd md ed]; try (cbv in Hd; discriminate);
    [|destruct sd; cbv in Hd; discriminate | destruct sd; cbv in Hd; discriminate].
  destruct (Prim2SF oc) as [so|so| |so mo eo];
    [ | destruct so; cbv in Hoc; discriminate | cbv in Hoc; discriminate | ];
    (destruct (Prim2SF p) as [sp|sp| |sp mp ep];
     [ destruct sp; cbv in Hp; discriminate | | cbv in Hn; discriminate | ]);
    destruct sd, so, sp; reflexivity.
Qed.



(** ** Binary64: the tolerance test of a field against itself *)

Lemma tolerance_test_is_finite (v : float) :
  PrimFloat.ltb (PrimFloat.abs (v - v)) 1e-9 = PrimFloat.is_finite v.
Proof.
  destruct (PrimFloat.is_finite v) eqn:E; [now apply tolerance_of_equal|].
  assert (H : (v - v)%float = nan).
  { apply Prim2SF_inj. rewrite sub_spec.
    unfold PrimFloat.is_finite, PrimFloat.is_nan, PrimFloat.is_infinity in E.
    rewrite !FloatAxioms.eqb_spec, abs_spec in E.
    change (Prim2SF infinity) with (S754_infinity false) in E.
    change (Prim2SF nan) with S754_nan.
    destruct (Prim2SF v) as [s|s| |s m e]; try destruct s; try reflexivity;
      try (cbv in E; discriminate).
    - exfalso. revert E. unfold SFeqb, SFcompare, SFabs.
      rewrite Z.compare_refl, Pos.compare_cont_refl. cbv. discriminate.
    - exfalso. revert E. unfold SFeqb, SFcompare, SFabs.
      rewrite Z.compare_refl, Pos.compare_cont_refl. cbv. discriminate. }
  rewrite H. reflexivity.
Qed.

(** ** Binary64: a reorder point without deviation *)


(** * The properties of the specification *)

(** C1 (the code departs from the specification).  The specification: an
    item with [demand_mean = 0] gets [annual_ordering_cost = 0].  The method
    computes
    [demand_mean / eoq * ordering_cost] with no case for [eoq = 0]: in
    binary64, for every valid table and every row with zero demand, a finite
    ordering cost and a divisor [holding_cost_rate * unit_cost] that is not
    NaN, the [annual_ordering_cost] it stores is NaN.  On the one-row table
    with demand 0, unit cost 20 and ordering cost 50, under the default
    policy, [eoq] is 0 and [annual_ordering_cost] is 0/0 * 50, a NaN. *)
Theorem zero_demand_annual_ordering_cost_nan :
  (forall (norm_ppf : float -> float) (s : store) self data o df,
     nth_error s self = Some (OOptimizer o) ->
     nth_error s data = Some (OFrame df) ->
     valid_input o df ->
     exists df',
       optimize_inventory_levels norm_ppf self data s
       = (Ok (List.length s), s ++ [OFrame df']) /\
       forall i it,
         item_at df i = Some it ->
         PrimFloat.eqb (demand_mean it) 0 = true ->
         PrimFloat.is_finite (ordering_cost it) = true ->
         PrimFloat.is_nan (val (holding_cost_rate o) * unit_cost it)%float = false ->
         numeric_at df' "annual_ordering_cost" i = Some nan) /\
  (forall norm_ppf : float -> float,
     exists df',
       optimize_inventory_levels norm_ppf 0 1 zero_demand_store
       = (Ok 2, zero_demand_store ++ [OFrame df']) /\
       numeric_at df' "demand_mean" 0 = Some 0%float /\
       numeric_at df' "eoq" 0 = Some 0%float /\
       numeric_at df' "annual_ordering_cost" 0 = Some nan).
Proof.
  split.
  - intros norm_ppf s self data o df Hs Hd Hv.
    destruct (optimize_inventory_levels_run norm_ppf s self data o df Hs Hd Hv)
      as (df' & Hrun & _ & _ & _ & _ & _ & Hrows).
    exists df'. split; [exact Hrun|]. intros i it Hit Hzero Hfin Hnan.
    destruct (Hrows i (item_at_lt df i it (proj1 Hv) Hit)) as (it' & Hit' & Hder).
    assert (it' = it) by congruence. subst it'.
    apply derived_at_inv in Hder.
    destruct Hder as (_ & _ & _ & _ & _ & _ & _ & Hoc & _).
    rewrite Hoc. f_equal.
    cbn [annual_ordering_cost item_fields].
    unfold eoq_formula. cbn [fmul fdiv fsqrt ftwo binary64].
    apply zero_demand_quotient_nan; try assumption.
    destruct Hv as (_ & _ & Hnz).
    unfold item_at in Hit.
    destruct (numeric_at df "demand_mean" i); [|discriminate].
    destruct (numeric_at df "demand_std" i); [|discriminate].
    destruct (numeric_at df "lead_time_mean" i); [|discriminate].
    destruct (numeric_at df "lead_time_std" i); [|discriminate].
    destruct (numeric_at df "unit_cost" i) as [u|] eqn:Eu; [|discriminate].
    destruct (numeric_at df "ordering_cost" i); [|discriminate].
    injection Hit as <-. exact (Hnz i u Eu).
  - intros norm_ppf. eexists. split; [lazy; reflexivity|]. repeat split; reflexivity.
Qed.

Lemma zero_demand_annual_ordering_cost_nan_witness :
  exists df',
    optimize_inventory_levels (norm_ppf_b64 norm_ppf_table) 0 1 zero_demand_store
    = (Ok 2, zero_demand_store ++ [OFrame df']) /\
    numeric_at df' "annual_ordering_cost" 0 = Some nan.
Proof.
  destruct (proj1 zero_demand_annual_ordering_cost_nan (norm_ppf_b64 norm_ppf_table)
              zero_demand_store 0 1 default_optimizer_b64 _ eq_refl eq_refl
              zero_demand_valid) as (df' & Hrun & Hrows).
  exists df'. split; [exact Hrun|].
  apply (Hrows 0 (mkItem 0 200 2 0.5 20 50)%float); reflexivity.
Defined.

(** C2, as stated, fails: no [DomainError] is signalled.  With a
    [numpy.float64] unit cost of 0 the EOQ method returns [+inf]; at service
    level 1 (resp. 0) the reorder point method returns [+inf] (resp.
    [-inf]). *)
Lemma no_domain_error_signalled :
  calculate_economic_order_quantity 0 (Np 1000%float) (Np 50%float) (Np 0%float)
    [OOptimizer default_optimizer_b64]
  = (Ok (Np infinity), [OOptimizer default_optimizer_b64]) /\
  (forall ndtri,
     calculate_reorder_point (norm_ppf_b64 ndtri) 0 (Py 100%float) (Py 10%float)
       (Some (Py 1%float)) [OOptimizer default_optimizer_b64]
     = (Ok (Np infinity), [OOptimizer default_optimizer_b64])) /\
  (forall ndtri,
     calculate_reorder_point (norm_ppf_b64 ndtri) 0 (Py 100%float) (Py 10%float)
       (Some (Py 0%float)) [OOptimizer default_optimizer_b64]
     = (Ok (Np neg_infinity), [OOptimizer default_optimizer_b64])).
Proof. repeat split. Qed.

(** C2, amended.  Neither method checks its arguments.
    [calculate_reorder_point] never raises: for every service level, 0 and 1
    included, it returns [lead_time_demand + norm.ppf(service_level) *
    lead_time_std], which at level 1 is [L + inf * S] and at level 0
    [L + (-inf) * S].  [calculate_economic_order_quantity] raises Python's
    [ZeroDivisionError] when [holding_cost_rate * unit_cost] is zero and the
    demand, the ordering cost, the unit cost and the holding cost rate are all
    Python floats; when one of them is a [numpy.float64], or the product is
    not zero, it returns [np.sqrt] of the IEEE quotient: [+inf] for (1000, 50)
    over a zero divisor, NaN for 0/0. *)
Theorem scalar_methods_error_behaviour :
  (forall F (FO : Float64 F) (norm_ppf : F -> F) (s : store) self o,
     nth_error s self = Some (OOptimizer o) ->
     (forall l sd arg,
        returns (calculate_reorder_point norm_ppf self l sd arg) s
          (Np (rop_formula norm_ppf (val (effective_service_level o arg))
                 (val l) (val sd)))) /\
     (forall d oc uc,
        is_py d && is_py oc && is_py (holding_cost_rate o) && is_py uc = true ->
        is_zero (fmul (val (holding_cost_rate o)) (val uc)) = true ->
        calculate_economic_order_quantity self d oc uc s
        = (Raise ZeroDivisionError, s)) /\
     (forall d oc uc,
        is_py d && is_py oc && is_py (holding_cost_rate o) && is_py uc = false ->
        returns (calculate_economic_order_quantity self d oc uc) s
          (Np (eoq_formula (val (holding_cost_rate o)) (val d) (val oc) (val uc)))) /\
     (forall d oc uc,
        is_zero (fmul (val (holding_cost_rate o)) (val uc)) = false ->
        returns (calculate_economic_order_quantity self d oc uc) s
          (Np (eoq_formula (val (holding_cost_rate o)) (val d) (val oc) (val uc))))) /\
  (forall ndtri L S,
     rop_formula (norm_ppf_b64 ndtri) 1%float L S = (L + infinity * S)%float /\
     rop_formula (norm_ppf_b64 ndtri) 0%float L S = (L + neg_infinity * S)%float) /\
  eoq_formula 0.25%float 1000%float 50%float 0%float = infinity /\
  eoq_formula 0%float 1000%float 50%float 20%float = infinity /\
  eoq_formula 0.25%float 0%float 50%float 0%float = nan.
Proof.
  split; [|repeat split].
  intros F FO norm_ppf s self o Hs. split; [|split; [|split]].
  - intros l sd arg. now apply rop_returns.
  - intros d oc uc Hpy Hz.
    rewrite (calculate_economic_order_quantity_run s self o d oc uc Hs).
    now rewrite eoq_result_raises.
  - intros d oc uc Hpy. unfold returns.
    rewrite (calculate_economic_order_quantity_run s self o d oc uc Hs).
    now rewrite eoq_result_numpy.
  - intros d oc uc Hnz. unfold returns.
    rewrite (calculate_economic_order_quantity_run s self o d oc uc Hs).
    now rewrite eoq_result_nonzero.
Qed.

Lemma scalar_methods_error_behaviour_witness :
  calculate_economic_order_quantity 0 (Py 1000%float) (Py 50%float) (Py 0%float)
    [OOptimizer default_optimizer_b64]
  = (Raise ZeroDivisionError, [OOptimizer default_optimizer_b64]) /\
  returns (calculate_economic_order_quantity 0 (Py 1000%float) (Py 50%float) (Np 0%float))
    [OOptimizer default_optimizer_b64] (Np infinity) /\
  returns (calculate_economic_order_quantity 0 (Py 1000%float) (Py 50%float) (Py 20%float))
    [OOptimizer default_optimizer_b64] (Np 141.42135623730951%float).
Proof.
  destruct (proj1 scalar_methods_error_behaviour float binary64 (fun q => q)
              [OOptimizer default_optimizer_b64] 0 default_optimizer_b64 eq_refl)
    as (_ & Hraise & Hnp & Hok).
  split; [|split].
  - apply Hraise; reflexivity.
  - apply (Hnp (Py 1000%float) (Py 50%float) (Np 0%float)). reflexivity.
  - apply (Hok (Py 1000%float) (Py 50%float) (Py 20%float)). reflexivity.
Defined.

(** C3, as stated, fails in binary64, the arithmetic the method computes
    in.  With [holding_cost_rate = 0.25] and the positive unit cost
    [5e-324] the product [holding_cost_rate * unit_cost] rounds to zero and
    the method, on Python floats, raises [ZeroDivisionError]; with
    [holding_cost_rate = unit_cost = 1e200] and a demand of [1e308] the
    dividend and the divisor both overflow and the method returns NaN, which
    is neither the square root of the quotient nor [>= 0]. *)
Lemma eoq_closed_form_fails_in_binary64 :
  (PrimFloat.leb 0 1000 = true /\ PrimFloat.leb 0 50 = true /\
   PrimFloat.ltb 0 5e-324 = true /\ PrimFloat.ltb 0 0.25 = true /\
   calculate_economic_order_quantity 0 (Py 1000%float) (Py 50%float) (Py 5e-324%float)
     [OOptimizer default_optimizer_b64]
   = (Raise ZeroDivisionError, [OOptimizer default_optimizer_b64])) /\
  (PrimFloat.leb 0 1e308 = true /\ PrimFloat.leb 0 1 = true /\
   PrimFloat.ltb 0 1e200 = true /\
   calculate_economic_order_quantity 0 (Py 1e308%float) (Py 1%float) (Py 1e200%float)
     [OOptimizer (mkInventoryOptimizer (Py 1e200%float) (Py 0.5%float) (Py 0.95%float))]
   = (Ok (Np nan),
      [OOptimizer (mkInventoryOptimizer (Py 1e200%float) (Py 0.5%float) (Py 0.95%float))]) /\
   PrimFloat.leb 0 nan = false).
Proof. repeat split. Qed.

(** C3, amended.  In exact arithmetic, with [demand >= 0],
    [ordering_cost >= 0], [unit_cost > 0] and [holding_cost_rate > 0],
    [calculate_economic_order_quantity] returns
    [sqrt((2 * demand * ordering_cost) / (holding_cost_rate * unit_cost))];
    the result is non-negative and is 0 when the demand is 0; for
    [holding_cost_rate = 0.25], demand 1000, ordering cost 50 and unit cost 20
    it is [sqrt 20000], between 141.42 and 141.43.  At either carrier the
    method returns that expression in the carrier's operations whenever the
    divisor is not zero.  In binary64: whatever the method returns is
    [np.sqrt] of the binary64 quotient, and it is NaN or [>= 0], never
    negative; at demand zero it is zero whenever the ordering cost is finite
    and the computed product [holding_cost_rate * unit_cost] is neither zero
    nor NaN; the scenario gives 141.42135623730951. *)
Theorem eoq_closed_form :
  (forall (s : store (F:=R)) self o d oc uc,
     nth_error s self = Some (OOptimizer o) ->
     (0 <= val d)%R -> (0 <= val oc)%R -> (0 < val uc)%R ->
     (0 < val (holding_cost_rate o))%R ->
     exists q,
       returns (calculate_economic_order_quantity self d oc uc) s (Np q) /\
       q = R_sqrt.sqrt ((2 * val d * val oc) / (val (holding_cost_rate o) * val uc))%R /\
       (0 <= q)%R /\
       (val d = 0%R -> q = 0%R)) /\
  (exists q,
     returns (calculate_economic_order_quantity 0 (Py 1000%R) (Py 50%R) (Py 20%R))
       [OOptimizer default_optimizer_R] (Np q) /\
     q = R_sqrt.sqrt 20000 /\ (141.42 < q < 141.43)%R) /\
  (forall F (FO : Float64 F) (s : store) self o d oc uc,
     nth_error s self = Some (OOptimizer o) ->
     is_zero (fmul (val (holding_cost_rate o)) (val uc)) = false ->
     returns (calculate_economic_order_quantity self d oc uc) s
       (Np (fsqrt (fdiv (fmul (fmul ftwo (val d)) (val oc))
                        (fmul (val (holding_cost_rate o)) (val uc)))))) /\
  returns (calculate_economic_order_quantity 0 (Py 1000%float) (Py 50%float) (Py 20%float))
    [OOptimizer default_optimizer_b64] (Np 141.42135623730951%float) /\
  (forall (s : store (F:=float)) self o d oc uc v,
     nth_error s self = Some (OOptimizer o) ->
     fst (calculate_economic_order_quantity self d oc uc s) = Ok v ->
     v = Np (PrimFloat.sqrt (2 * val d * val oc / (val (holding_cost_rate o) * val uc))) /\
     PrimFloat.ltb (val v) 0 = false /\
     (PrimFloat.is_nan (val v) = true \/ PrimFloat.leb 0 (val v) = true)) /\
  (forall (s : store (F:=float)) self o d oc uc,
     nth_error s self = Some (OOptimizer o) ->
     PrimFloat.eqb (val d) 0 = true ->
     PrimFloat.is_finite (val oc) = true ->
     PrimFloat.eqb (val (holding_cost_rate o) * val uc) 0 = false ->
     PrimFloat.is_nan (val (holding_cost_rate o) * val uc) = false ->
     exists q,
       returns (calculate_economic_order_quantity self d oc uc) s (Np q) /\
       PrimFloat.eqb q 0 = true).
Proof.
  split; [|split; [|split; [|split; [|split]]]].
  - intros s self o d oc uc Hs Hd Hoc Huc Hh.
    eexists. split; [apply eoq_returns_R; [exact Hs | nra]|].
    split; [reflexivity|]. split; [apply sqrt_pos|].
    intros ->. rewrite Rmult_0_r, Rmult_0_l. unfold Rdiv. rewrite Rmult_0_l. apply sqrt_0.
  - eexists. split; [apply eoq_returns_R; [reflexivity | simpl; lra]|].
    cbn [val holding_cost_rate default_optimizer_R].
    replace (2 * 1000 * 50 / (0.25 * 20))%R with 20000%R by lra.
    split; [reflexivity | apply sqrt_20000_bounds].
  - intros F FO s self o d oc uc Hs Hnz. unfold returns.
    rewrite (calculate_economic_order_quantity_run s self o d oc uc Hs).
    now rewrite eoq_result_nonzero.
  - reflexivity.
  - intros s self o d oc uc v Hs Hv.
    rewrite (calculate_economic_order_quantity_run s self o d oc uc Hs) in Hv.
    simpl in Hv.
    assert (E : v = Np (eoq_formula (val (holding_cost_rate o)) (val d) (val oc) (val uc))).
    { destruct (is_py d && is_py oc && is_py (holding_cost_rate o) && is_py uc) eqn:Hpy.
      - destruct (is_zero (fmul (val (holding_cost_rate o)) (val uc))) eqn:Hz.
        + rewrite (eoq_result_raises o d oc uc Hpy Hz) in Hv. discriminate.
        + rewrite (eoq_result_nonzero o d oc uc Hz) in Hv. congruence.
      - rewrite (eoq_result_numpy o d oc uc Hpy) in Hv. congruence. }
    subst v. unfold eoq_formula. cbn [val fsqrt fdiv fmul ftwo binary64].
    split; [reflexivity|]. split; [apply sqrt_not_negative | apply sqrt_nan_or_nonneg].
  - intros s self o d oc uc Hs Hd Hoc Hp Hn.
    eexists. split.
    + unfold returns.
      rewrite (calculate_economic_order_quantity_run s self o d oc uc Hs).
      rewrite eoq_result_nonzero; [reflexivity | exact Hp].
    + unfold eoq_formula. cbn [fsqrt fdiv fmul ftwo binary64].
      now apply zero_demand_eoq_zero.
Qed.

Lemma eoq_closed_form_witness :
  exists q,
    returns (calculate_economic_order_quantity 0 (Np 0%R) (Py 50%R) (Py 20%R))
      [OOptimizer default_optimizer_R] (Np q) /\
    q = R_sqrt.sqrt ((2 * 0 * 50) / (0.25 * 20))%R /\
    (0 <= q)%R /\ (0%R = 0%R -> q = 0%R).
Proof.
  apply (proj1 eoq_closed_form [OOptimizer default_optimizer_R] 0 default_optimizer_R
           (Np 0%R) (Py 50%R) (Py 20%R)); simpl; try reflexivity; lra.
Defined.

(** C4.  For every service level strictly inside (0,1),
    [calculate_reorder_point] returns [lead_time_demand + z * lead_time_std]
    with [z = norm.ppf(service_level)], the level being the argument when one
    is given and the optimizer's [service_level] otherwise.  For level 0.95,
    lead time demand 100 and deviation 10, with the quantile of 0.95 between
    1.64485 and 1.64486, the result lies between 116.4485 and 116.4486.  At
    either carrier the method returns that expression in the carrier's
    operations; in binary64, with [norm.ppf(0.95) = 1.6448536269514722], the
    scenario gives 116.44853626951472. *)
Theorem reorder_point_formula :
  (forall (norm_ppf : R -> R) (s : store) self o L S,
     nth_error s self = Some (OOptimizer o) ->
     (forall sl, (0 < val sl < 1)%R ->
        returns (calculate_reorder_point norm_ppf self L S (Some sl)) s
          (Np (val L + norm_ppf (val sl) * val S)%R)) /\
     ((0 < val (service_level o) < 1)%R ->
        returns (calculate_reorder_point norm_ppf self L S None) s
          (Np (val L + norm_ppf (val (service_level o)) * val S)%R))) /\
  (forall norm_ppf : R -> R,
     (1.64485 < norm_ppf 0.95 < 1.64486)%R ->
     exists r,
       returns (calculate_reorder_point norm_ppf 0 (Py 100%R) (Py 10%R) (Some (Py 0.95%R)))
         [OOptimizer default_optimizer_R] (Np r) /\
       (116.4485 < r < 116.4486)%R) /\
  (forall F (FO : Float64 F) (norm_ppf : F -> F) (s : store) self o L S arg,
     nth_error s self = Some (OOptimizer o) ->
     returns (calculate_reorder_point norm_ppf self L S arg) s
       (Np (fadd (val L)
                 (fmul (norm_ppf (val (effective_service_level o arg))) (val S))))) /\
  (forall norm_ppf : float -> float,
     norm_ppf 0.95%float = 1.6448536269514722%float ->
     returns (calculate_reorder_point norm_ppf 0 (Py 100%float) (Py 10%float)
                (Some (Py 0.95%float)))
       [OOptimizer default_optimizer_b64] (Np 116.44853626951472%float)).
Proof.
  split; [|split; [|split]].
  - intros norm_ppf s self o L S Hs. split.
    + intros sl _. exact (rop_returns norm_ppf s self o L S (Some sl) Hs).
    + intros _. exact (rop_returns norm_ppf s self o L S None Hs).
  - intros norm_ppf Hz. eexists. split.
    + exact (rop_returns norm_ppf [OOptimizer default_optimizer_R] 0 default_optimizer_R
               (Py 100%R) (Py 10%R) (Some (Py 0.95%R)) eq_refl).
    + cbn [rop_formula effective_service_level val fadd fmul exact]. lra.
  - intros F FO norm_ppf s self o L S arg Hs.
    exact (rop_returns norm_ppf s self o L S arg Hs).
  - intros norm_ppf Hz. unfold returns, calculate_reorder_point, bind, ret.
    cbn [val num_mul num_add coerce fadd fmul binary64]. rewrite Hz. reflexivity.
Qed.

Lemma reorder_point_formula_witness :
  returns (calculate_reorder_point (fun p => p + 0.694855)%R 0 (Py 100%R) (Py 10%R)
             (Some (Py 0.99%R)))
    [OOptimizer default_optimizer_R] (Np (100 + (0.99 + 0.694855) * 10)%R) /\
  returns (calculate_reorder_point (fun p => p + 0.694855)%R 0 (Py 100%R) (Py 10%R) None)
    [OOptimizer default_optimizer_R] (Np (100 + (0.95 + 0.694855) * 10)%R) /\
  exists r,
    returns (calculate_reorder_point (fun p => p + 0.694855)%R 0 (Py 100%R) (Py 10%R)
               (Some (Py 0.95%R)))
      [OOptimizer default_optimizer_R] (Np r) /\
    (116.4485 < r < 116.4486)%R.
Proof.
  destruct (proj1 reorder_point_formula (fun p => p + 0.694855)%R
              [OOptimizer default_optimizer_R] 0 default_optimizer_R
              (Py 100%R) (Py 10%R) eq_refl) as [Hgiven Hdefault].
  split; [|split].
  - apply (Hgiven (Py 0.99%R)). simpl. lra.
  - apply Hdefault. simpl. lra.
  - apply (proj1 (proj2 reorder_point_formula) (fun p => p + 0.694855)%R). lra.
Defined.

(** C5.  For every row of a valid input, [optimize_inventory_levels] sets
    [lead_time_demand = demand_mean * lead_time_mean] and
    [lead_time_demand_std = sqrt(demand_mean^2 * lead_time_std^2 +
    lead_time_mean^2 * demand_std^2)].  For the item (1000, 200, 2, 0.5, 20,
    50) under the default policy these are 2000 and [sqrt 410000], between
    640.31 and 640.32; in binary64, 2000 and 640.31242374328485. *)
Theorem lead_time_demand_columns :
  (forall F (FO : Float64 F) (norm_ppf : F -> F) (s : store) self data o df,
     nth_error s self = Some (OOptimizer o) ->
     nth_error s data = Some (OFrame df) ->
     valid_input o df ->
     exists df',
       optimize_inventory_levels norm_ppf self data s
       = (Ok (List.length s), s ++ [OFrame df']) /\
       forall i, i < List.length (index df) ->
         exists it, item_at df i = Some it /\
           numeric_at df' "lead_time_demand" i
           = Some (fmul (demand_mean it) (lead_time_mean it)) /\
           numeric_at df' "lead_time_demand_std" i
           = Some (fsqrt (fadd (fmul (fmul (demand_mean it) (demand_mean it))
                                     (fmul (lead_time_std it) (lead_time_std it)))
                               (fmul (fmul (lead_time_mean it) (lead_time_mean it))
                                     (fmul (demand_std it) (demand_std it)))))) /\
  (forall norm_ppf : float -> float,
     exists df',
       optimize_inventory_levels norm_ppf 0 1
         [OOptimizer default_optimizer_b64;
          OFrame (one_item_frame "SKU-0001" 1000%float 200%float 2%float 0.5%float
                    20%float 50%float)]
       = (Ok 2, [OOptimizer default_optimizer_b64;
                 OFrame (one_item_frame "SKU-0001" 1000%float 200%float 2%float
                           0.5%float 20%float 50%float);
                 OFrame df']) /\
       numeric_at df' "lead_time_demand" 0 = Some 2000%float /\
       numeric_at df' "lead_time_demand_std" 0 = Some 640.31242374328485%float) /\
  (forall norm_ppf : R -> R,
     exists df' sd,
       optimize_inventory_levels norm_ppf 0 1
         [OOptimizer default_optimizer_R;
          OFrame (one_item_frame "SKU-0001" 1000%R 200%R 2%R 0.5%R 20%R 50%R)]
       = (Ok 2, [OOptimizer default_optimizer_R;
                 OFrame (one_item_frame "SKU-0001" 1000%R 200%R 2%R 0.5%R 20%R 50%R);
                 OFrame df']) /\
       numeric_at df' "lead_time_demand" 0 = Some 2000%R /\
       numeric_at df' "lead_time_demand_std" 0 = Some sd /\
       sd = R_sqrt.sqrt 410000 /\ (640.31 < sd < 640.32)%R).
Proof.
  assert (General : forall F (FO : Float64 F) (norm_ppf : F -> F) (s : store) self data o df,
     nth_error s self = Some (OOptimizer o) ->
     nth_error s data = Some (OFrame df) ->
     valid_input o df ->
     exists df',
       optimize_inventory_levels norm_ppf self data s
       = (Ok (List.length s), s ++ [OFrame df']) /\
       forall i, i < List.length (index df) ->
         exists it, item_at df i = Some it /\
           numeric_at df' "lead_time_demand" i
           = Some (fmul (demand_mean it) (lead_time_mean it)) /\
           numeric_at df' "lead_time_demand_std" i
           = Some (fsqrt (fadd (fmul (fmul (demand_mean it) (demand_mean it))
                                     (fmul (lead_time_std it) (lead_time_std it)))
                               (fmul (fmul (lead_time_mean it) (lead_time_mean it))
                                     (fmul (demand_std it) (demand_std it)))))).
  { intros F FO norm_ppf s self data o df Hs Hd Hv.
    destruct (optimize_inventory_levels_run norm_ppf s self data o df Hs Hd Hv)
      as (df' & Hrun & _ & _ & _ & _ & _ & Hrows).
    exists df'. split; [exact Hrun|]. intros i Hi.
    destruct (Hrows i Hi) as (it & Hit & Hder). exists it. split; [exact Hit|].
    apply derived_at_inv in Hder. destruct Hder as (H1 & H2 & _). split; assumption. }
  split; [exact General|]. split.
  - intros norm_ppf. eexists. split; [lazy; reflexivity|]. split; reflexivity.
  - intros norm_ppf.
    destruct (General R exact norm_ppf
                [OOptimizer default_optimizer_R;
                 OFrame (one_item_frame "SKU-0001" 1000%R 200%R 2%R 0.5%R 20%R 50%R)]
                0 1 default_optimizer_R _ eq_refl eq_refl) as (df' & Hrun & Hrows).
    { apply valid_one_item. apply is_zero_R_false.
      cbn [val holding_cost_rate default_optimizer_R fmul exact]. lra. }
    destruct (Hrows 0 ltac:(simpl; lia)) as (it & Hit & H1 & H2).
    rewrite item_at_one_item in Hit. injection Hit as <-.
    cbn [demand_mean demand_std lead_time_mean lead_time_std] in H1, H2.
    exists df'. eexists. split; [exact Hrun|]. split; [|split; [exact H2|]].
    + rewrite H1. f_equal. cbn [fmul exact]. lra.
    + assert (E : (fadd (fmul (fmul 1000 1000) (fmul 0.5 0.5))
                        (fmul (fmul 2 2) (fmul 200 200)) = 410000)%R) by (cbn [fadd fmul exact]; lra).
      rewrite E. split; [reflexivity | apply sqrt_410000_bounds].
Qed.

Lemma lead_time_demand_columns_witness :
  exists df',
    optimize_inventory_levels (norm_ppf_b64 norm_ppf_table) 0 1 scenario_store
    = (Ok 2, scenario_store ++ [OFrame df']) /\
    forall i, i < 1 ->
      exists it,
        item_at (one_item_frame "SKU-0001" 1000%float 200%float 2%float 0.5%float
                   20%float 50%float) i = Some it /\
        numeric_at df' "lead_time_demand" i
        = Some (fmul (demand_mean it) (lead_time_mean it)) /\
        numeric_at df' "lead_time_demand_std" i
        = Some (fsqrt (fadd (fmul (fmul (demand_mean it) (demand_mean it))
                                  (fmul (lead_time_std it) (lead_time_std it)))
                            (fmul (fmul (lead_time_mean it) (lead_time_mean it))
                                  (fmul (demand_std it) (demand_std it))))).
Proof.
  exact (proj1 lead_time_demand_columns float binary64 (norm_ppf_b64 norm_ppf_table)
           scenario_store 0 1 default_optimizer_b64 _ eq_refl eq_refl scenario_valid).
Defined.

(** C6, as stated, fails in binary64: the tolerance test is false on a row
    whose field is not a finite number.  An item with a demand and a lead
    time of [1e200] has an infinite lead time demand and reorder point, and
    its [safety_stock], their difference, is NaN: the test of the
    safety-stock identity is false.  On the zero-demand item
    [total_annual_cost] is NaN and the test of the cost identity is false. *)
Lemma tolerance_test_fails_on_non_finite_fields :
  (exists df' r,
     optimize_inventory_levels (norm_ppf_b64 norm_ppf_table) 0 1
       [OOptimizer default_optimizer_b64;
        OFrame (one_item_frame "SKU-0001" 1e200%float 200%float 1e200%float 0.5%float
                  20%float 50%float)]
     = (Ok 2,
        [OOptimizer default_optimizer_b64;
         OFrame (one_item_frame "SKU-0001" 1e200%float 200%float 1e200%float 0.5%float
                   20%float 50%float);
         OFrame df']) /\
     derived_at df' 0 = Some r /\
     PrimFloat.ltb
       (PrimFloat.abs (safety_stock r - (reorder_point r - lead_time_demand r))%float)
       1e-9%float = false) /\
  (exists df' r,
     optimize_inventory_levels (norm_ppf_b64 norm_ppf_table) 0 1 zero_demand_store
     = (Ok 2, zero_demand_store ++ [OFrame df']) /\
     derived_at df' 0 = Some r /\
     PrimFloat.ltb
       (PrimFloat.abs
          (total_annual_cost r - (annual_holding_cost r + annual_ordering_cost r))%float)
       1e-9%float = false).
Proof.
  split; do 2 eexists; (split; [lazy; reflexivity|]); split; reflexivity.
Qed.

(** C6, amended.  In every row of the result, [safety_stock] is
    [reorder_point - lead_time_demand] and [total_annual_cost] is
    [annual_holding_cost + annual_ordering_cost], computed from the fields
    beside them: the identities hold as equations at either carrier, hence
    within 1e-9 in exact arithmetic.  In binary64 the tolerance test
    [abs(field - expression) < 1e-9] succeeds on a row exactly when the field
    is a finite number: it is false where the field is NaN or infinite. *)
Theorem derived_identities :
  (forall F (FO : Float64 F) (norm_ppf : F -> F) (s : store) self data o df,
     nth_error s self = Some (OOptimizer o) ->
     nth_error s data = Some (OFrame df) ->
     valid_input o df ->
     exists df',
       optimize_inventory_levels norm_ppf self data s
       = (Ok (List.length s), s ++ [OFrame df']) /\
       forall i, i < List.length (index df) ->
         exists r, derived_at df' i = Some r /\
           safety_stock r = fsub (reorder_point r) (lead_time_demand r) /\
           total_annual_cost r
           = fadd (annual_holding_cost r) (annual_ordering_cost r)) /\
  (forall (norm_ppf : R -> R) (s : store) self data o df,
     nth_error s self = Some (OOptimizer o) ->
     nth_error s data = Some (OFrame df) ->
     valid_input o df ->
     exists df',
       optimize_inventory_levels norm_ppf self data s
       = (Ok (List.length s), s ++ [OFrame df']) /\
       forall i, i < List.length (index df) ->
         exists r, derived_at df' i = Some r /\
           (Rabs (safety_stock r - (reorder_point r - lead_time_demand r))
            < 1 / 1000000000)%R /\
           (Rabs (total_annual_cost r
                  - (annual_holding_cost r + annual_ordering_cost r))
            < 1 / 1000000000)%R) /\
  (forall (norm_ppf : float -> float) (s : store) self data o df,
     nth_error s self = Some (OOptimizer o) ->
     nth_error s data = Some (OFrame df) ->
     valid_input o df ->
     exists df',
       optimize_inventory_levels norm_ppf self data s
       = (Ok (List.length s), s ++ [OFrame df']) /\
       forall i, i < List.length (index df) ->
         exists r, derived_at df' i = Some r /\
           PrimFloat.ltb
             (PrimFloat.abs
                (safety_stock r - (reorder_point r - lead_time_demand r))%float)
             1e-9%float
           = PrimFloat.is_finite (safety_stock r) /\
           PrimFloat.ltb
             (PrimFloat.abs
                (total_annual_cost r
                 - (annual_holding_cost r + annual_ordering_cost r))%float)
             1e-9%float
           = PrimFloat.is_finite (total_annual_cost r)).
Proof.
  assert (General : forall F (FO : Float64 F) (norm_ppf : F -> F) (s : store) self data o df,
     nth_error s self = Some (OOptimizer o) ->
     nth_error s data = Some (OFrame df) ->
     valid_input o df ->
     exists df',
       optimize_inventory_levels norm_ppf self data s
       = (Ok (List.length s), s ++ [OFrame df']) /\
       forall i, i < List.length (index df) ->
         exists r, derived_at df' i = Some r /\
           safety_stock r = fsub (reorder_point r) (lead_time_demand r) /\
           total_annual_cost r
           = fadd (annual_holding_cost r) (annual_ordering_cost r)).
  { intros F FO norm_ppf s self data o df Hs Hd Hv.
    destruct (optimize_inventory_levels_run norm_ppf s self data o df Hs Hd Hv)
      as (df' & Hrun & _ & _ & _ & _ & _ & Hrows).
    exists df'. split; [exact Hrun|]. intros i Hi.
    destruct (Hrows i Hi) as (it & _ & Hder).
    eexists. split; [exact Hder|]. split; reflexivity. }
  split; [exact General|]. split.
  2:{ intros norm_ppf s self data o df Hs Hd Hv.
      destruct (General float binary64 norm_ppf s self data o df Hs Hd Hv)
        as (df' & Hrun & Hrows).
      exists df'. split; [exact Hrun|]. intros i Hi.
      destruct (Hrows i Hi) as (r & Hr & H1 & H2). exists r. split; [exact Hr|].
      cbn [fadd fsub binary64] in H1, H2. rewrite <- H1, <- H2.
      split; apply tolerance_test_is_finite. }
  intros norm_ppf s self data o df Hs Hd Hv.
  destruct (General R exact norm_ppf s self data o df Hs Hd Hv) as (df' & Hrun & Hrows).
  exists df'. split; [exact Hrun|]. intros i Hi.
  destruct (Hrows i Hi) as (r & Hr & H1 & H2). exists r. split; [exact Hr|].
  rewrite H1, H2. cbn [fadd fsub exact].
  split; (match goal with |- (Rabs ?x < _)%R => replace x with 0%R by lra end;
          rewrite Rabs_R0; lra).
Qed.

Lemma derived_identities_witness :
  exists df',
    optimize_inventory_levels (norm_ppf_b64 norm_ppf_table) 0 1 scenario_store
    = (Ok 2, scenario_store ++ [OFrame df']) /\
    forall i, i < 1 ->
      exists r, derived_at df' i = Some r /\
        safety_stock r = fsub (reorder_point r) (lead_time_demand r) /\
        total_annual_cost r = fadd (annual_holding_cost r) (annual_ordering_cost r).
Proof.
  exact (proj1 derived_identities float binary64 (norm_ppf_b64 norm_ppf_table)
           scenario_store 0 1 default_optimizer_b64 _ eq_refl eq_refl scenario_valid).
Defined.







(** C9.  On a valid batch of N items, [optimize_inventory_levels] returns a
    table with the same row labels in the same order and N entries in every
    column, the input columns as they were; the derived fields of row [i]
    are [item_fields] of the policy and of row [i]'s six input numbers, so
    two rows with the same inputs, in whatever batches and positions, get the
    same derived fields. *)
Theorem rows_in_order_and_independent :
  forall F (FO : Float64 F) (norm_ppf : F -> F),
    (forall (s : store) self data o df,
       nth_error s self = Some (OOptimizer o) ->
       nth_error s data = Some (OFrame df) ->
       valid_input o df ->
       exists df',
         optimize_inventory_levels norm_ppf self data s
         = (Ok (List.length s), s ++ [OFrame df']) /\
         index df' = index df /\
         wf_frame df' /\
         (forall key, ~ In key derived_fields ->
            lookup key (columns df') = lookup key (columns df)) /\
         (forall i, i < List.length (index df) ->
            exists it, item_at df i = Some it /\
                       derived_at df' i = Some (item_fields norm_ppf o it))) /\
    (forall (s1 s2 : store) self1 self2 data1 data2 o df1 df2,
       nth_error s1 self1 = Some (OOptimizer o) ->
       nth_error s2 self2 = Some (OOptimizer o) ->
       nth_error s1 data1 = Some (OFrame df1) ->
       nth_error s2 data2 = Some (OFrame df2) ->
       valid_input o df1 -> valid_input o df2 ->
       exists df1' df2',
         optimize_inventory_levels norm_ppf self1 data1 s1
         = (Ok (List.length s1), s1 ++ [OFrame df1']) /\
         optimize_inventory_levels norm_ppf self2 data2 s2
         = (Ok (List.length s2), s2 ++ [OFrame df2']) /\
         forall i j it, item_at df1 i = Some it -> item_at df2 j = Some it ->
           exists r, derived_at df1' i = Some r /\ derived_at df2' j = Some r).
Proof.
  intros F FO norm_ppf. split.
  - intros s self data o df Hs Hd Hv.
    destruct (optimize_inventory_levels_run norm_ppf s self data o df Hs Hd Hv)
      as (df' & Hrun & Hidx & Hwf & Hkeep & _ & _ & Hrows).
    exists df'. repeat split; assumption.
  - intros s1 s2 self1 self2 data1 data2 o df1 df2 Hs1 Hs2 Hd1 Hd2 Hv1 Hv2.
    destruct (optimize_inventory_levels_run norm_ppf s1 self1 data1 o df1 Hs1 Hd1 Hv1)
      as (df1' & Hrun1 & _ & _ & _ & _ & _ & Hrows1).
    destruct (optimize_inventory_levels_run norm_ppf s2 self2 data2 o df2 Hs2 Hd2 Hv2)
      as (df2' & Hrun2 & _ & _ & _ & _ & _ & Hrows2).
    exists df1', df2'. split; [exact Hrun1|]. split; [exact Hrun2|].
    intros i j it Hi Hj.
    destruct (Hrows1 i (item_at_lt df1 i it (proj1 Hv1) Hi)) as (it1 & E1 & D1).
    destruct (Hrows2 j (item_at_lt df2 j it (proj1 Hv2) Hj)) as (it2 & E2 & D2).
    exists (item_fields norm_ppf o it). split; congruence.
Qed.

Lemma rows_in_order_and_independent_witness :
  exists df',
    optimize_inventory_levels (norm_ppf_b64 norm_ppf_table) 0 1 scenario_store
    = (Ok 2, scenario_store ++ [OFrame df']) /\
    index df' = [0] /\
    wf_frame df' /\
    (forall key, ~ In key derived_fields ->
       lookup key (columns df')
       = lookup key (columns (one_item_frame "SKU-0001" 1000%float 200%float 2%float
                                0.5%float 20%float 50%float))) /\
    (forall i, i < 1 ->
       exists it,
         item_at (one_item_frame "SKU-0001" 1000%float 200%float 2%float 0.5%float
                    20%float 50%float) i = Some it /\
         derived_at df' i
         = Some (item_fields (norm_ppf_b64 norm_ppf_table) default_optimizer_b64 it)).
Proof.
  exact (proj1 (rows_in_order_and_independent float binary64 (norm_ppf_b64 norm_ppf_table))
           scenario_store 0 1 default_optimizer_b64 _ eq_refl eq_refl scenario_valid).
Defined.

(** C10.  Construction stores the three policy scalars in a new object.
    A call of [optimize_inventory_levels] leaves every object of the store as
    it was, the caller's table and the optimizer's three policy
    scalars included, whether it returns or raises; the two scalar methods
    and [save_model] leave the store as it is.  On a valid input the result
    is a new table object with the input's row labels and columns carried
    over and the nine derived columns, appended after them when the input has
    no column of those names. *)
Theorem no_side_effects :
  forall F (FO : Float64 F) (norm_ppf : F -> F),
    (forall (s : store (F:=F)) h so sl,
       InventoryOptimizer_init h so sl s
       = (Ok (List.length s), s ++ [OOptimizer (mkInventoryOptimizer h so sl)])) /\
    (forall (s : store (F:=F)) self data,
       firstn (List.length s) (snd (optimize_inventory_levels norm_ppf self data s)) = s) /\
    (forall (s : store (F:=F)) self data l x,
       nth_error s l = Some x ->
       nth_error (snd (optimize_inventory_levels norm_ppf self data s)) l = Some x) /\
    (forall (s : store (F:=F)) self d oc uc,
       snd (calculate_economic_order_quantity self d oc uc s) = s) /\
    (forall (s : store (F:=F)) self l sd arg,
       snd (calculate_reorder_point norm_ppf self l sd arg s) = s) /\
    (forall (s : store (F:=F)) self, snd (save_model self s) = s) /\
    (forall (s : store (F:=F)) self data o df,
       nth_error s self = Some (OOptimizer o) ->
       nth_error s data = Some (OFrame df) ->
       valid_input o df ->
       exists df',
         optimize_inventory_levels norm_ppf self data s
         = (Ok (List.length s), s ++ [OFrame df']) /\
         nth_error (s ++ [OFrame df']) data = Some (OFrame df) /\
         nth_error (s ++ [OFrame df']) self = Some (OOptimizer o) /\
         index df' = index df /\
         (forall key, ~ In key derived_fields ->
            lookup key (columns df') = lookup key (columns df)) /\
         (forall key, In key derived_fields ->
            exists l, lookup key (columns df') = Some (Float64Col l)) /\
         ((forall key, In key derived_fields -> lookup key (columns df) = None) ->
            map fst (columns df') = map fst (columns df) ++ derived_fields)).
Proof.
  intros F FO norm_ppf.
  assert (Hkept : forall (s : store (F:=F)) self data,
    firstn (List.length s) (snd (optimize_inventory_levels norm_ppf self data s)) = s).
  { intros s self data.
    destruct (kept_optimize_inventory_levels norm_ppf (List.length s) self data s
                (le_n _)) as (H & _).
    rewrite H. apply firstn_all. }
  split; [reflexivity|]. split; [exact Hkept|]. split; [|split; [|split; [|split]]].
  - intros s self data l x Hx. eapply firstn_nth_error; [apply Hkept | exact Hx].
  - intros s self d oc uc.
    unfold calculate_economic_order_quantity, bind, get_optimizer, lift, ret.
    destruct (nth_error s self) as [[o|df]|]; simpl; try reflexivity.
    destruct (truediv _ _); reflexivity.
  - intros s self l sd arg.
    unfold calculate_reorder_point, bind, get_optimizer, ret.
    destruct arg; simpl; [reflexivity|].
    destruct (nth_error s self) as [[o|df]|]; reflexivity.
  - intros s self. unfold save_model, bind, get_optimizer, ret.
    destruct (nth_error s self) as [[o|df]|]; reflexivity.
  - intros s self data o df Hs Hd Hv.
    destruct (optimize_inventory_levels_run norm_ppf s self data o df Hs Hd Hv)
      as (df' & Hrun & Hidx & _ & Hkeep & Hnew & Happ & _).
    exists df'. split; [exact Hrun|].
    split; [now apply nth_error_old|]. split; [now apply nth_error_old|].
    repeat split; assumption.
Qed.

Lemma no_side_effects_witness :
  exists df',
    optimize_inventory_levels (norm_ppf_b64 norm_ppf_table) 0 1 scenario_store
    = (Ok 2, scenario_store ++ [OFrame df']) /\
    nth_error (scenario_store ++ [OFrame df']) 1
    = Some (OFrame (one_item_frame "SKU-0001" 1000%float 200%float 2%float 0.5%float
                      20%float 50%float)) /\
    nth_error (scenario_store ++ [OFrame df']) 0 = Some (OOptimizer default_optimizer_b64) /\
    map fst (columns df')
    = ["sku_id"; "demand_mean"; "demand_std"; "lead_time_mean"; "lead_time_std";
       "unit_cost"; "ordering_cost"] ++ derived_fields.
Proof.
  destruct (proj2 (proj2 (proj2 (proj2 (proj2 (proj2
              (no_side_effects float binary64 (norm_ppf_b64 norm_ppf_table)))))))
              scenario_store 0 1 default_optimizer_b64 _ eq_refl eq_refl scenario_valid)
    as (df' & Hrun & H1 & H2 & _ & _ & _ & Happ).
  exists df'. repeat split; try assumption.
  apply Happ. intros key Hkey. simpl in Hkey.
  repeat (destruct Hkey as [<- | Hkey]; [reflexivity|]). contradiction.
Defined.

(** * The rest of the code *)

From Stdlib Require Import Sorted.

(** ** Runs that raise *)

Section Raising.
Context {F : Type} {FO : Float64 F}.
Variable norm_ppf : F -> F.

Lemma bind_raise T U (m : M T) (k : T -> M U) (s s' : store (F:=F)) e :
  m s = (Raise e, s') -> bind m k s = (Raise e, s').
Proof. intros H. unfold bind. rewrite H. reflexivity. Qed.

Lemma getitem_missing (df : DataFrame (F:=F)) key :
  lookup key (columns df) = None -> getitem df key = Raise (KeyError key).
Proof. intros H. unfold getitem. now rewrite H. Qed.

Lemma row_getitem_missing obj (cols : list (string * column (F:=F))) key i :
  lookup key cols = None ->
  row_getitem (row_of obj cols i) key = Raise (KeyError key).
Proof.
  induction cols as [|[k0 c0] cols IH]; simpl; [reflexivity|].
  destruct (String.eqb k0 key) eqn:E; [discriminate|]. intros H.
  destruct (cell_at obj c0 i); simpl; [rewrite E|]; auto.
Qed.

Lemma row_getitem_object obj (cols : list (string * column (F:=F))) key l i x :
  lookup key cols = Some (ObjectCol l) -> nth_error l i = Some x ->
  row_getitem (row_of obj cols i) key = Ok (CStr x).
Proof.
  intros Hl Hx. induction cols as [|[k0 c0] cols IH]; simpl in *; [discriminate|].
  destruct (String.eqb k0 key) eqn:E.
  - injection Hl as ->. simpl. rewrite Hx. simpl. now rewrite E.
  - destruct (cell_at obj c0 i); simpl; [rewrite E|]; auto.
Qed.

(** The first row that raises ends the loop. *)
Lemma mapM_seq_raise {U} (f : nat -> M U) (S : store (F:=F)) e n a :
  (forall i, a <= i < a + n ->
     (exists v, f i S = (Ok v, S)) \/ f i S = (Raise e, S)) ->
  (exists i, a <= i < a + n /\ f i S = (Raise e, S)) ->
  mapM f (seq a n) S = (Raise e, S).
Proof.
  revert a. induction n as [|n IH]; intros a Hall (i & Hi & Hr); [lia|].
  simpl. destruct (Hall a ltac:(lia)) as [[v Hv]|Hv].
  - erewrite bind_ok by exact Hv. erewrite bind_raise; [reflexivity|].
    apply IH.
    + intros j Hj. apply Hall. lia.
    + exists i. split; [|exact Hr].
      assert (i <> a) by (intros ->; congruence). lia.
  - now erewrite bind_raise by exact Hv.
Qed.

Lemma apply_rows_raise (s : store (F:=F)) df (f : row -> M num) e :
  (forall i, i < List.length (index df) ->
     (exists v, f (iloc df i) (s ++ [OFrame df]) = (Ok v, s ++ [OFrame df])) \/
     f (iloc df i) (s ++ [OFrame df]) = (Raise e, s ++ [OFrame df])) ->
  (exists i, i < List.length (index df) /\
     f (iloc df i) (s ++ [OFrame df]) = (Raise e, s ++ [OFrame df])) ->
  apply_rows (List.length s) f (s ++ [OFrame df]) = (Raise e, s ++ [OFrame df]).
Proof.
  intros Hall (i & Hi & Hr). unfold apply_rows.
  erewrite bind_ok by apply get_frame_last.
  erewrite bind_raise; [reflexivity|].
  apply mapM_seq_raise.
  - intros j Hj. apply Hall. lia.
  - exists i. split; [lia | exact Hr].
Qed.

Lemma apply_rows_raise_first (s : store (F:=F)) df (f : row -> M num) e :
  0 < List.length (index df) ->
  f (iloc df 0) (s ++ [OFrame df]) = (Raise e, s ++ [OFrame df]) ->
  apply_rows (List.length s) f (s ++ [OFrame df]) = (Raise e, s ++ [OFrame df]).
Proof.
  intros Hn He. unfold apply_rows.
  erewrite bind_ok by apply get_frame_last.
  erewrite bind_raise; [reflexivity|].
  destruct (List.length (index df)) as [|n]; [lia|]. simpl.
  now erewrite bind_raise by exact He.
Qed.

Lemma row_getitem_cell obj (cols : list (string * column (F:=F))) key c i v :
  lookup key cols = Some c -> cell_at obj c i = Some v ->
  row_getitem (row_of obj cols i) key = Ok v.
Proof.
  intros Hl Hv. induction cols as [|[k0 c0] cols IH]; simpl in *; [discriminate|].
  destruct (String.eqb k0 key) eqn:E.
  - injection Hl as ->. rewrite Hv. simpl. now rewrite E.
  - destruct (cell_at obj c0 i); simpl; [rewrite E|]; auto.
Qed.

Lemma cell_at_wf (df : DataFrame (F:=F)) obj key c i :
  wf_frame df -> lookup key (columns df) = Some c -> i < List.length (index df) ->
  exists v, cell_at obj c i = Some v /\
            (is_object c = true -> exists x, v = CStr x) /\
            (is_object c = false -> exists x, v = CNum (box obj x)).
Proof.
  intros Hwf Hl Hi. pose proof (lookup_wf _ _ _ Hwf Hl) as Hlen.
  destruct c as [l|l]; simpl in *;
    (destruct (nth_error_Some_lt l i ltac:(lia)) as [x Hx]; rewrite Hx; simpl;
     eexists; split; [reflexivity|]; split; intros; try discriminate; eauto).
Qed.

End Raising.

Ltac raise_step H tac := erewrite bind_raise in H; [ | tac ].

Ltac get_missing_tac :=
  rewrite frame_getitem_last; rewrite ?getitem_setitem; eval_eqb;
  erewrite getitem_missing by eassumption; reflexivity.

(** The statements of [optimize_inventory_levels] up to the assignment of
    [lead_time_demand_std]. *)
Ltac run_lead_time H :=
  step H ltac:(apply copy_run; eassumption);
  step H get_tac; step H get_tac; step H ltac:(reflexivity);
  step H ltac:(apply frame_setitem_last);
  step H get_tac; step H ltac:(reflexivity);
  step H get_tac; step H ltac:(reflexivity);
  step H ltac:(reflexivity);
  step H get_tac; step H ltac:(reflexivity);
  step H get_tac; step H ltac:(reflexivity);
  step H ltac:(reflexivity); step H ltac:(reflexivity); step H ltac:(reflexivity);
  step H ltac:(apply frame_setitem_last).

(** The statements after the two [apply] calls. *)
Ltac run_costs H :=
  step H ltac:(apply frame_setitem_last);
  step H get_tac; step H get_tac; step H ltac:(reflexivity);
  step H ltac:(apply frame_setitem_last);
  step H get_tac; step H get_tac; step H ltac:(reflexivity);
  step H ltac:(apply frame_setitem_last);
  step H get_tac; step H get_tac; step H ltac:(reflexivity);
  step H ltac:(apply get_optimizer_old; eassumption);
  step H ltac:(reflexivity);
  step H ltac:(apply frame_setitem_last);
  step H get_tac; step H get_tac; step H ltac:(reflexivity);
  step H get_tac; step H ltac:(reflexivity);
  step H ltac:(apply frame_setitem_last);
  step H get_tac; step H get_tac; step H ltac:(reflexivity);
  step H ltac:(apply frame_setitem_last).

Section AnyKind.
Context {F : Type} {FO : Float64 F}.
Variable norm_ppf : F -> F.

Lemma optimize_inventory_levels_columns_gen
    (s : store (F:=F)) self data o df dm ds ltm lts uc oc :
  nth_error s self = Some (OOptimizer o) ->
  nth_error s data = Some (OFrame df) ->
  wf_frame df ->
  lookup "demand_mean" (columns df) = Some (Float64Col dm) ->
  lookup "demand_std" (columns df) = Some (Float64Col ds) ->
  lookup "lead_time_mean" (columns df) = Some (Float64Col ltm) ->
  lookup "lead_time_std" (columns df) = Some (Float64Col lts) ->
  lookup "unit_cost" (columns df) = Some (Float64Col uc) ->
  lookup "ordering_cost" (columns df) = Some (Float64Col oc) ->
  (forall i a c u, nth_error dm i = Some a -> nth_error oc i = Some c ->
     nth_error uc i = Some u ->
     let b := has_object (with_lead_time_columns df dm ds ltm lts) in
     eoq_result o (box b a) (box b c) (box b u)
     = Ok (Np (eoq_formula (val (holding_cost_rate o)) a c u))) ->
  exists EOQ ROP,
    List.length EOQ = List.length (index df) /\
    List.length ROP = List.length (index df) /\
    (forall i a c u, nth_error dm i = Some a -> nth_error oc i = Some c ->
       nth_error uc i = Some u ->
       nth_error EOQ i = Some (eoq_formula (val (holding_cost_rate o)) a c u)) /\
    (forall i l sd, nth_error (col_ltd dm ltm) i = Some l ->
       nth_error (col_std dm ds ltm lts) i = Some sd ->
       nth_error ROP i = Some (rop_formula norm_ppf (val (service_level o)) l sd)) /\
    optimize_inventory_levels norm_ppf self data s
    = (Ok (List.length s),
       s ++ [OFrame (result_frame o df dm ds ltm lts uc oc EOQ ROP)]).
Proof.
  intros Hself Hdata Hwf Hdm Hds Hltm Hlts Huc Hoc Hok.
  pose proof (lookup_wf _ _ _ Hwf Hdm) as Ldm.
  pose proof (lookup_wf _ _ _ Hwf Hds) as Lds.
  pose proof (lookup_wf _ _ _ Hwf Hltm) as Lltm.
  pose proof (lookup_wf _ _ _ Hwf Hlts) as Llts.
  pose proof (lookup_wf _ _ _ Hwf Huc) as Luc.
  pose proof (lookup_wf _ _ _ Hwf Hoc) as Loc.
  simpl in Ldm, Lds, Lltm, Llts, Luc, Loc.
  remember (optimize_inventory_levels norm_ppf self data s) as R eqn:HR.
  unfold optimize_inventory_levels in HR.
  run_lead_time HR.
  fold (col_ltd dm ltm) in HR. fold (col_std dm ds ltm lts) in HR.
  fold (with_lead_time_columns df dm ds ltm lts) in HR.
  assert (Hrow : forall i a c u, nth_error dm i = Some a -> nth_error oc i = Some c ->
            nth_error uc i = Some u ->
            eoq_row self (iloc (with_lead_time_columns df dm ds ltm lts) i)
              (s ++ [OFrame (with_lead_time_columns df dm ds ltm lts)])
            = (Ok (Np (eoq_formula (val (holding_cost_rate o)) a c u)),
               s ++ [OFrame (with_lead_time_columns df dm ds ltm lts)])).
  { intros i a c u Ha Hc Hu.
    erewrite eoq_row_run;
      [ | apply nth_error_old; eassumption
        | unfold with_lead_time_columns; num_tac;
          erewrite numeric_at_lookup by eassumption; eassumption .. ].
    now rewrite (Hok i a c u Ha Hc Hu). }
  destruct (apply_rows_last s (with_lead_time_columns df dm ds ltm lts) (eoq_row self))
    as (EOQ & Happ & LEOQ & HEOQ).
  { intros i Hi. change (i < List.length (index df)) in Hi.
    destruct (nth_error_Some_lt dm i ltac:(lia)) as [a Ha].
    destruct (nth_error_Some_lt oc i ltac:(lia)) as [c Hc].
    destruct (nth_error_Some_lt uc i ltac:(lia)) as [u Hu].
    rewrite (Hrow i a c u Ha Hc Hu). eauto. }
  step HR ltac:(exact Happ).
  step HR ltac:(apply frame_setitem_last).
  unfold with_lead_time_columns in HR.
  match type of HR with context [OFrame ?d] =>
    destruct (apply_rows_last s d (rop_row norm_ppf self)) as (ROP & Happ' & LROP & HROP)
  end.
  { intros i Hi. simpl in Hi.
    destruct (nth_error_Some_lt (col_ltd dm ltm) i) as [l Hl].
    { unfold col_ltd. erewrite length_zip_with; eauto. }
    destruct (nth_error_Some_lt (col_std dm ds ltm lts) i) as [sd Hsd].
    { unfold col_std. rewrite length_map.
      erewrite length_zip_with; [eassumption | | ];
        (erewrite length_zip_with; [reflexivity | | ]; rewrite length_map; assumption). }
    erewrite rop_row_run; [ eauto | apply nth_error_old; eassumption
                            | num_tac; eassumption .. ]. }
  step HR ltac:(exact Happ').
  run_costs HR.
  exists EOQ, ROP. repeat split; try assumption.
  - intros i a c u Ha Hc Hu.
    assert (Hi : i < List.length (index df)).
    { rewrite <- Ldm. apply nth_error_Some. congruence. }
    exact (HEOQ i _ Hi (Hrow i a c u Ha Hc Hu)).
  - intros i l sd Hl Hsd. simpl in HROP.
    assert (Hi : i < List.length (index df)).
    { assert (i < List.length (col_ltd dm ltm)) by (apply nth_error_Some; congruence).
      unfold col_ltd in H. erewrite length_zip_with in H; eauto. }
    pose proof (HROP i (Np (rop_formula norm_ppf (val (service_level o)) l sd)) Hi) as H.
    simpl in H. apply H.
    erewrite rop_row_run; [ reflexivity | apply nth_error_old; eassumption
                            | num_tac; eassumption .. ].
Qed.

End AnyKind.

Section MissingColumns.
Context {F : Type} {FO : Float64 F}.
Variable norm_ppf : F -> F.

Lemma index_nonempty_lt (df : DataFrame (F:=F)) :
  index df <> [] -> 0 < List.length (index df).
Proof. destruct (index df); [contradiction | simpl; lia]. Qed.

Lemma first_row (df : DataFrame (F:=F)) key l :
  wf_frame df -> index df <> [] ->
  lookup key (columns df) = Some (Float64Col l) ->
  exists x, numeric_at df key 0 = Some x.
Proof.
  intros Hwf Hne Hl. rewrite (numeric_at_lookup _ _ _ _ Hl).
  apply nth_error_Some_lt.
  pose proof (lookup_wf _ _ _ Hwf Hl) as H. simpl in H. rewrite H.
  now apply index_nonempty_lt.
Qed.

Lemma eoq_row_missing_ordering_cost (S : store (F:=F)) self d i a :
  numeric_at d "demand_mean" i = Some a ->
  lookup "ordering_cost" (columns d) = None ->
  eoq_row self (iloc d i) S = (Raise (KeyError "ordering_cost"), S).
Proof.
  intros Ha Hk. unfold eoq_row. rewrite (row_getitem_iloc _ _ _ _ Ha).
  unfold iloc. rewrite (row_getitem_missing _ _ _ _ Hk). reflexivity.
Qed.

Lemma eoq_row_missing_unit_cost (S : store (F:=F)) self d i a c :
  numeric_at d "demand_mean" i = Some a ->
  numeric_at d "ordering_cost" i = Some c ->
  lookup "unit_cost" (columns d) = None ->
  eoq_row self (iloc d i) S = (Raise (KeyError "unit_cost"), S).
Proof.
  intros Ha Hc Hk. unfold eoq_row.
  rewrite (row_getitem_iloc _ _ _ _ Ha), (row_getitem_iloc _ _ _ _ Hc).
  unfold iloc. rewrite (row_getitem_missing _ _ _ _ Hk). reflexivity.
Qed.

(** X1.  [optimize_inventory_levels] reads the six input columns in the
    order [demand_mean], [lead_time_mean], [lead_time_std], [demand_std],
    [ordering_cost], [unit_cost] (the last two through the first row handed
    to [apply]).  On a table with at least one row, the first of them that
    is missing, the ones before it being numeric, makes the call raise
    [KeyError] with that name; the objects of the store are as before. *)
Theorem missing_column_raises_KeyError
    (s : store (F:=F)) self data o df pre key post :
  nth_error s self = Some (OOptimizer o) ->
  nth_error s data = Some (OFrame df) ->
  wf_frame df ->
  index df <> [] ->
  access_order = pre ++ key :: post ->
  (forall k, In k pre -> exists l, lookup k (columns df) = Some (Float64Col l)) ->
  lookup key (columns df) = None ->
  fst (optimize_inventory_levels norm_ppf self data s) = Raise (KeyError key) /\
  firstn (List.length s) (snd (optimize_inventory_levels norm_ppf self data s)) = s.
Proof.
  intros Hself Hdata Hwf Hne Hord Hpre Hkey. split.
  2:{ destruct (kept_optimize_inventory_levels norm_ppf (List.length s) self data s
                  (le_n _)) as (H & _).
      rewrite H. apply firstn_all. }
  remember (optimize_inventory_levels norm_ppf self data s) as R eqn:HR.
  unfold optimize_inventory_levels in HR.
  unfold access_order in Hord.
  destruct pre as [|k1 pre]; simpl in Hord; injection Hord as <- Hord.
  { step HR ltac:(apply copy_run; eassumption).
    raise_step HR get_missing_tac. now rewrite HR. }
  destruct (Hpre "demand_mean") as [dm Hdm]; [simpl; tauto|].
  destruct pre as [|k2 pre]; simpl in Hord; injection Hord as <- Hord.
  { step HR ltac:(apply copy_run; eassumption).
    step HR get_tac. raise_step HR get_missing_tac. now rewrite HR. }
  destruct (Hpre "lead_time_mean") as [ltm Hltm]; [simpl; tauto|].
  destruct pre as [|k3 pre]; simpl in Hord; injection Hord as <- Hord.
  { step HR ltac:(apply copy_run; eassumption).
    step HR get_tac. step HR get_tac. step HR ltac:(reflexivity).
    step HR ltac:(apply frame_setitem_last).
    step HR get_tac. step HR ltac:(reflexivity).
    raise_step HR get_missing_tac. now rewrite HR. }
  destruct (Hpre "lead_time_std") as [lts Hlts]; [simpl; tauto|].
  destruct pre as [|k4 pre]; simpl in Hord; injection Hord as <- Hord.
  { step HR ltac:(apply copy_run; eassumption).
    step HR get_tac. step HR get_tac. step HR ltac:(reflexivity).
    step HR ltac:(apply frame_setitem_last).
    step HR get_tac. step HR ltac:(reflexivity).
    step HR get_tac. step HR ltac:(reflexivity).
    step HR ltac:(reflexivity).
    step HR get_tac. step HR ltac:(reflexivity).
    raise_step HR get_missing_tac. now rewrite HR. }
  destruct (Hpre "demand_std") as [ds Hds]; [simpl; tauto|].
  destruct (first_row df _ _ Hwf Hne Hdm) as [a Ha].
  run_lead_time HR.
  destruct pre as [|k5 pre]; simpl in Hord; injection Hord as <- Hord.
  { raise_step HR ltac:(apply apply_rows_raise_first;
      [ apply index_nonempty_lt; exact Hne
      | eapply eoq_row_missing_ordering_cost;
        [ num_tac; exact Ha
        | rewrite !columns_setitem, !lookup_set_col; eval_eqb; exact Hkey ] ]).
    now rewrite HR. }
  destruct (Hpre "ordering_cost") as [oc Hoc]; [simpl; tauto|].
  destruct (first_row df _ _ Hwf Hne Hoc) as [c Hc].
  destruct pre as [|k6 pre]; simpl in Hord; injection Hord as <- Hord.
  { raise_step HR ltac:(apply apply_rows_raise_first;
      [ apply index_nonempty_lt; exact Hne
      | eapply eoq_row_missing_unit_cost;
        [ num_tac; exact Ha | num_tac; exact Hc
        | rewrite !columns_setitem, !lookup_set_col; eval_eqb; exact Hkey ] ]).
    now rewrite HR. }
  destruct pre; discriminate.
Qed.

End MissingColumns.

Section TextColumns.
Context {F : Type} {FO : Float64 F}.
Variable norm_ppf : F -> F.

Lemma eoq_row_string (S : store (F:=F)) self d i a c_oc c_uc voc vuc :
  numeric_at d "demand_mean" i = Some a ->
  lookup "ordering_cost" (columns d) = Some c_oc ->
  cell_at (has_object d) c_oc i = Some voc ->
  lookup "unit_cost" (columns d) = Some c_uc ->
  cell_at (has_object d) c_uc i = Some vuc ->
  (exists x, voc = CStr x) \/ (exists x, vuc = CStr x) ->
  eoq_row self (iloc d i) S = (Raise TypeError, S).
Proof.
  intros Ha Hoc Hvoc Huc Hvuc Hstr. unfold eoq_row.
  rewrite (row_getitem_iloc _ _ _ _ Ha). unfold iloc.
  rewrite (row_getitem_cell _ _ _ _ _ _ Hoc Hvoc), (row_getitem_cell _ _ _ _ _ _ Huc Hvuc).
  destruct voc as [so|no], vuc as [su|nu]; try reflexivity.
  destruct Hstr as [[y Hy]|[y Hy]]; discriminate.
Qed.

(** X2.  On a table with at least one row that has all six input columns,
    one of them a column of strings, the call raises [TypeError]: there is
    no conversion of text to numbers.  The objects of the store are as
    before. *)
Theorem string_column_raises_TypeError (s : store (F:=F)) self data o df key l :
  nth_error s self = Some (OOptimizer o) ->
  nth_error s data = Some (OFrame df) ->
  wf_frame df ->
  index df <> [] ->
  (forall k, In k input_fields -> exists c, lookup k (columns df) = Some c) ->
  In key input_fields ->
  lookup key (columns df) = Some (ObjectCol l) ->
  fst (optimize_inventory_levels norm_ppf self data s) = Raise TypeError /\
  firstn (List.length s) (snd (optimize_inventory_levels norm_ppf self data s)) = s.
Proof.
  intros Hself Hdata Hwf Hne Hall Hin Hobj. split.
  2:{ destruct (kept_optimize_inventory_levels norm_ppf (List.length s) self data s
                  (le_n _)) as (H & _).
      rewrite H. apply firstn_all. }
  destruct (Hall "demand_mean") as [cdm Hdm]; [simpl; tauto|].
  destruct (Hall "demand_std") as [cds Hds]; [simpl; tauto|].
  destruct (Hall "lead_time_mean") as [cltm Hltm]; [simpl; tauto|].
  destruct (Hall "lead_time_std") as [clts Hlts]; [simpl; tauto|].
  destruct (Hall "unit_cost") as [cuc Huc]; [simpl; tauto|].
  destruct (Hall "ordering_cost") as [coc Hoc]; [simpl; tauto|].
  remember (optimize_inventory_levels norm_ppf self data s) as R eqn:HR.
  unfold optimize_inventory_levels in HR.
  destruct cdm as [dm|dm].
  { step HR ltac:(apply copy_run; eassumption).
    step HR get_tac. step HR get_tac.
    raise_step HR ltac:(reflexivity). now rewrite HR. }
  destruct cltm as [ltm|ltm].
  { step HR ltac:(apply copy_run; eassumption).
    step HR get_tac. step HR get_tac.
    raise_step HR ltac:(reflexivity). now rewrite HR. }
  destruct clts as [lts|lts].
  { step HR ltac:(apply copy_run; eassumption).
    step HR get_tac. step HR get_tac. step HR ltac:(reflexivity).
    step HR ltac:(apply frame_setitem_last).
    step HR get_tac. step HR ltac:(reflexivity).
    step HR get_tac. raise_step HR ltac:(reflexivity). now rewrite HR. }
  destruct cds as [ds|ds].
  { step HR ltac:(apply copy_run; eassumption).
    step HR get_tac. step HR get_tac. step HR ltac:(reflexivity).
    step HR ltac:(apply frame_setitem_last).
    step HR get_tac. step HR ltac:(reflexivity).
    step HR get_tac. step HR ltac:(reflexivity).
    step HR ltac:(reflexivity).
    step HR get_tac. step HR ltac:(reflexivity).
    step HR get_tac. raise_step HR ltac:(reflexivity). now rewrite HR. }
  assert (Hstr : is_object coc = true \/ is_object cuc = true).
  { simpl in Hin.
    destruct Hin as [<-|[<-|[<-|[<-|[<-|[<-|[]]]]]]]; try congruence.
    - right. rewrite Huc in Hobj. now injection Hobj as ->.
    - left. rewrite Hoc in Hobj. now injection Hobj as ->. }
  destruct (first_row df _ _ Hwf Hne Hdm) as [a Ha].
  run_lead_time HR.
  match type of HR with context [OFrame ?d] => set (d2 := d) in * end.
  destruct (cell_at_wf df (has_object d2) _ _ 0 Hwf Hoc (index_nonempty_lt df Hne))
    as (voc & Hvoc & Hoc1 & _).
  destruct (cell_at_wf df (has_object d2) _ _ 0 Hwf Huc (index_nonempty_lt df Hne))
    as (vuc & Hvuc & Huc1 & _).
  raise_step HR ltac:(apply apply_rows_raise_first;
    [ apply index_nonempty_lt; exact Hne
    | eapply eoq_row_string with (voc := voc) (vuc := vuc);
      [ subst d2; num_tac; exact Ha
      | subst d2; rewrite !columns_setitem, !lookup_set_col; eval_eqb; exact Hoc
      | exact Hvoc
      | subst d2; rewrite !columns_setitem, !lookup_set_col; eval_eqb; exact Huc
      | exact Hvuc
      | destruct Hstr as [H|H]; [left; auto | right; auto] ] ]).
  now rewrite HR.
Qed.

End TextColumns.

Section ZeroDiv.
Context {F : Type} {FO : Float64 F}.
Variable norm_ppf : F -> F.

Lemma has_object_lookup (df : DataFrame (F:=F)) key l :
  lookup key (columns df) = Some (ObjectCol l) -> has_object df = true.
Proof.
  unfold has_object. induction (columns df) as [|[k0 c0] cols IH]; simpl; [discriminate|].
  destruct (String.eqb k0 key).
  - intros [= ->]. reflexivity.
  - intros H. rewrite (IH H). apply orb_true_r.
Qed.

Lemma has_object_set_col_float k l (cols : list (string * column (F:=F))) :
  existsb (fun kc => is_object (snd kc)) cols = false ->
  existsb (fun kc => is_object (snd kc)) (set_col k (Float64Col l) cols) = false.
Proof.
  induction cols as [|[k0 c0] cols IH]; simpl; [reflexivity|].
  intros H. apply orb_false_iff in H as [H1 H2].
  destruct (String.eqb k0 k); simpl.
  - exact H2.
  - rewrite H1. now apply IH.
Qed.

Lemma has_object_setitem_float (df : DataFrame (F:=F)) k l :
  has_object df = false -> has_object (setitem df k (Float64Col l)) = false.
Proof. unfold has_object, setitem. simpl. apply has_object_set_col_float. Qed.

Lemma eoq_result_python (o : InventoryOptimizer (F:=F)) a c u :
  is_py (holding_cost_rate o) = true ->
  eoq_result o (Py a) (Py c) (Py u)
  = if is_zero (fmul (val (holding_cost_rate o)) u)
    then Raise ZeroDivisionError
    else Ok (Np (eoq_formula (val (holding_cost_rate o)) a c u)).
Proof.
  intros Hpy. unfold eoq_result, eoq_formula.
  destruct (holding_cost_rate o) as [h|h]; [|discriminate]. simpl.
  destruct (is_zero (fmul h u)); reflexivity.
Qed.

(** One row with a zero divisor, in a table that hands out Python floats *)
Lemma zero_divisor_run
    (s : store (F:=F)) self data o df key ids i0 u0 :
  nth_error s self = Some (OOptimizer o) ->
  nth_error s data = Some (OFrame df) ->
  wf_frame df ->
  (forall k, In k input_fields ->
     exists l, lookup k (columns df) = Some (Float64Col l)) ->
  lookup key (columns df) = Some (ObjectCol ids) ->
  ~ In key derived_fields ->
  is_py (holding_cost_rate o) = true ->
  numeric_at df "unit_cost" i0 = Some u0 ->
  is_zero (fmul (val (holding_cost_rate o)) u0) = true ->
  fst (optimize_inventory_levels norm_ppf self data s) = Raise ZeroDivisionError.
Proof.
  intros Hself Hdata Hwf Hcols Hids Hkey Hpy Hu0 Hz.
  destruct (Hcols "demand_mean") as [dm Hdm]; [simpl; tauto|].
  destruct (Hcols "demand_std") as [ds Hds]; [simpl; tauto|].
  destruct (Hcols "lead_time_mean") as [ltm Hltm]; [simpl; tauto|].
  destruct (Hcols "lead_time_std") as [lts Hlts]; [simpl; tauto|].
  destruct (Hcols "unit_cost") as [uc Huc]; [simpl; tauto|].
  destruct (Hcols "ordering_cost") as [oc Hoc]; [simpl; tauto|].
  pose proof (lookup_wf _ _ _ Hwf Hdm) as Ldm.
  pose proof (lookup_wf _ _ _ Hwf Huc) as Luc.
  pose proof (lookup_wf _ _ _ Hwf Hoc) as Loc.
  simpl in Ldm, Luc, Loc.
  remember (optimize_inventory_levels norm_ppf self data s) as R eqn:HR.
  unfold optimize_inventory_levels in HR.
  run_lead_time HR.
  match type of HR with context [OFrame ?d] => set (d2 := d) in * end.
  assert (Hobj : has_object d2 = true).
  { apply has_object_lookup with (key := key) (l := ids). subst d2.
    rewrite !columns_setitem, !lookup_set_col.
    assert (Hne : forall k, In k derived_fields -> String.eqb k key = false).
    { intros k Hk. apply String.eqb_neq. intros ->. contradiction. }
    rewrite !Hne by (simpl; tauto). exact Hids. }
  assert (Hrow : forall i a c u, nth_error dm i = Some a -> nth_error oc i = Some c ->
            nth_error uc i = Some u ->
            eoq_row self (iloc d2 i) (s ++ [OFrame d2])
            = (if is_zero (fmul (val (holding_cost_rate o)) u)
               then Raise ZeroDivisionError
               else Ok (Np (eoq_formula (val (holding_cost_rate o)) a c u)),
               s ++ [OFrame d2])).
  { intros i a c u Ha Hc Hu.
    erewrite eoq_row_run;
      [ | apply nth_error_old; eassumption
        | subst d2; num_tac; erewrite numeric_at_lookup by eassumption; eassumption .. ].
    rewrite Hobj. unfold box. now rewrite eoq_result_python. }
  rewrite (numeric_at_lookup _ _ _ _ Huc) in Hu0.
  assert (Hi0 : i0 < List.length (index df)).
  { rewrite <- Luc. apply nth_error_Some. congruence. }
  raise_step HR ltac:(apply apply_rows_raise with (e := ZeroDivisionError)).
  - now rewrite HR.
  - intros i Hi. change (i < List.length (index df)) in Hi.
    destruct (nth_error_Some_lt dm i ltac:(lia)) as [a Ha].
    destruct (nth_error_Some_lt oc i ltac:(lia)) as [c Hc].
    destruct (nth_error_Some_lt uc i ltac:(lia)) as [u Hu].
    rewrite (Hrow i a c u Ha Hc Hu).
    destruct (is_zero (fmul (val (holding_cost_rate o)) u));
      [right; reflexivity | left; eauto].
  - exists i0. split; [exact Hi0|].
    destruct (nth_error_Some_lt dm i0 ltac:(lia)) as [a Ha].
    destruct (nth_error_Some_lt oc i0 ltac:(lia)) as [c Hc].
    rewrite (Hrow i0 a c u0 Ha Hc Hu0). now rewrite Hz.
Qed.

(** X3.  A table with a column of strings (the [sku_id]s) hands Python
    floats to the scalar method.  With a Python float [holding_cost_rate],
    one row whose [holding_cost_rate * unit_cost] is zero makes the whole
    call raise [ZeroDivisionError]: no table is returned, for the other
    rows either.  The objects of the store are as before. *)
Theorem zero_divisor_aborts_batch
    (s : store (F:=F)) self data o df key ids i0 u0 :
  nth_error s self = Some (OOptimizer o) ->
  nth_error s data = Some (OFrame df) ->
  wf_frame df ->
  (forall k, In k input_fields ->
     exists l, lookup k (columns df) = Some (Float64Col l)) ->
  lookup key (columns df) = Some (ObjectCol ids) ->
  ~ In key derived_fields ->
  is_py (holding_cost_rate o) = true ->
  numeric_at df "unit_cost" i0 = Some u0 ->
  is_zero (fmul (val (holding_cost_rate o)) u0) = true ->
  fst (optimize_inventory_levels norm_ppf self data s) = Raise ZeroDivisionError /\
  firstn (List.length s) (snd (optimize_inventory_levels norm_ppf self data s)) = s.
Proof.
  intros Hself Hdata Hwf Hcols Hids Hkey Hpy Hu0 Hz. split.
  - eapply zero_divisor_run; eassumption.
  - destruct (kept_optimize_inventory_levels norm_ppf (List.length s) self data s
                (le_n _)) as (H & _).
    rewrite H. apply firstn_all.
Qed.

(** A table of [float64] columns only: the rows hold [numpy.float64]
    values, and no division raises. *)
Lemma float_table_run (s : store (F:=F)) self data o df :
  nth_error s self = Some (OOptimizer o) ->
  nth_error s data = Some (OFrame df) ->
  wf_frame df ->
  (forall k, In k input_fields ->
     exists l, lookup k (columns df) = Some (Float64Col l)) ->
  has_object df = false ->
  exists df',
    optimize_inventory_levels norm_ppf self data s
    = (Ok (List.length s), s ++ [OFrame df']) /\
    forall i it, item_at df i = Some it ->
      numeric_at df' "eoq" i
      = Some (eoq_formula (val (holding_cost_rate o))
                (demand_mean it) (ordering_cost it) (unit_cost it)).
Proof.
  intros Hself Hdata Hwf Hcols Hobj.
  destruct (Hcols "demand_mean") as [dm Hdm]; [simpl; tauto|].
  destruct (Hcols "demand_std") as [ds Hds]; [simpl; tauto|].
  destruct (Hcols "lead_time_mean") as [ltm Hltm]; [simpl; tauto|].
  destruct (Hcols "lead_time_std") as [lts Hlts]; [simpl; tauto|].
  destruct (Hcols "unit_cost") as [uc Huc]; [simpl; tauto|].
  destruct (Hcols "ordering_cost") as [oc Hoc]; [simpl; tauto|].
  destruct (optimize_inventory_levels_columns_gen norm_ppf s self data o df
              dm ds ltm lts uc oc Hself Hdata Hwf Hdm Hds Hltm Hlts Huc Hoc)
    as (EOQ & ROP & LEOQ & LROP & HEOQ & HROP & Hrun).
  { intros i a c u Ha Hc Hu b.
    assert (Hb : b = false).
    { subst b. unfold with_lead_time_columns.
      now do 2 apply has_object_setitem_float. }
    rewrite Hb. unfold box. now rewrite eoq_result_numpy. }
  eexists. split; [exact Hrun|]. intros i it Hit.
  unfold item_at in Hit.
  rewrite (numeric_at_lookup _ _ _ i Hdm), (numeric_at_lookup _ _ _ i Hds),
    (numeric_at_lookup _ _ _ i Hltm), (numeric_at_lookup _ _ _ i Hlts),
    (numeric_at_lookup _ _ _ i Huc), (numeric_at_lookup _ _ _ i Hoc) in Hit.
  destruct (nth_error dm i) as [a|] eqn:Ha; [|discriminate].
  destruct (nth_error ds i); [|discriminate].
  destruct (nth_error ltm i); [|discriminate].
  destruct (nth_error lts i); [|discriminate].
  destruct (nth_error uc i) as [u|] eqn:Hu; [|discriminate].
  destruct (nth_error oc i) as [c|] eqn:Hc; [|discriminate].
  injection Hit as <-. simpl.
  unfold result_frame. num_tac. exact (HEOQ i a c u Ha Hc Hu).
Qed.

End ZeroDiv.

(** ** The shape of the result *)

Section Shape.
Context {F : Type} {FO : Float64 F}.
Variable norm_ppf : F -> F.

Lemma names_set_col k c (cols : list (string * column (F:=F))) :
  map fst (set_col k c cols) = add_name (map fst cols) k.
Proof.
  unfold add_name. induction cols as [|[k0 c0] cols IH]; simpl; [reflexivity|].
  rewrite (String.eqb_sym k k0).
  destruct (String.eqb k0 k); simpl; [reflexivity|].
  rewrite IH. destruct (existsb (String.eqb k) (map fst cols)); reflexivity.
Qed.

Lemma fold_add_name (ks ns : list string) :
  NoDup ks ->
  fold_left add_name ks ns
  = ns ++ filter (fun k => negb (existsb (String.eqb k) ns)) ks.
Proof.
  revert ns. induction ks as [|k ks IH]; intros ns Hnd; simpl.
  - now rewrite app_nil_r.
  - inversion Hnd as [|? ? Hk Hnd']; subst. rewrite (IH _ Hnd').
    unfold add_name. destruct (existsb (String.eqb k) ns) eqn:E; simpl; [reflexivity|].
    rewrite <- app_assoc. simpl. f_equal. f_equal.
    apply filter_ext_in. intros k' Hk'. rewrite existsb_app. simpl.
    rewrite orb_false_r.
    assert (String.eqb k' k = false) as ->.
    { apply String.eqb_neq. intros ->. contradiction. }
    now rewrite orb_false_r.
Qed.

Lemma NoDup_derived_fields : NoDup derived_fields.
Proof.
  unfold derived_fields.
  repeat (constructor; [simpl; intuition discriminate|]). constructor.
Qed.

Lemma list_eq_nth_error {T} (l l' : list T) n :
  List.length l = n -> List.length l' = n ->
  (forall i, i < n -> nth_error l i = nth_error l' i) -> l = l'.
Proof.
  intros Hl Hl' H. apply nth_error_ext. intros i.
  destruct (Nat.lt_ge_cases i n) as [Hi|Hi]; [now apply H|].
  rewrite (proj2 (nth_error_None l i)) by lia.
  now rewrite (proj2 (nth_error_None l' i)) by lia.
Qed.

Lemma set_col_same k c (cols : list (string * column (F:=F))) :
  lookup k cols = Some c -> set_col k c cols = cols.
Proof.
  induction cols as [|[k0 c0] cols IH]; simpl; [discriminate|].
  destruct (String.eqb k0 k) eqn:E.
  - now intros [= ->].
  - intros H. now rewrite IH.
Qed.

(** Valid inputs, with the six columns named. *)
Lemma valid_input_columns (o : InventoryOptimizer (F:=F)) df :
  valid_input o df ->
  exists dm ds ltm lts uc oc,
    lookup "demand_mean" (columns df) = Some (Float64Col dm) /\
    lookup "demand_std" (columns df) = Some (Float64Col ds) /\
    lookup "lead_time_mean" (columns df) = Some (Float64Col ltm) /\
    lookup "lead_time_std" (columns df) = Some (Float64Col lts) /\
    lookup "unit_cost" (columns df) = Some (Float64Col uc) /\
    lookup "ordering_cost" (columns df) = Some (Float64Col oc) /\
    (forall u, In u uc -> is_zero (fmul (val (holding_cost_rate o)) u) = false).
Proof.
  intros (Hwf & Hcols & Hnz).
  destruct (Hcols "demand_mean") as [dm Hdm]; [simpl; tauto|].
  destruct (Hcols "demand_std") as [ds Hds]; [simpl; tauto|].
  destruct (Hcols "lead_time_mean") as [ltm Hltm]; [simpl; tauto|].
  destruct (Hcols "lead_time_std") as [lts Hlts]; [simpl; tauto|].
  destruct (Hcols "unit_cost") as [uc Huc]; [simpl; tauto|].
  destruct (Hcols "ordering_cost") as [oc Hoc]; [simpl; tauto|].
  exists dm, ds, ltm, lts, uc, oc. repeat split; try assumption.
  intros u Hu. destruct (In_nth_error_numeric _ _ _ _ Huc Hu) as [i Hi]. eauto.
Qed.

(** The two columns that [apply] returns are determined by the inputs. *)
Lemma eoq_column_determined h (dm oc uc EOQ EOQ' : list F) n :
  List.length dm = n -> List.length oc = n -> List.length uc = n ->
  List.length EOQ = n -> List.length EOQ' = n ->
  (forall i a c u, nth_error dm i = Some a -> nth_error oc i = Some c ->
     nth_error uc i = Some u -> nth_error EOQ i = Some (eoq_formula h a c u)) ->
  (forall i a c u, nth_error dm i = Some a -> nth_error oc i = Some c ->
     nth_error uc i = Some u -> nth_error EOQ' i = Some (eoq_formula h a c u)) ->
  EOQ = EOQ'.
Proof.
  intros Ldm Loc Luc L1 L2 H1 H2. apply (list_eq_nth_error _ _ n L1 L2).
  intros i Hi.
  destruct (nth_error_Some_lt dm i ltac:(lia)) as [a Ha].
  destruct (nth_error_Some_lt oc i ltac:(lia)) as [c Hc].
  destruct (nth_error_Some_lt uc i ltac:(lia)) as [u Hu].
  now rewrite (H1 i a c u Ha Hc Hu), (H2 i a c u Ha Hc Hu).
Qed.

Lemma rop_column_determined sl (LTD STD ROP ROP' : list F) n :
  List.length LTD = n -> List.length STD = n ->
  List.length ROP = n -> List.length ROP' = n ->
  (forall i l sd, nth_error LTD i = Some l -> nth_error STD i = Some sd ->
     nth_error ROP i = Some (rop_formula norm_ppf sl l sd)) ->
  (forall i l sd, nth_error LTD i = Some l -> nth_error STD i = Some sd ->
     nth_error ROP' i = Some (rop_formula norm_ppf sl l sd)) ->
  ROP = ROP'.
Proof.
  intros La Lb L1 L2 H1 H2. apply (list_eq_nth_error _ _ n L1 L2).
  intros i Hi.
  destruct (nth_error_Some_lt LTD i ltac:(lia)) as [a Ha].
  destruct (nth_error_Some_lt STD i ltac:(lia)) as [c Hc].
  now rewrite (H1 i a c Ha Hc), (H2 i a c Ha Hc).
Qed.

Lemma length_col_ltd (dm ltm : list F) n :
  List.length dm = n -> List.length ltm = n -> List.length (col_ltd dm ltm) = n.
Proof. intros. unfold col_ltd. now apply length_zip_with. Qed.

Lemma length_col_std (dm ds ltm lts : list F) n :
  List.length dm = n -> List.length ds = n -> List.length ltm = n ->
  List.length lts = n -> List.length (col_std dm ds ltm lts) = n.
Proof.
  intros. unfold col_std. rewrite length_map.
  apply length_zip_with; apply length_zip_with; now rewrite length_map.
Qed.

(** X5.  The columns of the result of a valid input are the columns of the
    input in their order, followed by those of the nine derived columns
    whose names the input does not have, in the order of the assignments.
    A column of the input that bears the name of a derived column keeps
    its place (and is overwritten). *)
Theorem result_column_names (s : store (F:=F)) self data o df :
  nth_error s self = Some (OOptimizer o) ->
  nth_error s data = Some (OFrame df) ->
  valid_input o df ->
  exists df',
    optimize_inventory_levels norm_ppf self data s
    = (Ok (List.length s), s ++ [OFrame df']) /\
    map fst (columns df')
    = map fst (columns df)
      ++ filter (fun k => negb (existsb (String.eqb k) (map fst (columns df))))
                derived_fields.
Proof.
  intros Hs Hd Hv.
  destruct (valid_input_columns o df Hv)
    as (dm & ds & ltm & lts & uc & oc & Hdm & Hds & Hltm & Hlts & Huc & Hoc & Hnz).
  destruct (optimize_inventory_levels_columns norm_ppf s self data o df
              dm ds ltm lts uc oc Hs Hd (proj1 Hv) Hdm Hds Hltm Hlts Huc Hoc Hnz)
    as (EOQ & ROP & _ & _ & _ & _ & Hrun).
  eexists. split; [exact Hrun|].
  unfold result_frame. rewrite !columns_setitem, !names_set_col.
  rewrite <- (fold_add_name derived_fields _ NoDup_derived_fields). reflexivity.
Qed.

(** X6.  The result of a valid input is itself a valid input, and
    optimizing it again returns a table equal to it: the derived columns
    are recomputed from the six input columns alone. *)
Theorem optimize_twice (s : store (F:=F)) self data o df :
  nth_error s self = Some (OOptimizer o) ->
  nth_error s data = Some (OFrame df) ->
  valid_input o df ->
  exists df',
    optimize_inventory_levels norm_ppf self data s
    = (Ok (List.length s), s ++ [OFrame df']) /\
    optimize_inventory_levels norm_ppf self (List.length s) (s ++ [OFrame df'])
    = (Ok (Datatypes.S (List.length s)), (s ++ [OFrame df']) ++ [OFrame df']).
Proof.
  intros Hs Hd Hv.
  destruct (valid_input_columns o df Hv)
    as (dm & ds & ltm & lts & uc & oc & Hdm & Hds & Hltm & Hlts & Huc & Hoc & Hnz).
  pose proof (proj1 Hv) as Hwf.
  pose proof (lookup_wf _ _ _ Hwf Hdm) as Ldm.
  pose proof (lookup_wf _ _ _ Hwf Hds) as Lds.
  pose proof (lookup_wf _ _ _ Hwf Hltm) as Lltm.
  pose proof (lookup_wf _ _ _ Hwf Hlts) as Llts.
  pose proof (lookup_wf _ _ _ Hwf Huc) as Luc.
  pose proof (lookup_wf _ _ _ Hwf Hoc) as Loc.
  simpl in Ldm, Lds, Lltm, Llts, Luc, Loc.
  destruct (optimize_inventory_levels_columns norm_ppf s self data o df
              dm ds ltm lts uc oc Hs Hd Hwf Hdm Hds Hltm Hlts Huc Hoc Hnz)
    as (EOQ & ROP & LEOQ & LROP & HEOQ & HROP & Hrun).
  exists (result_frame o df dm ds ltm lts uc oc EOQ ROP). split; [exact Hrun|].
  set (df' := result_frame o df dm ds ltm lts uc oc EOQ ROP).
  assert (Hwf' : wf_frame df').
  { unfold df', result_frame.
    repeat (apply wf_setitem; [ | rewrite ?index_setitem; simpl;
      rewrite ?length_map; repeat (apply length_zip_with; rewrite ?length_map);
      first [assumption | now apply length_col_ltd | now apply length_col_std] ]).
    assumption. }
  assert (Hin : forall key c, lookup key (columns df) = Some c ->
            ~ In key derived_fields -> lookup key (columns df') = Some c).
  { intros key c Hc Hk. unfold df', result_frame.
    rewrite !columns_setitem, !lookup_set_col.
    assert (Hne : forall k, In k derived_fields -> String.eqb k key = false).
    { intros k Hk'. apply String.eqb_neq. intros ->. contradiction. }
    rewrite !Hne by (simpl; tauto). exact Hc. }
  assert (Hnd : forall key, In key input_fields -> ~ In key derived_fields).
  { intros key Hk Hk'. simpl in Hk, Hk'.
    repeat (destruct Hk as [<-|Hk];
            [repeat (destruct Hk' as [Hk'|Hk']; [discriminate|]); contradiction|]).
    contradiction. }
  destruct (optimize_inventory_levels_columns norm_ppf (s ++ [OFrame df']) self
              (List.length s) o df' dm ds ltm lts uc oc)
    as (EOQ' & ROP' & LEOQ' & LROP' & HEOQ' & HROP' & Hrun').
  { now apply nth_error_old. }
  { apply nth_error_last. }
  { exact Hwf'. }
  1-6: (apply Hin; [assumption | apply Hnd; simpl; tauto]).
  { exact Hnz. }
  change (index df') with (index df) in LEOQ', LROP'.
  assert (EOQ' = EOQ) as ->.
  { apply (eoq_column_determined (val (holding_cost_rate o)) dm oc uc EOQ' EOQ
             (List.length (index df))); assumption. }
  assert (ROP' = ROP) as ->.
  { apply (rop_column_determined (val (service_level o)) (col_ltd dm ltm)
             (col_std dm ds ltm lts) ROP' ROP (List.length (index df)));
      first [assumption | now apply length_col_ltd | now apply length_col_std]. }
  assert (Hfix : result_frame o df' dm ds ltm lts uc oc EOQ ROP = df').
  { unfold result_frame at 1. unfold setitem at 1 2 3 4 5 6 7 8 9.
    cbn [index columns].
    transitivity (mkDataFrame (index df) (columns df')); [|reflexivity].
    change (index df') with (index df). f_equal.
    repeat (rewrite (set_col_same _ _ (columns df'));
            [ | unfold df', result_frame; rewrite !columns_setitem, !lookup_set_col;
                reflexivity ]).
    reflexivity. }
  rewrite Hrun', Hfix, length_app. simpl. now rewrite Nat.add_1_r.
Qed.


End Shape.

(** ** What the policy contributes *)

Section Unused.
Context {F : Type} {FO : Float64 F}.
Variable norm_ppf : F -> F.

(** X7.  [stockout_cost_rate] is stored and never read: two optimizers with
    the same [holding_cost_rate] and [service_level] return equal tables
    for the same valid input, whatever their [stockout_cost_rate]s and
    whatever else the store holds. *)
Theorem stockout_cost_rate_unused
    (s s' : store (F:=F)) self self' data data' o o' df :
  nth_error s self = Some (OOptimizer o) ->
  nth_error s data = Some (OFrame df) ->
  nth_error s' self' = Some (OOptimizer o') ->
  nth_error s' data' = Some (OFrame df) ->
  holding_cost_rate o = holding_cost_rate o' ->
  service_level o = service_level o' ->
  valid_input o df ->
  exists df',
    optimize_inventory_levels norm_ppf self data s
    = (Ok (List.length s), s ++ [OFrame df']) /\
    optimize_inventory_levels norm_ppf self' data' s'
    = (Ok (List.length s'), s' ++ [OFrame df']).
Proof.
  intros Hs Hd Hs' Hd' Hh Hsl Hv.
  destruct (valid_input_columns o df Hv)
    as (dm & ds & ltm & lts & uc & oc & Hdm & Hds & Hltm & Hlts & Huc & Hoc & Hnz).
  pose proof (proj1 Hv) as Hwf.
  pose proof (lookup_wf _ _ _ Hwf Hdm) as Ldm.
  pose proof (lookup_wf _ _ _ Hwf Hds) as Lds.
  pose proof (lookup_wf _ _ _ Hwf Hltm) as Lltm.
  pose proof (lookup_wf _ _ _ Hwf Hlts) as Llts.
  pose proof (lookup_wf _ _ _ Hwf Huc) as Luc.
  pose proof (lookup_wf _ _ _ Hwf Hoc) as Loc.
  simpl in Ldm, Lds, Lltm, Llts, Luc, Loc.
  destruct (optimize_inventory_levels_columns norm_ppf s self data o df
              dm ds ltm lts uc oc Hs Hd Hwf Hdm Hds Hltm Hlts Huc Hoc Hnz)
    as (EOQ & ROP & LEOQ & LROP & HEOQ & HROP & Hrun).
  assert (Hnz' : forall u, In u uc ->
            is_zero (fmul (val (holding_cost_rate o')) u) = false).
  { rewrite <- Hh. exact Hnz. }
  destruct (optimize_inventory_levels_columns norm_ppf s' self' data' o' df
              dm ds ltm lts uc oc Hs' Hd' Hwf Hdm Hds Hltm Hlts Huc Hoc Hnz')
    as (EOQ' & ROP' & LEOQ' & LROP' & HEOQ' & HROP' & Hrun').
  rewrite <- Hh in HEOQ'. rewrite <- Hsl in HROP'.
  assert (EOQ' = EOQ) as ->.
  { apply (eoq_column_determined (val (holding_cost_rate o)) dm oc uc EOQ' EOQ
             (List.length (index df))); assumption. }
  assert (ROP' = ROP) as ->.
  { apply (rop_column_determined norm_ppf (val (service_level o)) (col_ltd dm ltm)
             (col_std dm ds ltm lts) ROP' ROP (List.length (index df)));
      first [assumption | now apply length_col_ltd | now apply length_col_std]. }
  exists (result_frame o df dm ds ltm lts uc oc EOQ ROP). split; [exact Hrun|].
  rewrite Hrun'. unfold result_frame. rewrite Hh. reflexivity.
Qed.

End Unused.

(** ** Binary64: the square root of a quotient with a zero divisor *)

Lemma sqrt_div_zero_not_finite (n p : float) :
  PrimFloat.eqb p 0 = true ->
  PrimFloat.is_finite (PrimFloat.sqrt (n / p)) = false.
Proof.
  intros Hp.
  unfold PrimFloat.is_finite, PrimFloat.is_nan, PrimFloat.is_infinity.
  rewrite FloatAxioms.eqb_spec in Hp. rewrite !FloatAxioms.eqb_spec, abs_spec.
  rewrite sqrt_spec, div_spec.
  change (Prim2SF infinity) with (S754_infinity false).
  change (Prim2SF 0) with (S754_zero false) in Hp.
  destruct (Prim2SF p) as [sp|sp| |sp mp ep];
    [ | destruct sp; cbv in Hp; discriminate | cbv in Hp; discriminate
      | destruct sp; cbv in Hp; discriminate ].
  destruct (Prim2SF n) as [sn|sn| |sn mn en]; try destruct sn; destruct sp; reflexivity.
Qed.

Lemma sqrt_div_pos_zero (n : float) :
  PrimFloat.ltb 0 n = true -> PrimFloat.sqrt (n / 0) = infinity.
Proof.
  intros Hn. apply Prim2SF_inj. rewrite FloatAxioms.ltb_spec in Hn.
  rewrite sqrt_spec, div_spec.
  change (Prim2SF 0) with (S754_zero false) in *.
  change (Prim2SF infinity) with (S754_infinity false).
  destruct (Prim2SF n) as [sn|sn| |sn mn en]; try (cbv in Hn; discriminate);
    destruct sn; try (cbv in Hn; discriminate); reflexivity.
Qed.

(** ** [save_model] and [load_model] *)

Section Persistence.
Context {F : Type} {FO : Float64 F}.

Lemma save_model_run (s : store (F:=F)) self o :
  nth_error s self = Some (OOptimizer o) ->
  save_model self s
  = (Ok [("holding_cost_rate", holding_cost_rate o);
         ("stockout_cost_rate", stockout_cost_rate o);
         ("service_level", service_level o)], s).
Proof.
  intros H. unfold save_model, bind, get_optimizer, ret. now rewrite H.
Qed.

Lemma load_model_run (s : store (F:=F)) params h so sl :
  dict_get "holding_cost_rate" params = Ok h ->
  dict_get "stockout_cost_rate" params = Ok so ->
  dict_get "service_level" params = Ok sl ->
  load_model params s
  = (Ok (List.length s), s ++ [OOptimizer (mkInventoryOptimizer h so sl)]).
Proof.
  intros Hh Hso Hsl. unfold load_model, bind, lift. now rewrite Hh, Hso, Hsl.
Qed.

Lemma dict_get_raises {T} key (d : list (string * T)) e :
  dict_get key d = Raise e -> e = KeyError key.
Proof.
  induction d as [|[k v] d IH]; simpl.
  - now intros [= <-].
  - destruct (String.eqb k key); [discriminate|exact IH].
Qed.

(** X8.  What [save_model] writes, [load_model] reads back as an optimizer
    with the same three parameters, each of the kind it had (Python
    [float] or [numpy.float64]); it is a new object, and the saved one
    stays as it is. *)
Theorem save_then_load (s : store (F:=F)) self o :
  nth_error s self = Some (OOptimizer o) ->
  bind (save_model self) load_model s
  = (Ok (List.length s), s ++ [OOptimizer o]) /\
  nth_error (s ++ [OOptimizer o]) self = Some (OOptimizer o).
Proof.
  intros H. split; [|now apply nth_error_old].
  unfold bind. rewrite (save_model_run s self o H).
  erewrite load_model_run by reflexivity. now destruct o.
Qed.

(** X9.  [load_model] reads the keys [holding_cost_rate],
    [stockout_cost_rate], [service_level] in this order; with the first
    of them that the loaded [dict] lacks it raises [KeyError], and no
    optimizer is built.  Further keys of the [dict] are ignored. *)
Theorem load_model_missing_key (s : store (F:=F)) params pre key post :
  param_keys = pre ++ key :: post ->
  (forall k, In k pre -> exists v, dict_get k params = Ok v) ->
  dict_get key params = Raise (KeyError key) ->
  load_model params s = (Raise (KeyError key), s).
Proof.
  intros Hk Hpre Hmiss. unfold load_model, bind, lift.
  destruct pre as [|k1 [|k2 [|k3 [|k4 pre]]]]; unfold param_keys in Hk;
    simpl in Hk; try discriminate.
  - injection Hk as <- _. now rewrite Hmiss.
  - injection Hk as <- <- _.
    destruct (Hpre "holding_cost_rate") as [v ->]; [simpl; tauto|].
    now rewrite Hmiss.
  - injection Hk as <- <- <- _.
    destruct (Hpre "holding_cost_rate") as [v ->]; [simpl; tauto|].
    destruct (Hpre "stockout_cost_rate") as [v' ->]; [simpl; tauto|].
    now rewrite Hmiss.
Qed.

End Persistence.

(** ** [optimize_inventory] *)

Section App.
Context {F : Type} {FO : Float64 F} {FL : Literals F}.
Variable norm_ppf : F -> F.

Lemma init_run (s : store (F:=F)) h so sl :
  InventoryOptimizer_init h so sl s
  = (Ok (List.length s), s ++ [OOptimizer (mkInventoryOptimizer h so sl)]).
Proof. reflexivity. Qed.

Lemma valid_prepared (df : DataFrame (F:=F)) sv lt lts uc oc :
  wf_frame df ->
  lookup "sales_velocity" (columns df) = Some (Float64Col sv) ->
  lookup "lead_time" (columns df) = Some (Float64Col lt) ->
  lookup "lead_time_std" (columns df) = Some (Float64Col lts) ->
  lookup "unit_cost" (columns df) = Some (Float64Col uc) ->
  lookup "ordering_cost" (columns df) = Some (Float64Col oc) ->
  (forall u, In u uc -> is_zero (fmul f0_25 u) = false) ->
  valid_input default_optimizer (prepared df sv (Float64Col lt)).
Proof.
  intros Hwf Hsv Hlt Hlts Huc Hoc Hnz.
  pose proof (lookup_wf _ _ _ Hwf Hsv) as Lsv.
  pose proof (lookup_wf _ _ _ Hwf Hlt) as Llt.
  simpl in Lsv, Llt.
  split; [|split].
  - unfold prepared.
    repeat (apply wf_setitem; [ | rewrite ?index_setitem; simpl;
                                   rewrite ?length_map; assumption ]).
    exact Hwf.
  - intros key Hkey. unfold prepared.
    rewrite !columns_setitem, !lookup_set_col. simpl in Hkey.
    repeat (destruct Hkey as [<- | Hkey]; [eval_eqb; eauto|]). contradiction.
  - intros i u Hu. unfold prepared in Hu. revert Hu. num_tac.
    rewrite (numeric_at_lookup _ _ _ _ Huc). intros Hu.
    apply Hnz. eapply nth_error_In; exact Hu.
Qed.

Lemma item_at_prepared (df : DataFrame (F:=F)) sv lt lts uc oc i v l ls u c :
  lookup "lead_time_std" (columns df) = Some (Float64Col lts) ->
  lookup "unit_cost" (columns df) = Some (Float64Col uc) ->
  lookup "ordering_cost" (columns df) = Some (Float64Col oc) ->
  nth_error sv i = Some v -> nth_error lt i = Some l ->
  nth_error lts i = Some ls -> nth_error uc i = Some u ->
  nth_error oc i = Some c ->
  item_at (prepared df sv (Float64Col lt)) i = Some (prepared_item v l ls u c).
Proof.
  intros Hlts Huc Hoc Hv Hl Hls Hu Hc. unfold item_at, prepared. num_tac.
  rewrite (numeric_at_lookup _ _ _ _ Hlts), (numeric_at_lookup _ _ _ _ Huc),
    (numeric_at_lookup _ _ _ _ Hoc).
  rewrite !nth_error_map, Hv, Hl, Hls, Hu, Hc. reflexivity.
Qed.

(** X10.  [optimize_inventory] of [src/app.py].  On a table with numeric
    columns [sales_velocity], [lead_time], [lead_time_std], [unit_cost]
    and [ordering_cost] and no row with [0.25 * unit_cost = 0], it
    allocates a working copy, a default optimizer and the result, and
    leaves the caller's table as it is; row [i] of the result holds the
    derived fields of the item with [demand_mean = sales_velocity * 365],
    [demand_std = demand_mean * 0.2] and [lead_time_mean = lead_time],
    under the default policy (0.25, 0.5, 0.95). *)
Theorem optimize_inventory_composes (s : store (F:=F)) data df sv lt lts uc oc :
  nth_error s data = Some (OFrame df) ->
  wf_frame df ->
  lookup "sales_velocity" (columns df) = Some (Float64Col sv) ->
  lookup "lead_time" (columns df) = Some (Float64Col lt) ->
  lookup "lead_time_std" (columns df) = Some (Float64Col lts) ->
  lookup "unit_cost" (columns df) = Some (Float64Col uc) ->
  lookup "ordering_cost" (columns df) = Some (Float64Col oc) ->
  (forall u, In u uc -> is_zero (fmul f0_25 u) = false) ->
  exists df',
    optimize_inventory norm_ppf data s
    = (Ok (2 + List.length s),
       s ++ [OFrame (prepared df sv (Float64Col lt));
             OOptimizer default_optimizer; OFrame df']) /\
    index df' = index df /\
    (forall key, ~ In key derived_fields ->
       lookup key (columns df')
       = lookup key (columns (prepared df sv (Float64Col lt)))) /\
    (forall i v l ls u c,
       nth_error sv i = Some v -> nth_error lt i = Some l ->
       nth_error lts i = Some ls -> nth_error uc i = Some u ->
       nth_error oc i = Some c ->
       derived_at df' i
       = Some (item_fields norm_ppf default_optimizer (prepared_item v l ls u c))).
Proof.
  intros Hdata Hwf Hsv Hlt Hlts Huc Hoc Hnz.
  pose proof (valid_prepared df sv lt lts uc oc Hwf Hsv Hlt Hlts Huc Hoc Hnz) as Hv.
  set (od := prepared df sv (Float64Col lt)) in *.
  destruct (optimize_inventory_levels_run norm_ppf
              ((s ++ [OFrame od]) ++ [OOptimizer default_optimizer])
              (List.length (s ++ [OFrame od])) (List.length s) default_optimizer od)
    as (df' & Hrun & Hidx & _ & Hkeep & _ & _ & Hrows).
  { apply nth_error_last. }
  { apply nth_error_old, nth_error_last. }
  { exact Hv. }
  exists df'. split; [|split; [|split]].
  - remember (optimize_inventory norm_ppf data s) as R eqn:HR.
    unfold optimize_inventory in HR.
    step HR ltac:(apply copy_run; eassumption).
    step HR get_tac.
    step HR ltac:(apply frame_setitem_last).
    step HR get_tac. step HR ltac:(reflexivity).
    step HR ltac:(apply frame_setitem_last).
    step HR get_tac.
    step HR ltac:(apply frame_setitem_last).
    step HR ltac:(apply init_run).
    step HR ltac:(exact Hrun).
    unfold ret in HR. rewrite HR. rewrite !length_app. simpl.
    rewrite <- !app_assoc. simpl.
    replace (List.length s + 1 + 1) with (Datatypes.S (Datatypes.S (List.length s))) by lia.
    reflexivity.
  - rewrite Hidx. reflexivity.
  - exact Hkeep.
  - intros i v l ls u c Hv' Hl Hls Hu Hc.
    assert (Hi : i < List.length (index od)).
    { pose proof (lookup_wf _ _ _ Hwf Hsv) as Lsv. simpl in Lsv.
      change (index od) with (index df). rewrite <- Lsv.
      apply nth_error_Some. congruence. }
    destruct (Hrows i Hi) as (it & Hit & Hder).
    unfold od in Hit.
    rewrite (item_at_prepared df sv lt lts uc oc i v l ls u c
               Hlts Huc Hoc Hv' Hl Hls Hu Hc) in Hit.
    injection Hit as <-. exact Hder.
Qed.

(** X11.  [optimize_inventory] fails before it builds an optimizer when
    the table has no column [sales_velocity] ([KeyError]), when that
    column holds strings and the table has rows ([* 365] repeats each
    string, and [* 0.2] on the repeated strings raises [TypeError]), and
    when it has no column [lead_time] ([KeyError]).  The working copy stays behind in the
    store; the caller's table is as before. *)
Theorem optimize_inventory_raises (s : store (F:=F)) data df :
  nth_error s data = Some (OFrame df) ->
  (lookup "sales_velocity" (columns df) = None ->
   optimize_inventory norm_ppf data s
   = (Raise (KeyError "sales_velocity"), s ++ [OFrame df])) /\
  (forall l, lookup "sales_velocity" (columns df) = Some (ObjectCol l) ->
   l <> [] ->
   optimize_inventory norm_ppf data s
   = (Raise TypeError,
      s ++ [OFrame (setitem df "demand_mean" (ObjectCol (map (str_repeat 365) l)))])) /\
  (forall sv, lookup "sales_velocity" (columns df) = Some (Float64Col sv) ->
   lookup "lead_time" (columns df) = None ->
   fst (optimize_inventory norm_ppf data s) = Raise (KeyError "lead_time") /\
   firstn (List.length s) (snd (optimize_inventory norm_ppf data s)) = s).
Proof.
  intros Hdata. split; [|split].
  - intros Hsv.
    remember (optimize_inventory norm_ppf data s) as R eqn:HR.
    unfold optimize_inventory in HR.
    step HR ltac:(apply copy_run; eassumption).
    raise_step HR get_missing_tac. exact HR.
  - intros l Hsv Hl.
    remember (optimize_inventory norm_ppf data s) as R eqn:HR.
    unfold optimize_inventory in HR.
    step HR ltac:(apply copy_run; eassumption).
    step HR get_tac.
    step HR ltac:(apply frame_setitem_last).
    step HR get_tac.
    raise_step HR ltac:(reflexivity). exact HR.
  - intros sv Hsv Hlt.
    remember (optimize_inventory norm_ppf data s) as R eqn:HR.
    unfold optimize_inventory in HR.
    step HR ltac:(apply copy_run; eassumption).
    step HR get_tac.
    step HR ltac:(apply frame_setitem_last).
    step HR get_tac. step HR ltac:(reflexivity).
    step HR ltac:(apply frame_setitem_last).
    raise_step HR get_missing_tac. rewrite HR. simpl. split; [reflexivity|].
    rewrite firstn_app, Nat.sub_diag, firstn_all. simpl. now rewrite app_nil_r.
Qed.

End App.

(** ** [optimize_multi_echelon] *)

(** *** Group keys *)

Lemma compare_refl (s : string) : String.compare s s = Eq.
Proof.
  pose proof (String.compare_antisym s s) as H.
  destruct (String.compare s s); simpl in H; try discriminate; reflexivity.
Qed.

Lemma In_insert_key k x ks : In x (insert_key k ks) <-> x = k \/ In x ks.
Proof.
  induction ks as [|k' ks IH]; simpl.
  - intuition.
  - destruct (String.compare k k') eqn:E; simpl.
    + apply String.compare_eq_iff in E. subst. intuition.
    + intuition.
    + rewrite IH. intuition.
Qed.

Lemma In_group_keys x l : In x (group_keys l) <-> In x l.
Proof.
  induction l as [|a l IH]; simpl; [reflexivity|].
  unfold group_keys. simpl. fold (group_keys l).
  rewrite In_insert_key, IH. intuition.
Qed.

Lemma HdRel_insert_key k a ks :
  key_lt a k -> HdRel key_lt a ks -> HdRel key_lt a (insert_key k ks).
Proof.
  intros Hk Hd. destruct ks as [|k' ks]; simpl; [now constructor|].
  destruct (String.compare k k'); [assumption | now constructor |].
  constructor. now inversion Hd.
Qed.

Lemma Sorted_insert_key k ks : Sorted key_lt ks -> Sorted key_lt (insert_key k ks).
Proof.
  induction 1 as [|a l Hs IH Hd]; simpl.
  - repeat constructor.
  - destruct (String.compare k a) eqn:E.
    + now constructor.
    + constructor; [now constructor | constructor; exact E].
    + constructor; [exact IH|]. apply HdRel_insert_key; [|exact Hd].
      unfold key_lt. rewrite String.compare_antisym, E. reflexivity.
Qed.

Lemma Sorted_group_keys l : Sorted key_lt (group_keys l).
Proof.
  induction l as [|a l IH]; [constructor|].
  unfold group_keys. simpl. now apply Sorted_insert_key.
Qed.

(** *** The rows of a group *)

Lemma length_select {T U} mask (l : list T) (l' : list U) :
  List.length l = List.length l' ->
  List.length (select mask l) = List.length (select mask l').
Proof.
  revert l l'. induction mask as [|b mask IH]; intros [|x l] [|y l'] H;
    simpl in *; try discriminate; auto.
  destruct b; simpl; auto.
Qed.

Lemma rank_cons b mask i :
  rank (b :: mask) (Datatypes.S i) = (if b then Datatypes.S (rank mask i) else rank mask i).
Proof. unfold rank. simpl. now destruct b. Qed.

Lemma nth_error_select {T} mask (l : list T) i x :
  nth_error mask i = Some true -> nth_error l i = Some x ->
  nth_error (select mask l) (rank mask i) = Some x.
Proof.
  revert l i. induction mask as [|b mask IH]; intros l i Hm Hl.
  - destruct i; discriminate.
  - destruct l as [|y l]; [destruct i; discriminate|].
    destruct i as [|i].
    + simpl in Hm. injection Hm as ->. exact Hl.
    + rewrite rank_cons. simpl in Hm, Hl. destruct b; simpl; now apply IH.
Qed.

Lemma In_select {T} mask (l : list T) x : In x (select mask l) -> In x l.
Proof.
  revert l. induction mask as [|b mask IH]; intros [|y l]; simpl; try tauto.
  destruct b; simpl; intros H; [destruct H|]; auto.
Qed.

Section Echelons.
Context {F : Type} {FO : Float64 F}.
Variable norm_ppf : F -> F.
Variable float_groups : list F -> list (F * list bool).

Lemma lookup_take_rows key mask (cols : list (string * column (F:=F))) :
  lookup key (map (fun kc => (fst kc, select_col mask (snd kc))) cols)
  = option_map (select_col mask) (lookup key cols).
Proof.
  induction cols as [|[k c] cols IH]; simpl; [reflexivity|].
  destruct (String.eqb k key); [reflexivity|exact IH].
Qed.

Lemma numeric_at_take_rows (df : DataFrame (F:=F)) mask key i x :
  nth_error mask i = Some true -> numeric_at df key i = Some x ->
  numeric_at (take_rows df mask) key (rank mask i) = Some x.
Proof.
  intros Hm. unfold numeric_at, take_rows. simpl. rewrite lookup_take_rows.
  destruct (lookup key (columns df)) as [[l|l]|]; simpl; try discriminate.
  now apply nth_error_select.
Qed.

Lemma item_at_take_rows (df : DataFrame (F:=F)) mask i it :
  nth_error mask i = Some true -> item_at df i = Some it ->
  item_at (take_rows df mask) (rank mask i) = Some it.
Proof.
  intros Hm. unfold item_at.
  destruct (numeric_at df "demand_mean" i) as [a|] eqn:Ha; [|discriminate].
  destruct (numeric_at df "demand_std" i) as [b|] eqn:Hb; [|discriminate].
  destruct (numeric_at df "lead_time_mean" i) as [c|] eqn:Hc; [|discriminate].
  destruct (numeric_at df "lead_time_std" i) as [d|] eqn:Hd; [|discriminate].
  destruct (numeric_at df "unit_cost" i) as [e|] eqn:He; [|discriminate].
  destruct (numeric_at df "ordering_cost" i) as [f|] eqn:Hf; [|discriminate].
  intros [= <-].
  now rewrite (numeric_at_take_rows _ _ _ _ _ Hm Ha), (numeric_at_take_rows _ _ _ _ _ Hm Hb),
    (numeric_at_take_rows _ _ _ _ _ Hm Hc), (numeric_at_take_rows _ _ _ _ _ Hm Hd),
    (numeric_at_take_rows _ _ _ _ _ Hm He), (numeric_at_take_rows _ _ _ _ _ Hm Hf).
Qed.

Lemma wf_take_rows (df : DataFrame (F:=F)) mask :
  wf_frame df -> wf_frame (take_rows df mask).
Proof.
  unfold wf_frame, take_rows. simpl. intros H. apply Forall_map.
  eapply Forall_impl; [|exact H]. intros [k c] Hc. simpl in *.
  destruct c as [l|l]; simpl in *; now apply length_select.
Qed.

Lemma valid_take_rows (o : InventoryOptimizer (F:=F)) df mask :
  valid_input o df -> valid_input o (take_rows df mask).
Proof.
  intros Hv.
  destruct (valid_input_columns o df Hv)
    as (dm & ds & ltm & lts & uc & oc & Hdm & Hds & Hltm & Hlts & Huc & Hoc & Hnz).
  destruct Hv as (Hwf & Hcols & _). split; [|split].
  - now apply wf_take_rows.
  - intros key Hkey. destruct (Hcols key Hkey) as [l Hl].
    unfold take_rows. simpl. rewrite lookup_take_rows, Hl. simpl. eauto.
  - intros i u. unfold numeric_at, take_rows. simpl.
    rewrite lookup_take_rows, Huc. simpl. intros Hu.
    apply Hnz. eapply In_select. eapply nth_error_In. exact Hu.
Qed.

(** *** The loop over the groups *)

Lemma optimize_echelon_run (S : store (F:=F)) self o g :
  nth_error S self = Some (OOptimizer o) ->
  valid_input o (snd g) ->
  exists df',
    optimize_echelon norm_ppf self g S
    = (Ok (fst g, Datatypes.S (List.length S)), (S ++ [OFrame (snd g)]) ++ [OFrame df']) /\
    index df' = index (snd g) /\
    (forall key, ~ In key derived_fields ->
       lookup key (columns df') = lookup key (columns (snd g))) /\
    forall j it, item_at (snd g) j = Some it ->
      derived_at df' j = Some (item_fields norm_ppf o it).
Proof.
  intros Hself Hv.
  destruct (optimize_inventory_levels_run norm_ppf (S ++ [OFrame (snd g)]) self
              (List.length S) o (snd g))
    as (df' & Hrun & Hidx & _ & Hkeep & _ & _ & Hrows).
  { now apply nth_error_old. }
  { apply nth_error_last. }
  { exact Hv. }
  exists df'. split; [|split; [|split]].
  - unfold optimize_echelon, bind, alloc. rewrite Hrun. unfold ret.
    rewrite length_app. simpl. now rewrite Nat.add_1_r.
  - exact Hidx.
  - exact Hkeep.
  - intros j it Hit.
    destruct (Hrows j (item_at_lt _ _ _ (proj1 Hv) Hit)) as (it' & Hit' & Hder).
    congruence.
Qed.

Lemma mapM_optimize_echelon self o (groups : list (group_key (F:=F) * DataFrame (F:=F))) :
  forall S : store (F:=F),
  nth_error S self = Some (OOptimizer o) ->
  Forall (fun g => valid_input o (snd g)) groups ->
  exists results S',
    mapM (optimize_echelon norm_ppf self) groups S = (Ok results, S') /\
    (exists ext, S' = S ++ ext) /\
    Forall2 (fun g r =>
               fst r = fst g /\
               exists df', nth_error S' (snd r) = Some (OFrame df') /\
                 index df' = index (snd g) /\
                 (forall key, ~ In key derived_fields ->
                    lookup key (columns df') = lookup key (columns (snd g))) /\
                 forall j it, item_at (snd g) j = Some it ->
                   derived_at df' j = Some (item_fields norm_ppf o it))
            groups results.
Proof.
  induction groups as [|g groups IH]; intros S Hself Hall.
  - exists [], S. split; [reflexivity|]. split; [exists []; now rewrite app_nil_r|].
    constructor.
  - inversion Hall as [|? ? Hg Hrest]; subst.
    destruct (optimize_echelon_run S self o g Hself Hg)
      as (df' & Hrun & Hidx & Hkeep & Hrows).
    destruct (IH ((S ++ [OFrame (snd g)]) ++ [OFrame df'])) as (rs & S' & Hm & [ext Hext] & Hf).
    { now apply nth_error_old, nth_error_old. }
    { exact Hrest. }
    exists ((fst g, Datatypes.S (List.length S)) :: rs), S'. split; [|split].
    + simpl. unfold bind at 1. rewrite Hrun. unfold bind at 1. rewrite Hm. reflexivity.
    + exists ([OFrame (snd g)] ++ [OFrame df'] ++ ext). rewrite Hext.
      now rewrite <- !app_assoc.
    + constructor; [|exact Hf]. split; [reflexivity|]. exists df'.
      split; [|now repeat split].
      rewrite Hext. cbn [snd]. rewrite nth_error_app1.
      * replace (Datatypes.S (List.length S)) with (List.length (S ++ [OFrame (snd g)]))
          by (rewrite length_app; simpl; lia).
        apply nth_error_last.
      * rewrite !length_app. simpl. lia.
Qed.

Lemma Forall2_In {A B} (P : A -> B -> Prop) l l' a :
  Forall2 P l l' -> In a l -> exists b, In b l' /\ P a b.
Proof.
  induction 1 as [|x y l l' Hxy H IH]; simpl; [tauto|].
  intros [<-|Hin]; [eauto|]. destruct (IH Hin) as (b & Hb & Hp). eauto.
Qed.

Lemma Forall2_fst {A B K} (P : K * A -> K * B -> Prop) l l' :
  (forall g r, P g r -> fst r = fst g) ->
  Forall2 P l l' -> map fst l' = map fst l.
Proof.
  intros HP. induction 1 as [|x y l l' Hxy H IH]; simpl; [reflexivity|].
  now rewrite (HP _ _ Hxy), IH.
Qed.

(** X12.  [optimize_multi_echelon] on a valid table with a string column
    [echelon]: the result has one entry for each distinct label, in
    ascending order of the labels; the entry of label [e] is a new table
    with the row labels and the columns of the rows of [e], in their
    order, and the row of input row [i] holds the derived fields of that
    row's six inputs, as [optimize_inventory_levels] on the whole table
    gives them.  The
    objects of the store are as before; [network_structure] is not read. *)
Theorem optimize_multi_echelon_per_group {NS} (s : store (F:=F)) self data
    (network_structure : NS) o df labels :
  nth_error s self = Some (OOptimizer o) ->
  nth_error s data = Some (OFrame df) ->
  valid_input o df ->
  lookup "echelon" (columns df) = Some (ObjectCol labels) ->
  exists results s',
    optimize_multi_echelon norm_ppf float_groups self data network_structure s
    = (Ok results, s') /\
    firstn (List.length s) s' = s /\
    map fst results = map KStr (group_keys labels) /\
    Sorted key_lt (group_keys labels) /\
    (forall e, In e (group_keys labels) <-> In e labels) /\
    (forall i e it,
       nth_error labels i = Some e -> item_at df i = Some it ->
       exists l df_e,
         In (KStr e, l) results /\
         nth_error s' l = Some (OFrame df_e) /\
         index df_e = select (map (String.eqb e) labels) (index df) /\
         (forall key, ~ In key derived_fields ->
            lookup key (columns df_e)
            = option_map (select_col (map (String.eqb e) labels))
                         (lookup key (columns df))) /\
         derived_at df_e (rank (map (String.eqb e) labels) i)
         = Some (item_fields norm_ppf o it)).
Proof.
  intros Hself Hdata Hv Hech.
  set (groups := map (fun k => (KStr (F:=F) k, take_rows df (map (String.eqb k) labels)))
                     (group_keys labels)).
  destruct (mapM_optimize_echelon self o groups s Hself)
    as (results & s' & Hm & [ext Hext] & Hf).
  { unfold groups. apply Forall_map. apply Forall_forall. intros k _. simpl.
    now apply valid_take_rows. }
  exists results, s'. split; [|split; [|split; [|split; [|split]]]].
  4: apply Sorted_group_keys.
  4: intros e; apply In_group_keys.
  - unfold optimize_multi_echelon, bind, get_frame, lift, groupby.
    rewrite Hdata, Hech. fold groups. rewrite Hm. reflexivity.
  - rewrite Hext, firstn_app, Nat.sub_diag, firstn_all. simpl. apply app_nil_r.
  - erewrite Forall2_fst; [ | | exact Hf]; [|intros g r [H _]; exact H].
    unfold groups. rewrite !map_map. reflexivity.
  - intros i e it Hi Hit.
    assert (Hin : In (KStr e, take_rows df (map (String.eqb e) labels)) groups).
    { unfold groups. apply in_map_iff. exists e. split; [reflexivity|].
      apply In_group_keys. eapply nth_error_In; exact Hi. }
    destruct (Forall2_In _ _ _ _ Hf Hin)
      as ([k l] & Hr & Hk & df_e & Hl & Hidx & Hkeep & Hrows).
    simpl in Hk, Hl, Hidx, Hkeep, Hrows. subst k.
    exists l, df_e. split; [exact Hr|]. split; [exact Hl|]. split; [exact Hidx|].
    split; [intros key Hkey; rewrite (Hkeep key Hkey); apply lookup_take_rows|].
    apply Hrows. apply item_at_take_rows; [|exact Hit].
    rewrite nth_error_map, Hi. simpl. now rewrite String.eqb_refl.
Qed.

(** X13.  [optimize_multi_echelon] raises [KeyError] on a table with no
    column [echelon], and returns the empty [dict] on a table with that
    column and no rows; in both cases the store is left as it is, and the
    optimizer is not asked for. *)
Theorem optimize_multi_echelon_edges {NS} (s : store (F:=F)) self data
    (network_structure : NS) df :
  nth_error s data = Some (OFrame df) ->
  (lookup "echelon" (columns df) = None ->
   optimize_multi_echelon norm_ppf float_groups self data network_structure s
   = (Raise (KeyError "echelon"), s)) /\
  (lookup "echelon" (columns df) = Some (ObjectCol []) ->
   optimize_multi_echelon norm_ppf float_groups self data network_structure s
   = (Ok [], s)).
Proof.
  intros Hdata. split; intros H;
    unfold optimize_multi_echelon, bind, get_frame, lift, groupby;
    rewrite Hdata, H; reflexivity.
Qed.

End Echelons.

(** *** A group that raises *)

Section EchelonsRaise.
Context {F : Type} {FO : Float64 F}.
Variable norm_ppf : F -> F.
Variable float_groups : list F -> list (F * list bool).

Lemma kept_optimize_echelon n self (g : group_key (F:=F) * DataFrame (F:=F)) :
  kept (F:=F) n (optimize_echelon norm_ppf self g) (fun _ => True).
Proof.
  unfold optimize_echelon.
  eapply kept_bind; [apply kept_alloc|]. intros l _.
  eapply kept_bind; [apply kept_optimize_inventory_levels|]. intros r _.
  now apply kept_ret.
Qed.

Lemma kept_optimize_multi_echelon {NS} n self data (network_structure : NS) :
  kept (F:=F) n
    (optimize_multi_echelon norm_ppf float_groups self data network_structure)
    (fun _ => True).
Proof.
  unfold optimize_multi_echelon.
  eapply kept_bind; [apply kept_get_frame|]. intros df _.
  eapply kept_bind; [apply kept_lift|]. intros groups _.
  eapply kept_bind; [apply kept_mapM; intros g; apply kept_optimize_echelon|].
  intros rs _. now apply kept_ret.
Qed.

Lemma optimize_echelon_raises (S : store (F:=F)) self o g :
  nth_error S self = Some (OOptimizer o) ->
  is_py (holding_cost_rate o) = true ->
  echelon_group g -> zero_divisor_in o g ->
  fst (optimize_echelon norm_ppf self g S) = Raise ZeroDivisionError.
Proof.
  intros Hself Hpy (Hwf & Hcols & ids & Hids) (j & u & Hu & Hz).
  assert (H : fst (optimize_inventory_levels norm_ppf self (List.length S)
                     (S ++ [OFrame (snd g)])) = Raise ZeroDivisionError).
  { apply (zero_divisor_run norm_ppf (S ++ [OFrame (snd g)]) self (List.length S)
             o (snd g) "echelon" ids j u); try assumption.
    - now apply nth_error_old.
    - apply nth_error_last.
    - simpl. intuition discriminate. }
  unfold optimize_echelon, bind, alloc.
  destruct (optimize_inventory_levels norm_ppf self (List.length S)
              (S ++ [OFrame (snd g)])) as [[v|e] S'];
    simpl in H |- *; [discriminate|now injection H as ->].
Qed.

Lemma no_zero_divisor_valid (o : InventoryOptimizer (F:=F)) g uc :
  echelon_group g ->
  lookup "unit_cost" (columns (snd g)) = Some (Float64Col uc) ->
  existsb (fun u => is_zero (fmul (val (holding_cost_rate o)) u)) uc = false ->
  valid_input o (snd g).
Proof.
  intros (Hwf & Hcols & _) Huc Hex. split; [exact Hwf|]. split; [exact Hcols|].
  intros i u Hu. rewrite (numeric_at_lookup _ _ _ _ Huc) in Hu.
  destruct (is_zero (fmul (val (holding_cost_rate o)) u)) eqn:E; [|reflexivity].
  rewrite <- Hex. symmetry. apply existsb_exists. exists u.
  split; [eapply nth_error_In; exact Hu | exact E].
Qed.

Lemma mapM_optimize_echelon_raises self o
    (groups : list (group_key (F:=F) * DataFrame (F:=F))) :
  forall S : store (F:=F),
  nth_error S self = Some (OOptimizer o) ->
  is_py (holding_cost_rate o) = true ->
  Forall echelon_group groups ->
  Exists (zero_divisor_in o) groups ->
  fst (mapM (optimize_echelon norm_ppf self) groups S) = Raise ZeroDivisionError.
Proof.
  induction groups as [|g groups IH]; intros S Hself Hpy Hall Hbad.
  - inversion Hbad.
  - inversion Hall as [|? ? Hg Hrest]; subst.
    destruct (proj1 (proj2 Hg) "unit_cost") as [uc Huc]; [simpl; tauto|].
    destruct (existsb (fun u => is_zero (fmul (val (holding_cost_rate o)) u)) uc) eqn:E.
    + apply existsb_exists in E. destruct E as (u & Hin & Hz).
      destruct (In_nth_error _ _ Hin) as [j Hj].
      assert (Hb : zero_divisor_in o g).
      { exists j, u. split; [|exact Hz]. now rewrite (numeric_at_lookup _ _ _ _ Huc). }
      pose proof (optimize_echelon_raises S self o g Hself Hpy Hg Hb) as Hr.
      simpl. unfold bind at 1.
      destruct (optimize_echelon norm_ppf self g S) as [[v|e] S']; simpl in *;
        [discriminate|now injection Hr as ->].
    + pose proof (no_zero_divisor_valid o g uc Hg Huc E) as Hv.
      destruct (optimize_echelon_run norm_ppf S self o g Hself Hv)
        as (df' & Hrun & _).
      simpl. unfold bind at 1. rewrite Hrun.
      assert (Hbad' : Exists (zero_divisor_in o) groups).
      { inversion Hbad as [? ? Hb|? ? Hb]; subst; [|exact Hb]. exfalso.
        destruct Hb as (j & u & Hu & Hz).
        rewrite (numeric_at_lookup _ _ _ _ Huc) in Hu.
        assert (existsb (fun u => is_zero (fmul (val (holding_cost_rate o)) u)) uc = true)
          as E'; [|congruence].
        apply existsb_exists. exists u. split; [eapply nth_error_In; exact Hu|exact Hz]. }
      specialize (IH ((S ++ [OFrame (snd g)]) ++ [OFrame df'])
                     ltac:(now apply nth_error_old, nth_error_old) Hpy Hrest Hbad').
      unfold bind at 1.
      destruct (mapM (optimize_echelon norm_ppf self) groups
                  ((S ++ [OFrame (snd g)]) ++ [OFrame df'])) as [[v|e] S'];
        simpl in *; [discriminate|now injection IH as ->].
Qed.

(** X16.  One row with [holding_cost_rate * unit_cost = 0] anywhere in a
    table with a string column [echelon] makes [optimize_multi_echelon]
    raise [ZeroDivisionError] when [holding_cost_rate] is a Python float:
    the echelons optimized before are lost with it, and no [dict] is
    returned.  Whether the call returns or raises, the objects of the
    store are as before. *)
Theorem optimize_multi_echelon_aborts {NS} (s : store (F:=F)) self data
    (network_structure : NS) o df labels i0 u0 :
  nth_error s self = Some (OOptimizer o) ->
  nth_error s data = Some (OFrame df) ->
  wf_frame df ->
  (forall k, In k input_fields ->
     exists l, lookup k (columns df) = Some (Float64Col l)) ->
  lookup "echelon" (columns df) = Some (ObjectCol labels) ->
  is_py (holding_cost_rate o) = true ->
  numeric_at df "unit_cost" i0 = Some u0 ->
  is_zero (fmul (val (holding_cost_rate o)) u0) = true ->
  fst (optimize_multi_echelon norm_ppf float_groups self data network_structure s)
  = Raise ZeroDivisionError /\
  firstn (List.length s)
    (snd (optimize_multi_echelon norm_ppf float_groups self data network_structure s))
  = s.
Proof.
  intros Hself Hdata Hwf Hcols Hech Hpy Hu0 Hz. split.
  2:{ destruct (kept_optimize_multi_echelon (List.length s) self data
                  network_structure s (le_n _)) as (H & _).
      rewrite H. apply firstn_all. }
  destruct (Hcols "unit_cost") as [uc Huc]; [simpl; tauto|].
  pose proof (lookup_wf _ _ _ Hwf Huc) as Luc.
  pose proof (lookup_wf _ _ _ Hwf Hech) as Lech. simpl in Luc, Lech.
  assert (Hi0 : i0 < List.length labels).
  { rewrite Lech, <- Luc. apply nth_error_Some.
    rewrite (numeric_at_lookup _ _ _ _ Huc) in Hu0. congruence. }
  destruct (nth_error_Some_lt labels i0 Hi0) as [e0 He0].
  set (groups := map (fun k => (KStr (F:=F) k, take_rows df (map (String.eqb k) labels)))
                     (group_keys labels)).
  assert (Hr : fst (mapM (optimize_echelon norm_ppf self) groups s)
               = Raise ZeroDivisionError).
  { apply mapM_optimize_echelon_raises with (o := o); try assumption.
    - unfold groups. apply Forall_map, Forall_forall. intros k _.
      split; [now apply wf_take_rows|]. split.
      + intros key Hkey. destruct (Hcols key Hkey) as [l Hl].
        simpl. rewrite lookup_take_rows, Hl. simpl. eauto.
      + simpl. rewrite lookup_take_rows, Hech. simpl. eauto.
    - apply Exists_exists.
      exists (KStr e0, take_rows df (map (String.eqb e0) labels)). split.
      + unfold groups. apply in_map_iff. exists e0. split; [reflexivity|].
        apply In_group_keys. eapply nth_error_In; exact He0.
      + exists (rank (map (String.eqb e0) labels) i0), u0. split; [|exact Hz].
        apply numeric_at_take_rows; [|exact Hu0].
        rewrite nth_error_map, He0. simpl. now rewrite String.eqb_refl. }
  unfold optimize_multi_echelon, bind, get_frame, lift, groupby.
  rewrite Hdata, Hech. fold groups.
  destruct (mapM (optimize_echelon norm_ppf self) groups s) as [[v|e] S'];
    simpl in *; [discriminate|now injection Hr as ->].
Qed.

End EchelonsRaise.

(** ** Binary64: NaN *)

Lemma sqrt_negative (x : float) :
  PrimFloat.ltb x 0 = true -> PrimFloat.sqrt x = nan.
Proof.
  intros Hx. apply Prim2SF_inj. rewrite FloatAxioms.ltb_spec in Hx.
  rewrite sqrt_spec.
  change (Prim2SF 0) with (S754_zero false) in Hx.
  change (Prim2SF nan) with S754_nan.
  destruct (Prim2SF x) as [sx|sx| |sx mx ex]; try (cbv in Hx; discriminate);
    destruct sx; try (cbv in Hx; discriminate); reflexivity.
Qed.

Lemma nan_add (y : float) : (nan + y)%float = nan.
Proof. apply Prim2SF_inj. rewrite add_spec. reflexivity. Qed.

Lemma nan_mul (y : float) : (nan * y)%float = nan.
Proof. apply Prim2SF_inj. rewrite mul_spec. reflexivity. Qed.

Lemma div_nan (x : float) : (x / nan)%float = nan.
Proof.
  apply Prim2SF_inj. rewrite div_spec. change (Prim2SF nan) with S754_nan.
  destruct (Prim2SF x) as [s|s| |s m e]; reflexivity.
Qed.

(** * Further properties of the code *)

(** X4.  A table of [float64] columns only hands [numpy.float64] values to
    the scalar method, and the call never raises, whatever the numbers:
    the [eoq] of every row is the closed form in the carrier's operations.
    In binary64 a row whose divisor [holding_cost_rate * unit_cost] is zero
    gets an [eoq] that is not finite: [+inf] when the divisor is [+0] and
    [2 * demand_mean * ordering_cost] is positive. *)
Theorem float_table_never_raises :
  (forall F (FO : Float64 F) (norm_ppf : F -> F) (s : store (F:=F)) self data o df,
     nth_error s self = Some (OOptimizer o) ->
     nth_error s data = Some (OFrame df) ->
     wf_frame df ->
     (forall k, In k input_fields ->
        exists l, lookup k (columns df) = Some (Float64Col l)) ->
     has_object df = false ->
     exists df',
       optimize_inventory_levels norm_ppf self data s
       = (Ok (List.length s), s ++ [OFrame df']) /\
       forall i it, item_at df i = Some it ->
         numeric_at df' "eoq" i
         = Some (eoq_formula (val (holding_cost_rate o))
                   (demand_mean it) (ordering_cost it) (unit_cost it))) /\
  (forall (norm_ppf : float -> float) (s : store (F:=float)) self data o df,
     nth_error s self = Some (OOptimizer o) ->
     nth_error s data = Some (OFrame df) ->
     wf_frame df ->
     (forall k, In k input_fields ->
        exists l, lookup k (columns df) = Some (Float64Col l)) ->
     has_object df = false ->
     exists df',
       optimize_inventory_levels norm_ppf self data s
       = (Ok (List.length s), s ++ [OFrame df']) /\
       forall i it, item_at df i = Some it ->
         exists q,
           numeric_at df' "eoq" i = Some q /\
           (PrimFloat.eqb (val (holding_cost_rate o) * unit_cost it) 0 = true ->
            PrimFloat.is_finite q = false) /\
           ((val (holding_cost_rate o) * unit_cost it)%float = 0%float ->
            PrimFloat.ltb 0 (2 * demand_mean it * ordering_cost it) = true ->
            q = infinity)).
Proof.
  split.
  - intros F FO norm_ppf s self data o df. apply float_table_run.
  - intros norm_ppf s self data o df Hs Hd Hwf Hcols Hobj.
    destruct (float_table_run norm_ppf s self data o df Hs Hd Hwf Hcols Hobj)
      as (df' & Hrun & Hrows).
    exists df'. split; [exact Hrun|]. intros i it Hit.
    eexists. split; [exact (Hrows i it Hit)|]. unfold eoq_formula. split.
    + intros Hz. now apply sqrt_div_zero_not_finite.
    + intros Hz Hpos. cbn [fsqrt fdiv fmul ftwo binary64]. rewrite Hz.
      now apply sqrt_div_pos_zero.
Qed.

(** X15.  In binary64 nothing checks the sign of the inputs: in a row of a
    valid input whose quotient [(2 * demand_mean * ordering_cost) /
    (holding_cost_rate * unit_cost)] is negative (a negative demand, say),
    [eoq] is NaN, and with it [optimal_inventory], the two annual costs
    and their total.  The call returns, and the other rows are computed as
    ever. *)
Theorem negative_quotient_row_is_nan (norm_ppf : float -> float)
    (s : store (F:=float)) self data o df :
  nth_error s self = Some (OOptimizer o) ->
  nth_error s data = Some (OFrame df) ->
  valid_input o df ->
  exists df',
    optimize_inventory_levels norm_ppf self data s
    = (Ok (List.length s), s ++ [OFrame df']) /\
    forall i it, item_at df i = Some it ->
      derived_at df' i = Some (item_fields norm_ppf o it) /\
      (PrimFloat.ltb (2 * demand_mean it * ordering_cost it
                      / (val (holding_cost_rate o) * unit_cost it)) 0 = true ->
       eoq (item_fields norm_ppf o it) = nan /\
       optimal_inventory (item_fields norm_ppf o it) = nan /\
       annual_holding_cost (item_fields norm_ppf o it) = nan /\
       annual_ordering_cost (item_fields norm_ppf o it) = nan /\
       total_annual_cost (item_fields norm_ppf o it) = nan).
Proof.
  intros Hs Hd Hv.
  destruct (optimize_inventory_levels_run norm_ppf s self data o df Hs Hd Hv)
    as (df' & Hrun & _ & _ & _ & _ & _ & Hrows).
  exists df'. split; [exact Hrun|]. intros i it Hit.
  destruct (Hrows i (item_at_lt _ _ _ (proj1 Hv) Hit)) as (it' & Hit' & Hder).
  assert (it' = it) as -> by congruence.
  split; [exact Hder|]. intros Hneg.
  unfold item_fields.
  cbn [eoq optimal_inventory annual_holding_cost annual_ordering_cost total_annual_cost].
  assert (Hq : eoq_formula (val (holding_cost_rate o)) (demand_mean it)
                 (ordering_cost it) (unit_cost it) = nan).
  { unfold eoq_formula. cbn [fsqrt fdiv fmul ftwo binary64]. now apply sqrt_negative. }
  rewrite Hq. cbn [fadd fmul fdiv binary64].
  now rewrite !nan_add, !nan_mul, div_nan, !nan_mul, !nan_add.
Qed.

(** * The further properties at work *)

Ltac in_fields H :=
  simpl in H; repeat (destruct H as [<- | H]; [eexists; reflexivity|]); contradiction.

Lemma missing_column_raises_KeyError_witness :
  fst (optimize_inventory_levels (norm_ppf_b64 norm_ppf_table) 0 1
         [OOptimizer default_optimizer_b64; OFrame table_without_lead_time_std])
  = Raise (KeyError "lead_time_std") /\
  firstn 2 (snd (optimize_inventory_levels (norm_ppf_b64 norm_ppf_table) 0 1
                   [OOptimizer default_optimizer_b64; OFrame table_without_lead_time_std]))
  = [OOptimizer default_optimizer_b64; OFrame table_without_lead_time_std].
Proof.
  apply (missing_column_raises_KeyError (norm_ppf_b64 norm_ppf_table)
           [OOptimizer default_optimizer_b64; OFrame table_without_lead_time_std]
           0 1 default_optimizer_b64 table_without_lead_time_std
           ["demand_mean"; "lead_time_mean"] "lead_time_std"
           ["demand_std"; "ordering_cost"; "unit_cost"]);
    [ reflexivity | reflexivity | repeat constructor | discriminate | reflexivity
    | intros k Hk; in_fields Hk | reflexivity ].
Defined.

Lemma string_column_raises_TypeError_witness :
  fst (optimize_inventory_levels (norm_ppf_b64 norm_ppf_table) 0 1
         [OOptimizer default_optimizer_b64; OFrame table_with_text_column])
  = Raise TypeError /\
  firstn 2 (snd (optimize_inventory_levels (norm_ppf_b64 norm_ppf_table) 0 1
                   [OOptimizer default_optimizer_b64; OFrame table_with_text_column]))
  = [OOptimizer default_optimizer_b64; OFrame table_with_text_column].
Proof.
  apply (string_column_raises_TypeError (norm_ppf_b64 norm_ppf_table)
           [OOptimizer default_optimizer_b64; OFrame table_with_text_column]
           0 1 default_optimizer_b64 table_with_text_column "demand_std" ["200"]);
    [ reflexivity | reflexivity | repeat constructor | discriminate
    | intros k Hk; in_fields Hk | simpl; tauto | reflexivity ].
Defined.

Lemma zero_divisor_aborts_batch_witness :
  fst (optimize_inventory_levels (norm_ppf_b64 norm_ppf_table) 0 1
         [OOptimizer default_optimizer_b64; OFrame table_with_free_item])
  = Raise ZeroDivisionError /\
  firstn 2 (snd (optimize_inventory_levels (norm_ppf_b64 norm_ppf_table) 0 1
                   [OOptimizer default_optimizer_b64; OFrame table_with_free_item]))
  = [OOptimizer default_optimizer_b64; OFrame table_with_free_item].
Proof.
  apply (zero_divisor_aborts_batch (norm_ppf_b64 norm_ppf_table)
           [OOptimizer default_optimizer_b64; OFrame table_with_free_item]
           0 1 default_optimizer_b64 table_with_free_item "sku_id"
           ["SKU-0001"; "SKU-0002"] 1 0%float);
    [ reflexivity | reflexivity | repeat constructor
    | intros k Hk; in_fields Hk | reflexivity
    | simpl; intuition discriminate | reflexivity | reflexivity | reflexivity ].
Defined.

Lemma float_table_never_raises_witness :
  exists df',
    optimize_inventory_levels (norm_ppf_b64 norm_ppf_table) 0 1
      [OOptimizer default_optimizer_b64; OFrame numeric_table_with_free_item]
    = (Ok 2, [OOptimizer default_optimizer_b64; OFrame numeric_table_with_free_item]
             ++ [OFrame df']) /\
    numeric_at df' "eoq" 0 = Some 141.42135623730951%float /\
    numeric_at df' "eoq" 1 = Some infinity.
Proof.
  destruct (proj2 float_table_never_raises (norm_ppf_b64 norm_ppf_table)
              [OOptimizer default_optimizer_b64; OFrame numeric_table_with_free_item]
              0 1 default_optimizer_b64 numeric_table_with_free_item
              eq_refl eq_refl ltac:(repeat constructor)
              ltac:(intros k Hk; in_fields Hk) eq_refl)
    as (df' & Hrun & Hrows).
  exists df'. split; [exact Hrun|]. split.
  - destruct (proj1 float_table_never_raises float binary64 (norm_ppf_b64 norm_ppf_table)
                [OOptimizer default_optimizer_b64; OFrame numeric_table_with_free_item]
                0 1 default_optimizer_b64 numeric_table_with_free_item
                eq_refl eq_refl ltac:(repeat constructor)
                ltac:(intros k Hk; in_fields Hk) eq_refl)
      as (df'' & Hrun' & Hrows').
    rewrite Hrun in Hrun'. injection Hrun' as ->.
    exact (Hrows' 0 _ eq_refl).
  - destruct (Hrows 1 _ eq_refl) as (q & Hq & _ & Hinf).
    rewrite Hq. f_equal. apply Hinf; reflexivity.
Defined.

Lemma result_column_names_witness :
  exists df',
    optimize_inventory_levels (norm_ppf_b64 norm_ppf_table) 0 1
      [OOptimizer default_optimizer_b64; OFrame table_with_reorder_point]
    = (Ok 2, [OOptimizer default_optimizer_b64; OFrame table_with_reorder_point]
             ++ [OFrame df']) /\
    map fst (columns df')
    = ["sku_id"; "reorder_point"; "demand_mean"; "demand_std"; "lead_time_mean";
       "lead_time_std"; "unit_cost"; "ordering_cost"; "lead_time_demand";
       "lead_time_demand_std"; "eoq"; "safety_stock"; "optimal_inventory";
       "annual_holding_cost"; "annual_ordering_cost"; "total_annual_cost"].
Proof.
  apply (result_column_names (norm_ppf_b64 norm_ppf_table)
           [OOptimizer default_optimizer_b64; OFrame table_with_reorder_point]
           0 1 default_optimizer_b64 table_with_reorder_point eq_refl eq_refl).
  split; [repeat constructor|split].
  - intros k Hk; in_fields Hk.
  - intros [|[|i]] u; unfold numeric_at; simpl; try discriminate.
    now intros [= <-].
Defined.

Lemma optimize_twice_witness :
  exists df',
    optimize_inventory_levels (norm_ppf_b64 norm_ppf_table) 0 1 scenario_store
    = (Ok 2, scenario_store ++ [OFrame df']) /\
    optimize_inventory_levels (norm_ppf_b64 norm_ppf_table) 0 2
      (scenario_store ++ [OFrame df'])
    = (Ok 3, (scenario_store ++ [OFrame df']) ++ [OFrame df']).
Proof.
  exact (optimize_twice (norm_ppf_b64 norm_ppf_table) scenario_store 0 1
           default_optimizer_b64 _ eq_refl eq_refl scenario_valid).
Defined.

Lemma stockout_cost_rate_unused_witness :
  exists df',
    optimize_inventory_levels (norm_ppf_b64 norm_ppf_table) 0 1 scenario_store
    = (Ok 2, scenario_store ++ [OFrame df']) /\
    optimize_inventory_levels (norm_ppf_b64 norm_ppf_table) 1 0
      [OFrame (one_item_frame "SKU-0001" 1000%float 200%float 2%float 0.5%float
                 20%float 50%float);
       OOptimizer (mkInventoryOptimizer (Py 0.25%float) (Np 7%float) (Py 0.95%float))]
    = (Ok 2,
       [OFrame (one_item_frame "SKU-0001" 1000%float 200%float 2%float 0.5%float
                  20%float 50%float);
        OOptimizer (mkInventoryOptimizer (Py 0.25%float) (Np 7%float) (Py 0.95%float))]
       ++ [OFrame df']).
Proof.
  exact (stockout_cost_rate_unused (norm_ppf_b64 norm_ppf_table) scenario_store
           [OFrame (one_item_frame "SKU-0001" 1000%float 200%float 2%float 0.5%float
                      20%float 50%float);
            OOptimizer (mkInventoryOptimizer (Py 0.25%float) (Np 7%float) (Py 0.95%float))]
           0 1 1 0 default_optimizer_b64
           (mkInventoryOptimizer (Py 0.25%float) (Np 7%float) (Py 0.95%float))
           _ eq_refl eq_refl eq_refl eq_refl eq_refl eq_refl scenario_valid).
Defined.

Lemma save_then_load_witness :
  bind (save_model 0) load_model
    [OOptimizer (mkInventoryOptimizer (Py 0.3%float) (Np 0.5%float) (Py 0.99%float))]
  = (Ok 1,
     [OOptimizer (mkInventoryOptimizer (Py 0.3%float) (Np 0.5%float) (Py 0.99%float))]
     ++ [OOptimizer (mkInventoryOptimizer (Py 0.3%float) (Np 0.5%float) (Py 0.99%float))]) /\
  nth_error
    ([OOptimizer (mkInventoryOptimizer (Py 0.3%float) (Np 0.5%float) (Py 0.99%float))]
     ++ [OOptimizer (mkInventoryOptimizer (Py 0.3%float) (Np 0.5%float) (Py 0.99%float))]) 0
  = Some (OOptimizer (mkInventoryOptimizer (Py 0.3%float) (Np 0.5%float) (Py 0.99%float))).
Proof.
  exact (save_then_load
           [OOptimizer (mkInventoryOptimizer (Py 0.3%float) (Np 0.5%float) (Py 0.99%float))]
           0 _ eq_refl).
Defined.

Lemma load_model_missing_key_witness :
  load_model [("holding_cost_rate", Py 0.25%float); ("service_level", Py 0.95%float)]
    [OOptimizer default_optimizer_b64]
  = (Raise (KeyError "stockout_cost_rate"), [OOptimizer default_optimizer_b64]).
Proof.
  apply (load_model_missing_key [OOptimizer default_optimizer_b64]
           [("holding_cost_rate", Py 0.25%float); ("service_level", Py 0.95%float)]
           ["holding_cost_rate"] "stockout_cost_rate" ["service_level"]);
    [ reflexivity | intros k Hk; in_fields Hk | reflexivity ].
Defined.

Lemma optimize_inventory_composes_witness :
  exists df',
    optimize_inventory (norm_ppf_b64 norm_ppf_table) 0 [OFrame app_table]
    = (Ok 3,
       [OFrame app_table]
       ++ [OFrame (prepared app_table [120%float] (Float64Col [2%float]));
           OOptimizer default_optimizer; OFrame df']) /\
    derived_at df' 0
    = Some (item_fields (norm_ppf_b64 norm_ppf_table) default_optimizer
              (mkItem 43800%float 8760%float 2%float 0.5%float 20%float 50%float)).
Proof.
  destruct (optimize_inventory_composes (norm_ppf_b64 norm_ppf_table)
              [OFrame app_table] 0 app_table
              [120%float] [2%float] [0.5%float] [20%float] [50%float]
              eq_refl ltac:(repeat constructor) eq_refl eq_refl eq_refl eq_refl eq_refl)
    as (df' & Hrun & _ & _ & Hrows).
  { intros u [<- | []]. reflexivity. }
  exists df'. split; [exact Hrun|].
  exact (Hrows 0 _ _ _ _ _ eq_refl eq_refl eq_refl eq_refl eq_refl).
Defined.

Lemma optimize_inventory_raises_witness :
  optimize_inventory (norm_ppf_b64 norm_ppf_table) 0 [OFrame table_without_lead_time_std]
  = (Raise (KeyError "sales_velocity"),
     [OFrame table_without_lead_time_std] ++ [OFrame table_without_lead_time_std]).
Proof.
  exact (proj1 (optimize_inventory_raises (norm_ppf_b64 norm_ppf_table)
                  [OFrame table_without_lead_time_std] 0 table_without_lead_time_std
                  eq_refl) eq_refl).
Defined.

Lemma echelon_table_valid : valid_input default_optimizer_b64 echelon_table.
Proof.
  split; [repeat constructor|split].
  - intros k Hk; in_fields Hk.
  - intros [|[|[|[|i]]]] u; unfold numeric_at; simpl; try discriminate;
      now intros [= <-].
Defined.

Lemma optimize_multi_echelon_per_group_witness :
  exists results s',
    optimize_multi_echelon (norm_ppf_b64 norm_ppf_table) (fun _ => []) 0 1 tt
      [OOptimizer default_optimizer_b64; OFrame echelon_table]
    = (Ok results, s') /\
    map fst results = [KStr "dc"; KStr "store"] /\
    exists l df_e,
      In (KStr "store", l) results /\
      nth_error s' l = Some (OFrame df_e) /\
      index df_e = [0; 2] /\
      lookup "echelon" (columns df_e) = Some (ObjectCol ["store"; "store"]) /\
      derived_at df_e 1
      = Some (item_fields (norm_ppf_b64 norm_ppf_table) default_optimizer_b64
                (mkItem 800%float 100%float 1%float 0.25%float 10%float 50%float)).
Proof.
  destruct (optimize_multi_echelon_per_group (norm_ppf_b64 norm_ppf_table) (fun _ => [])
              [OOptimizer default_optimizer_b64; OFrame echelon_table] 0 1 tt
              default_optimizer_b64 echelon_table ["store"; "dc"; "store"]
              eq_refl eq_refl echelon_table_valid eq_refl)
    as (results & s' & Hrun & _ & Hkeys & _ & _ & Hrows).
  exists results, s'. split; [exact Hrun|]. split; [exact Hkeys|].
  destruct (Hrows 2 "store" _ eq_refl eq_refl)
    as (l & df_e & Hin & Hl & Hidx & Hkeep & Hder).
  exists l, df_e. split; [exact Hin|]. split; [exact Hl|]. split; [exact Hidx|].
  split; [|exact Hder].
  rewrite (Hkeep "echelon"); [reflexivity|]. simpl. intuition discriminate.
Defined.

Lemma optimize_multi_echelon_edges_witness :
  optimize_multi_echelon (norm_ppf_b64 norm_ppf_table) (fun _ => []) 0 1 tt scenario_store
  = (Raise (KeyError "echelon"), scenario_store).
Proof.
  exact (proj1 (optimize_multi_echelon_edges (norm_ppf_b64 norm_ppf_table) (fun _ => [])
                  scenario_store 0 1 tt _ eq_refl) eq_refl).
Defined.

Lemma optimize_multi_echelon_aborts_witness :
  fst (optimize_multi_echelon (norm_ppf_b64 norm_ppf_table) (fun _ => []) 0 1 tt
         [OOptimizer default_optimizer_b64; OFrame echelon_table_with_free_item])
  = Raise ZeroDivisionError /\
  firstn 2
    (snd (optimize_multi_echelon (norm_ppf_b64 norm_ppf_table) (fun _ => []) 0 1 tt
            [OOptimizer default_optimizer_b64; OFrame echelon_table_with_free_item]))
  = [OOptimizer default_optimizer_b64; OFrame echelon_table_with_free_item].
Proof.
  apply (optimize_multi_echelon_aborts (norm_ppf_b64 norm_ppf_table) (fun _ => [])
           [OOptimizer default_optimizer_b64; OFrame echelon_table_with_free_item]
           0 1 tt default_optimizer_b64 echelon_table_with_free_item
           ["store"; "dc"; "store"] 2 0%float);
    [ reflexivity | reflexivity | repeat constructor
    | intros k Hk; in_fields Hk | reflexivity | reflexivity | reflexivity
    | reflexivity ].
Defined.

Lemma negative_demand_valid :
  valid_input default_optimizer_b64
    (one_item_frame "SKU-0001" (-1000)%float 200%float 2%float 0.5%float 20%float 50%float).
Proof. apply valid_one_item. reflexivity. Defined.

Lemma negative_quotient_row_is_nan_witness :
  exists df' r,
    optimize_inventory_levels (norm_ppf_b64 norm_ppf_table) 0 1
      [OOptimizer default_optimizer_b64;
       OFrame (one_item_frame "SKU-0001" (-1000)%float 200%float 2%float 0.5%float
                 20%float 50%float)]
    = (Ok 2,
       [OOptimizer default_optimizer_b64;
        OFrame (one_item_frame "SKU-0001" (-1000)%float 200%float 2%float 0.5%float
                  20%float 50%float)]
       ++ [OFrame df']) /\
    derived_at df' 0 = Some r /\
    eoq r = nan /\ optimal_inventory r = nan /\ annual_holding_cost r = nan /\
    annual_ordering_cost r = nan /\ total_annual_cost r = nan.
Proof.
  destruct (negative_quotient_row_is_nan (norm_ppf_b64 norm_ppf_table)
              [OOptimizer default_optimizer_b64;
               OFrame (one_item_frame "SKU-0001" (-1000)%float 200%float 2%float
                         0.5%float 20%float 50%float)]
              0 1 default_optimizer_b64 _ eq_refl eq_refl negative_demand_valid)
    as (df' & Hrun & Hrows).
  destruct (Hrows 0 _ (item_at_one_item _ _ _ _ _ _ _)) as (Hder & Hnan).
  exists df'. eexists. split; [exact Hrun|]. split; [exact Hder|].
  apply Hnan. reflexivity.
Defined.
